(** * h.api: annotation mutation and search-query construction

    A shallow embedding of [h/api/views.py], [h/api/search.py] and
    [h/api/store.py].

    Python values that travel through these modules are JSON documents.
    A [dict] is kept as an association list: the request parameters are a
    webob MultiDict (ordered, with repeated keys), and Python's [==] on
    dicts ignores the order of the entries, so equality between documents
    is the boolean [py_eq], not Leibniz equality on the carrier.
    JSON numbers are restricted to integers. *)

From Stdlib Require Import List String Ascii ZArith Bool Lia.
Import ListNotations.
Open Scope string_scope.
Open Scope list_scope.
Open Scope Z_scope.

(** ** Values *)

Unset Elimination Schemes.
Inductive value : Type :=
| VNone
| VBool (b : bool)
| VInt (z : Z)
| VStr (s : string)
| VList (l : list value)
| VDict (d : list (string * value)).
Set Elimination Schemes.

Definition dict := list (string * value).

(** Exceptions the modelled code can raise. *)
Inductive exn : Type :=
| KeyError (key : string)
| ValueError
| TypeError
| AttributeError (attr : string)
| RuntimeError (reason : string) (status : Z).

Inductive result (A : Type) : Type :=
| Ok (a : A)
| Raise (e : exn).
Arguments Ok {A} a.
Arguments Raise {A} e.

Definition bind {A B} (r : result A) (k : A -> result B) : result B :=
  match r with
  | Ok a => k a
  | Raise e => Raise e
  end.

Notation "x <- r ;; k" := (bind r (fun x => k))
  (at level 61, r at next level, right associativity).

(** ** dict operations *)

Module Dict.

(** [d.get(k)]: the first binding of [k]. *)
Fixpoint get {A} (d : list (string * A)) (k : string) : option A :=
  match d with
  | [] => None
  | (k', v) :: d' => if String.eqb k' k then Some v else get d' k
  end.

(** [k in d] *)
Definition contains {A} (d : list (string * A)) (k : string) : bool :=
  match get d k with Some _ => true | None => false end.

(** [d.get(k, default)] *)
Definition get_default {A} (d : list (string * A)) (k : string) (default : A) : A :=
  match get d k with Some v => v | None => default end.

(** [d[k]] *)
Definition getitem {A} (d : list (string * A)) (k : string) : result A :=
  match get d k with Some v => Ok v | None => Raise (KeyError k) end.

(** [d[k] = v]: overwrite the binding in place, or add a new one. *)
Fixpoint set {A} (d : list (string * A)) (k : string) (v : A) : list (string * A) :=
  match d with
  | [] => [(k, v)]
  | (k', v') :: d' =>
      if String.eqb k' k then (k, v) :: d' else (k', v') :: set d' k v
  end.

(** [d.pop(k, None)] with the popped value dropped. *)
Fixpoint remove {A} (d : list (string * A)) (k : string) : list (string * A) :=
  match d with
  | [] => []
  | (k', v') :: d' =>
      if String.eqb k' k then remove d' k else (k', v') :: remove d' k
  end.

(** [d.pop(k)] *)
Definition pop {A} (d : list (string * A)) (k : string)
  : list (string * A) * result A :=
  match get d k with
  | Some v => (remove d k, Ok v)
  | None => (d, Raise (KeyError k))
  end.

(** [d.update(other)] *)
Definition update {A} (d other : list (string * A)) : list (string * A) :=
  fold_left (fun acc kv => set acc (fst kv) (snd kv)) other d.

(** [d.keys()] *)
Definition keys {A} (d : list (string * A)) : list string := map fst d.

End Dict.

(** ** Python's [==], [!=] and truth value *)

Fixpoint py_eq (a b : value) : bool :=
  match a, b with
  | VNone, VNone => true
  | VBool x, VBool y => Bool.eqb x y
  | VBool x, VInt y => Z.eqb (Z.b2z x) y
  | VInt x, VBool y => Z.eqb x (Z.b2z y)
  | VInt x, VInt y => Z.eqb x y
  | VStr x, VStr y => String.eqb x y
  | VList xs, VList ys =>
      (fix go (xs ys : list value) : bool :=
         match xs, ys with
         | [], [] => true
         | x :: xs', y :: ys' => py_eq x y && go xs' ys'
         | _, _ => false
         end) xs ys
  | VDict d1, VDict d2 =>
      Nat.eqb (List.length d1) (List.length d2) &&
      (fix all (d : list (string * value)) : bool :=
         match d with
         | [] => true
         | (k, v) :: d' =>
             match Dict.get d2 k with
             | Some w => py_eq v w
             | None => false
             end && all d'
         end) d1
  | _, _ => false
  end.

Definition py_ne (a b : value) : bool := negb (py_eq a b).

(** [bool(v)] *)
Definition truthy (v : value) : bool :=
  match v with
  | VNone => false
  | VBool b => b
  | VInt z => negb (Z.eqb z 0)
  | VStr s => negb (String.eqb s "")
  | VList l => match l with [] => false | _ => true end
  | VDict d => match d with [] => false | _ => true end
  end.

(** [iter(v)], as the list of items a comprehension runs over. *)
Definition py_iter (v : value) : result (list value) :=
  match v with
  | VList l => Ok l
  | VStr s => Ok (map (fun c => VStr (String c EmptyString)) (list_ascii_of_string s))
  | VDict d => Ok (map (fun kv => VStr (fst kv)) d)
  | VNone | VBool _ | VInt _ => Raise TypeError
  end.

(** [v[k]] for a string subscript. *)
Definition py_subscript (v : value) (k : string) : result value :=
  match v with
  | VDict d => Dict.getitem d k
  | _ => Raise TypeError
  end.

(** [v.keys()] *)
Definition py_keys (v : value) : result (list string) :=
  match v with
  | VDict d => Ok (Dict.keys d)
  | _ => Raise (AttributeError "keys")
  end.

(** ** h/api/nipsa/models.py *)

Module nipsa_models.

(** A row of the [nipsa_user] table. *)
Record NipsaUser : Type := { user_id : string }.

(** The rows a database session sees. *)
Definition Session := list NipsaUser.

(** [NipsaUser.get_by_id]: the row for [user_id], or [None]. *)
Definition get_by_id (session : Session) (uid : string) : option NipsaUser :=
  find (fun row => String.eqb (user_id row) uid) session.

(** Modelled from the spec: [nipsa_models.user_read], which [views._nipsa]
    calls, is not defined in the module; the suppression store answers
    [contains(userId)], presence of the entry meaning that the identity is
    suppressed.  It is read as the lookup by primary key. *)
Definition user_read (session : Session) (uid : string) : option NipsaUser :=
  get_by_id session uid.

End nipsa_models.

(** ** h/api/views.py *)

Module auth.
Record Consumer : Type := { key : string }.
Record User : Type := { id : string; consumer : Consumer }.
End auth.

(** These annotation fields are not to be set by the user. *)
Definition PROTECTED_FIELDS : list string :=
  ["created"; "updated"; "user"; "consumer"; "id"].

(** [for field in PROTECTED_FIELDS: fields.pop(field, None)] *)
Definition strip_protected (fields : dict) : dict :=
  fold_left (fun acc field => Dict.remove acc field) PROTECTED_FIELDS fields.

Record AnnotationEvent : Type :=
  { event_annotation : dict; event_action : string }.

(** What a view reads from and writes to the request: the decoded body
    ([ValueError] when it is not JSON), the authorization policy, the status
    code of the response and the events handed to [registry.notify]. *)
Record Request : Type :=
  { json_body : result dict;
    has_permission : string -> dict -> bool;
    status_code : Z;
    notified : list AnnotationEvent }.

Definition set_status_code (request : Request) (code : Z) : Request :=
  {| json_body := json_body request;
     has_permission := has_permission request;
     status_code := code;
     notified := notified request |}.

Definition notify (request : Request) (event : AnnotationEvent) : Request :=
  {| json_body := json_body request;
     has_permission := has_permission request;
     status_code := status_code request;
     notified := notified request ++ [event] |}.

Definition _publish_annotation_event
  (request : Request) (annotation : dict) (action : string) : Request :=
  notify request {| event_annotation := annotation; event_action := action |}.

Definition _api_error (request : Request) (reason : string) (code : Z)
  : Request * dict :=
  (set_status_code request code,
   [("status", VStr "failure"); ("reason", VStr reason)]).

(** The loop shared, statement for statement, by [_anonymize_deletes] and
    [store.anonymize_deletes]: for every action of the permissions that were
    there when the loop started, rebuild the list without [user]. *)
Fixpoint remove_from_permissions
  (user : value) (actions : list string) (annotation : dict)
  : dict * result unit :=
  match actions with
  | [] => (annotation, Ok tt)
  | action :: rest =>
      match (permissions <- Dict.getitem annotation "permissions" ;;
             roles <- py_subscript permissions action ;;
             items <- py_iter roles ;;
             let filtered := filter (fun role => py_ne role user) items in
             match permissions with
             | VDict d => Ok (VDict (Dict.set d action (VList filtered)))
             | _ => Raise TypeError
             end) with
      | Ok permissions' =>
          remove_from_permissions user rest
            (Dict.set annotation "permissions" permissions')
      | Raise e => (annotation, Raise e)
      end
  end.

(** Clear the author and remove the user from the annotation permissions. *)
Definition _anonymize_deletes (annotation : dict) : dict * result unit :=
  match Dict.pop annotation "user" with
  | (annotation, Raise e) => (annotation, Raise e)
  | (annotation, Ok user) =>
      let permissions := Dict.get_default annotation "permissions" (VDict []) in
      match py_keys permissions with
      | Raise e => (annotation, Raise e)
      | Ok actions => remove_from_permissions user actions annotation
      end
  end.

(** After [annotation.update(fields)] the value under ["permissions"] in
    [fields] is the very object the annotation holds, so what the
    anonymization writes into it shows in the caller's mapping as well. *)
Definition share_permissions (fields annotation : dict) : dict :=
  if Dict.contains fields "permissions" then
    match Dict.get annotation "permissions" with
    | Some permissions => Dict.set fields "permissions" permissions
    | None => fields
    end
  else fields.

Section Views.

(** [Annotation.save] belongs to [h.api.models]; it is taken as the change
    it makes to the annotation it stores. *)
Variable save : dict -> dict.

(** The [nipsa_user] table. *)
Variable session : nipsa_models.Session.

(** Return True if the given user ID is on the NIPSA list. *)
Definition _nipsa (uid : string) : bool :=
  match nipsa_models.user_read session uid with
  | Some _ => true
  | None => false
  end.

(** Create and store an annotation.  The first component is the caller's
    [fields] mapping as the call leaves it. *)
Definition _create_annotation (fields : dict) (user : auth.User)
  : dict * dict :=
  let fields := strip_protected fields in
  let annotation := fields in
  let annotation := Dict.set annotation "user" (VStr (auth.id user)) in
  let annotation :=
    Dict.set annotation "consumer" (VStr (auth.key (auth.consumer user))) in
  let annotation :=
    if _nipsa (auth.id user)
    then Dict.set annotation "not_in_public_site_areas" (VBool true)
    else annotation in
  (fields, save annotation).

(** The components are the annotation and the caller's [fields] as the
    call leaves them, and how the call ends. *)
Definition _update_annotation
  (annotation fields : dict) (has_admin_permission : bool)
  : dict * dict * result unit :=
  let fields := strip_protected fields in
  let changing_permissions :=
    match Dict.get fields "permissions" with
    | Some permissions =>
        py_ne permissions (Dict.get_default annotation "permissions" (VDict []))
    | None => false
    end in
  if changing_permissions && negb has_admin_permission then
    (annotation, fields,
     Raise (RuntimeError "Not authorized to change annotation permissions." 401))
  else
    let annotation := Dict.update annotation fields in
    if truthy (Dict.get_default annotation "deleted" (VBool false)) then
      match _anonymize_deletes annotation with
      | (annotation, Raise e) =>
          (annotation, share_permissions fields annotation, Raise e)
      | (annotation, Ok _) =>
          (save annotation, share_permissions fields annotation, Ok tt)
      end
    else (save annotation, fields, Ok tt).

(** Update the fields we received and store the updated version. *)
Definition update (context : dict) (request : Request)
  : dict * Request * result dict :=
  let annotation := context in
  match json_body request with
  | Raise ValueError =>
      let '(request, info) :=
        _api_error request "No JSON payload sent. Annotation not created." 400 in
      (annotation, request, Ok info)
  | Raise e => (annotation, request, Raise e)
  | Ok fields =>
      let has_admin_permission := has_permission request "admin" annotation in
      match _update_annotation annotation fields has_admin_permission with
      | (annotation, _, Raise (RuntimeError reason code)) =>
          let '(request, info) := _api_error request reason code in
          (annotation, request, Ok info)
      | (annotation, _, Raise e) => (annotation, request, Raise e)
      | (annotation, _, Ok _) =>
          let request := _publish_annotation_event request annotation "update" in
          (annotation, request, Ok annotation)
      end
  end.

End Views.

(** ** h/api/store.py *)

Module store.

Definition anonymize_deletes (annotation : dict) : dict * result unit :=
  if truthy (Dict.get_default annotation "deleted" (VBool false)) then
    let user := Dict.get_default annotation "user" (VStr "") in
    let annotation :=
      if truthy user then Dict.set annotation "user" (VStr "") else annotation in
    let permissions := Dict.get_default annotation "permissions" (VDict []) in
    match py_keys permissions with
    | Raise e => (annotation, Raise e)
    | Ok actions => remove_from_permissions user actions annotation
    end
  else (annotation, Ok tt).

End store.

(** ** h/api/search.py *)

(** [int(s)] on a string: surrounding whitespace is ignored, then an optional
    sign and at least one decimal digit; anything else is a [ValueError]. *)
Module PyInt.

Definition is_space (c : ascii) : bool :=
  let n := nat_of_ascii c in
  (Nat.eqb n 32 || (Nat.leb 9 n && Nat.leb n 13))%bool.

Fixpoint lstrip (l : list ascii) : list ascii :=
  match l with
  | c :: l' => if is_space c then lstrip l' else l
  | [] => []
  end.

Definition strip (l : list ascii) : list ascii :=
  rev (lstrip (rev (lstrip l))).

Definition digit (c : ascii) : option Z :=
  let n := nat_of_ascii c in
  if (Nat.leb 48 n && Nat.leb n 57)%bool then Some (Z.of_nat n - 48) else None.

Fixpoint digits (acc : Z) (l : list ascii) : option Z :=
  match l with
  | [] => Some acc
  | c :: l' =>
      match digit c with
      | Some d => digits (10 * acc + d) l'
      | None => None
      end
  end.

Definition unsigned (l : list ascii) : option Z :=
  match l with
  | [] => None
  | _ => digits 0 l
  end.

Definition parse (s : string) : option Z :=
  match strip (list_ascii_of_string s) with
  | "-"%char :: l => option_map Z.opp (unsigned l)
  | "+"%char :: l => unsigned l
  | l => unsigned l
  end.

Definition int (s : string) : result Z :=
  match parse s with
  | Some n => Ok n
  | None => Raise ValueError
  end.

End PyInt.

(** webob's MultiDict: the request parameters in the order they were sent,
    a key possibly more than once. *)
Module MultiDict.

Definition t := list (string * string).

(** [d.pop(key)]: removes and returns the first value of [key]. *)
Fixpoint pop (d : t) (key : string) : t * result string :=
  match d with
  | [] => ([], Raise (KeyError key))
  | (k, v) :: d' =>
      if String.eqb k key then (d', Ok v)
      else let '(d'', r) := pop d' key in ((k, v) :: d'', r)
  end.

(** [d.pop(key, default)] *)
Definition pop_default (d : t) (key default : string) : t * string :=
  match pop d key with
  | (d', Ok v) => (d', v)
  | (d', Raise _) => (d', default)
  end.

(** [key in d] *)
Definition contains (d : t) (key : string) : bool :=
  existsb (fun kv => String.eqb (fst kv) key) d.

(** [d.getall(key)] *)
Definition getall (d : t) (key : string) : list string :=
  map snd (filter (fun kv => String.eqb (fst kv) key) d).

(** [del d[key]]: removes every value of [key]. *)
Definition delitem (d : t) (key : string) : t * result unit :=
  if contains d key
  then (filter (fun kv => negb (String.eqb (fst kv) key)) d, Ok tt)
  else (d, Raise (KeyError key)).

(** [d.items()] *)
Definition items (d : t) : list (string * string) := d.

End MultiDict.

(** Return a NIPSA-filtered copy of the given query dict. *)
Definition nipsa_filter (query : dict) (user_id : option string) : result dict :=
  let should_clauses :=
    [VDict [("not", VDict [("term",
               VDict [("not_in_public_site_areas", VBool true)])])]] in
  let should_clauses :=
    match user_id with
    | Some uid =>
        if truthy (VStr uid)
        then should_clauses ++ [VDict [("term", VDict [("user", VStr uid)])]]
        else should_clauses
    | None => should_clauses
    end in
  inner <- Dict.getitem query "query" ;;
  Ok (Dict.set query "query"
        (VDict [("filtered",
           VDict [("filter", VDict [("bool", VDict [("should", VList should_clauses)])]);
                  ("query", inner)])])).

(** The handler of [except (ValueError, KeyError)]. *)
Definition except_ValueError_KeyError {A} (attempt : result A) (handler : A)
  : result A :=
  match attempt with
  | Ok a => Ok a
  | Raise ValueError => Ok handler
  | Raise (KeyError _) => Ok handler
  | Raise e => Raise e
  end.

(** Return an Elasticsearch query dict for the given h search API params. *)
Definition build_query (request_params : MultiDict.t) (user_id : option string)
  : result dict :=
  let '(request_params, offset) := MultiDict.pop request_params "offset" in
  from_ <- except_ValueError_KeyError
             (s <- offset ;;
              n <- PyInt.int s ;;
              if n <? 0 then Raise ValueError else Ok n) 0 ;;
  let '(request_params, limit) := MultiDict.pop request_params "limit" in
  size <- except_ValueError_KeyError
            (s <- limit ;;
             n <- PyInt.int s ;;
             if n <? 0 then Raise ValueError else Ok n) 20 ;;
  let '(request_params, sort) := MultiDict.pop_default request_params "sort" "updated" in
  let '(request_params, order) := MultiDict.pop_default request_params "order" "desc" in
  let query : dict :=
    [("from", VInt from_);
     ("size", VInt size);
     ("sort", VList [VDict [(sort,
        VDict [("ignore_unmapped", VBool true); ("order", VStr order)])]])] in
  let matches : list value := [] in
  let '(request_params, matches) :=
    if MultiDict.contains request_params "any" then
      (fst (MultiDict.delitem request_params "any"),
       matches ++
       [VDict [("multi_match",
          VDict [("fields", VList [VStr "quote"; VStr "tags"; VStr "text";
                                   VStr "uri.parts"; VStr "user"]);
                 ("query", VList (map VStr (MultiDict.getall request_params "any")));
                 ("type", VStr "cross_fields")])]])
    else (request_params, matches) in
  let matches :=
    matches ++
    map (fun kv => VDict [("match", VDict [(fst kv, VStr (snd kv))])])
        (MultiDict.items request_params) in
  let matches :=
    match matches with
    | [] => [VDict [("match_all", VDict [])]]
    | _ => matches
    end in
  let query := Dict.set query "query" (VDict [("bool", VDict [("must", VList matches)])]) in
  nipsa_filter query user_id.

(** ** The index engine's reading of what [build_query] sends

    The engine is a collaborator; only the part of its query language that
    [search.py] produces is given a meaning here.  A stored document is a
    [dict]. *)
Module Index.

(** A [term] clause compares the indexed scalar exactly. *)
Definition term_eqb (a b : value) : bool :=
  match a, b with
  | VNone, VNone => true
  | VBool x, VBool y => Bool.eqb x y
  | VInt x, VInt y => Z.eqb x y
  | VStr x, VStr y => String.eqb x y
  | _, _ => false
  end.

(** Whether the filter lets the document through: [term], [not], and
    [bool] with [must], [should] and [must_not] lists. *)
Fixpoint filter_admits (doc : dict) (f : value) {struct f} : bool :=
  match f with
  | VDict [(name, body)] =>
      if String.eqb name "term" then
        match body with
        | VDict [(field, v)] =>
            match Dict.get doc field with
            | Some w => term_eqb w v
            | None => false
            end
        | _ => false
        end
      else if String.eqb name "not" then negb (filter_admits doc body)
      else if String.eqb name "bool" then
        match body with
        | VDict occurs =>
            (fix every (occurs : list (string * value)) : bool :=
               match occurs with
               | [] => true
               | (occur, VList clauses) :: occurs' =>
                   (if String.eqb occur "must"
                    then forallb (filter_admits doc) clauses
                    else if String.eqb occur "should"
                    then existsb (filter_admits doc) clauses
                    else if String.eqb occur "must_not"
                    then negb (existsb (filter_admits doc) clauses)
                    else false) && every occurs'
               | _ :: _ => false
               end) occurs
        | _ => false
        end
      else false
  | _ => false
  end.

Section Matching.

(** How the engine scores analysed text is its own business: whether a
    [match] or [multi_match] clause hits a document is left open. *)
Variable text_match : string -> value -> dict -> bool.

(** Whether the query selects the document: [match_all], [match],
    [multi_match], [bool]/[must] and [filtered]. *)
Fixpoint query_matches (doc : dict) (q : value) {struct q} : bool :=
  match q with
  | VDict [(name, body)] =>
      if String.eqb name "match_all" then true
      else if String.eqb name "match" then text_match name body doc
      else if String.eqb name "multi_match" then text_match name body doc
      else if String.eqb name "bool" then
        match body with
        | VDict [(occur, VList clauses)] =>
            if String.eqb occur "must"
            then forallb (query_matches doc) clauses
            else false
        | _ => false
        end
      else if String.eqb name "filtered" then
        match body with
        | VDict parts =>
            (fix every (parts : list (string * value)) : bool :=
               match parts with
               | [] => true
               | (part, v) :: parts' =>
                   (if String.eqb part "filter" then filter_admits doc v
                    else if String.eqb part "query" then query_matches doc v
                    else false) && every parts'
               end) parts
        | _ => false
        end
      else false
  | _ => false
  end.

End Matching.

End Index.

(** ** Records and payloads used in the examples *)

Definition bob_annotation : dict :=
  [("user", VStr "bob");
   ("permissions", VDict [("read", VList [VStr "bob"; VStr "carol"])])].

Definition alice : auth.User :=
  {| auth.id := "alice"; auth.consumer := {| auth.key := "annotator-key" |} |}.

(** A [save] that assigns what the store assigns. *)
Definition stamping_save (annotation : dict) : dict :=
  Dict.set (Dict.set (Dict.set annotation "id" (VStr "AVGM5w"))
              "created" (VStr "2015-03-11T10:43:54"))
    "updated" (VStr "2015-03-11T10:43:54").

(** [save] leaves the field [k] of the annotation as it was. *)
Definition save_keeps (save : dict -> dict) (k : string) : Prop :=
  forall annotation, Dict.get (save annotation) k = Dict.get annotation k.

(** Every action of a permissions mapping is bound to a list. *)
Definition lists_of_identities (permissions : value) : Prop :=
  exists d, permissions = VDict d /\
    forall action v, Dict.get d action = Some v -> exists roles, v = VList roles.

(** [roles] without the identities equal to [user]. *)
Definition without (user : value) (roles : value) : value :=
  match roles with
  | VList l => VList (filter (fun role => py_ne role user) l)
  | _ => roles
  end.

(** [annotation'] has the permissions of [annotation] with [user] removed
    from every action, and the same actions. *)
Definition permissions_without (user : value) (annotation annotation' : dict) : Prop :=
  match Dict.get annotation "permissions" with
  | None => Dict.get annotation' "permissions" = None
  | Some (VDict d) =>
      exists d', Dict.get annotation' "permissions" = Some (VDict d') /\
        forall action,
          Dict.get d' action = option_map (without user) (Dict.get d action)
  | Some _ => False
  end.

(** [q["query"]["filtered"]["filter"]] *)
Definition visibility_filter (q : dict) : option value :=
  match Dict.get q "query" with
  | Some (VDict body) =>
      match Dict.get body "filtered" with
      | Some (VDict parts) => Dict.get parts "filter"
      | _ => None
      end
  | _ => None
  end.

(** [q["query"]["filtered"]["query"]] *)
Definition filtered_query (q : dict) : option value :=
  match Dict.get q "query" with
  | Some (VDict body) =>
      match Dict.get body "filtered" with
      | Some (VDict parts) => Dict.get parts "query"
      | _ => None
      end
  | _ => None
  end.

(** The first value sent for [key] is missing, is not a number, or is
    negative. *)
Definition absent_or_invalid (request_params : MultiDict.t) (key : string) : Prop :=
  match Dict.get request_params key with
  | None => True
  | Some s =>
      match PyInt.parse s with
      | None => True
      | Some n => n < 0
      end
  end.

Definition not_suppressed_clause : value :=
  VDict [("not", VDict [("term", VDict [("not_in_public_site_areas", VBool true)])])].

Definition match_all_query : value :=
  VDict [("bool", VDict [("must", VList [VDict [("match_all", VDict [])]])])].

(** The record [_create_annotation] hands to [save]. *)
Definition created_record
  (session : nipsa_models.Session) (fields : dict) (user : auth.User) : dict :=
  let annotation := strip_protected fields in
  let annotation := Dict.set annotation "user" (VStr (auth.id user)) in
  let annotation :=
    Dict.set annotation "consumer" (VStr (auth.key (auth.consumer user))) in
  if _nipsa session (auth.id user)
  then Dict.set annotation "not_in_public_site_areas" (VBool true)
  else annotation.

(** The message of the [RuntimeError] that [_update_annotation] raises. *)
Definition unauthorized_reason : string :=
  "Not authorized to change annotation permissions.".

(** A request from a caller without any capability. *)
Definition plain_request (body : dict) : Request :=
  {| json_body := Ok body;
     has_permission := fun _ _ => false;
     status_code := 200;
     notified := [] |}.

(** A record that was anonymized by an earlier update. *)
Definition deleted_annotation : dict :=
  [("id", VStr "AVGM5w"); ("text", VStr "gone"); ("deleted", VBool true);
   ("permissions", VDict [("read", VList [VStr "carol"])])].

(** The permissions of the annotation, when it has any, bind every action
    to a list. *)
Definition well_formed_permissions (annotation : dict) : Prop :=
  match Dict.get annotation "permissions" with
  | None => True
  | Some permissions => lists_of_identities permissions
  end.

(** What the anonymization of [bob_annotation] is said to give. *)
Definition bob_emptied : dict :=
  [("user", VStr "");
   ("permissions", VDict [("read", VList [VStr "carol"])])].

(** The clauses [nipsa_filter] puts under [should]. *)
Definition should_clauses (user_id : option string) : list value :=
  not_suppressed_clause ::
  match user_id with
  | Some uid =>
      if truthy (VStr uid) then [VDict [("term", VDict [("user", VStr uid)])]] else []
  | None => []
  end.

(** The page offset or size [build_query] settles on, given the first value
    sent for the parameter. *)
Definition page_value (first : option string) (default : Z) : Z :=
  match first with
  | None => default
  | Some s =>
      match PyInt.parse s with
      | Some n => if n <? 0 then default else n
      | None => default
      end
  end.

(** The parameters left once [build_query] has popped [offset], [limit],
    [sort] and [order]. *)
Definition remaining (request_params : MultiDict.t) : MultiDict.t :=
  let request_params := fst (MultiDict.pop request_params "offset") in
  let request_params := fst (MultiDict.pop request_params "limit") in
  let request_params := fst (MultiDict.pop_default request_params "sort" "updated") in
  fst (MultiDict.pop_default request_params "order" "desc").

(** The keys [build_query] consumes without making a match clause of them. *)
Definition PAGING_KEYS : list string := ["offset"; "limit"; "sort"; "order"].

(** What the visibility filter [f] built for the viewer [user_id] must do:
    let through every document that is not suppressed, and, for a viewer
    with a non-empty id, every document of that viewer; keep out every
    suppressed document that is not the viewer's; and, for a viewer without
    an id or with the empty one, consist of the non-suppressed clause only. *)
Definition visibility_policy (user_id : option string) (f : value) : Prop :=
  (forall doc,
      Dict.get doc "not_in_public_site_areas" <> Some (VBool true) ->
      Index.filter_admits doc f = true) /\
  (forall doc uid,
      user_id = Some uid -> uid <> "" ->
      Dict.get doc "user" = Some (VStr uid) ->
      Index.filter_admits doc f = true) /\
  (forall doc,
      Dict.get doc "not_in_public_site_areas" = Some (VBool true) ->
      ~ (exists uid, user_id = Some uid /\ Dict.get doc "user" = Some (VStr uid)) ->
      Index.filter_admits doc f = false) /\
  (user_id = None \/ user_id = Some "" ->
   f = VDict [("bool", VDict [("should", VList [not_suppressed_clause])])]).

(** A suppressed annotation by alice. *)
Definition suppressed_by_alice : dict :=
  [("user", VStr "alice"); ("text", VStr "hello");
   ("not_in_public_site_areas", VBool true)].

(** [k in PROTECTED_FIELDS] *)
Definition is_protected (k : string) : bool :=
  existsb (String.eqb k) PROTECTED_FIELDS.

(** ** The other views of h/api/views.py *)

Section OtherViews.

Variable save : dict -> dict.
Variable session : nipsa_models.Session.

(** [h.api.auth.get_user]: the user the request is authenticated as. *)
Variable get_user : Request -> auth.User.

(** Read the POSTed JSON-encoded annotation and persist it. *)
Definition create (request : Request) : Request * result dict :=
  let user := get_user request in
  match json_body request with
  | Raise ValueError =>
      let '(request, info) :=
        _api_error request "No JSON payload sent. Annotation not created." 400 in
      (request, Ok info)
  | Raise e => (request, Raise e)
  | Ok fields =>
      let annotation := snd (_create_annotation save session fields user) in
      let request := _publish_annotation_event request annotation "create" in
      (request, Ok annotation)
  end.

(** Return the annotation (simply how it was stored in the database). *)
Definition read (context : dict) (request : Request) : Request * dict :=
  let annotation := context in
  let request := _publish_annotation_event request annotation "read" in
  (request, annotation).

(** The record store, as far as [delete] goes: a state and what
    [annotation.delete()] does to it. *)
Variable Storage : Type.
Variable annotation_delete : dict -> Storage -> Storage.

(** Delete the annotation permanently. *)
Definition delete (context : dict) (request : Request) (storage : Storage)
  : Storage * Request * result dict :=
  let annotation := context in
  match Dict.getitem annotation "id" with
  | Raise e => (storage, request, Raise e)
  | Ok id =>
      let storage := annotation_delete annotation storage in
      let request := _publish_annotation_event request annotation "delete" in
      (storage, request, Ok [("id", id); ("deleted", VBool true)])
  end.

End OtherViews.

(** ** The other queries of h/api/search.py *)

(** Return an Elasticsearch query for all the given user's annotations. *)
Definition query_for_users_annotations (user_id : string) : dict :=
  [("query",
    VDict [("filtered",
      VDict [("filter",
        VDict [("bool",
          VDict [("must",
            VList [VDict [("term", VDict [("user", VStr user_id)])]])])])])])].

(** [v.append(item)] *)
Definition py_append (v item : value) : result value :=
  match v with
  | VList l => Ok (VList (l ++ [item]))
  | _ => Raise (AttributeError "append")
  end.

(** [query["query"]["filtered"]["filter"]["bool"]["must"].append(clause)]:
    the subscripts are followed down to the list, which is extended where it
    is. *)
Definition append_must (query : dict) (clause : value) : result dict :=
  q <- Dict.getitem query "query" ;;
  filtered <- py_subscript q "filtered" ;;
  filter_ <- py_subscript filtered "filter" ;;
  bool_ <- py_subscript filter_ "bool" ;;
  must <- py_subscript bool_ "must" ;;
  must' <- py_append must clause ;;
  match q, filtered, filter_, bool_ with
  | VDict dq, VDict dfiltered, VDict dfilter, VDict dbool =>
      Ok (Dict.set query "query"
            (VDict (Dict.set dq "filtered"
               (VDict (Dict.set dfiltered "filter"
                  (VDict (Dict.set dfilter "bool"
                     (VDict (Dict.set dbool "must" must')))))))))
  | _, _, _, _ => Raise TypeError
  end.

(** Return an Elasticsearch query for the user's NIPSA'd annotations. *)
Definition nipsad_annotations (user_id : string) : result dict :=
  append_must (query_for_users_annotations user_id)
    (VDict [("term", VDict [("not_in_public_site_areas", VBool true)])]).

(** Return an Elasticsearch query for the user's non-NIPSA'd annotations. *)
Definition not_nipsad_annotations (user_id : string) : result dict :=
  append_must (query_for_users_annotations user_id) not_suppressed_clause.

Section Search.

(** [Annotation.search_raw(query, params, user, raw_result)] of
    [h.api.models]: what the index answers. *)
Variable search_raw : dict -> option dict -> option auth.User -> bool -> result value.

(** Search with the given params and return the matching annotations. *)
Definition search (request_params : MultiDict.t) (user : option auth.User)
  : result dict :=
  let user_id := option_map auth.id user in
  query <- build_query request_params user_id ;;
  results <- search_raw query None user false ;;
  count <- search_raw query (Some [("search_type", VStr "count")]) None true ;;
  hits <- py_subscript count "hits" ;;
  total <- py_subscript hits "total" ;;
  Ok [("rows", results); ("total", total)].

End Search.

(** ** Well-formed documents *)

(** A Python dict binds a key once: the documents that can exist have no
    repeated key at any depth. *)
Unset Elimination Schemes.
Inductive wf_value : value -> Prop :=
| wf_None : wf_value VNone
| wf_Bool b : wf_value (VBool b)
| wf_Int z : wf_value (VInt z)
| wf_Str s : wf_value (VStr s)
| wf_List l : Forall wf_value l -> wf_value (VList l)
| wf_Dict d :
    NoDup (Dict.keys d) ->
    Forall (fun kv => wf_value (snd kv)) d ->
    wf_value (VDict d).
Set Elimination Schemes.

(** Induction over documents, with the hypothesis for every item of a list
    and every value of a dict. *)
Definition value_nested_ind (P : value -> Prop)
  (HNone : P VNone)
  (HBool : forall b, P (VBool b))
  (HInt : forall z, P (VInt z))
  (HStr : forall s, P (VStr s))
  (HList : forall l, Forall P l -> P (VList l))
  (HDict : forall d, Forall (fun kv => P (snd kv)) d -> P (VDict d))
  : forall v, P v :=
  fix go (v : value) : P v :=
    match v with
    | VNone => HNone
    | VBool b => HBool b
    | VInt z => HInt z
    | VStr s => HStr s
    | VList l =>
        HList l
          ((fix items (l : list value) : Forall P l :=
              match l with
              | [] => Forall_nil P
              | x :: l' => Forall_cons x (go x) (items l')
              end) l)
    | VDict d =>
        HDict d
          ((fix entries (d : list (string * value))
              : Forall (fun kv => P (snd kv)) d :=
              match d with
              | [] => Forall_nil _
              | kv :: d' => Forall_cons kv (go (snd kv)) (entries d')
              end) d)
    end.

(** The permission test of [_update_annotation]:
    ['permissions' in fields and fields['permissions'] != annotation.get('permissions', {})]. *)
Definition changing_permissions (annotation fields : dict) : bool :=
  match Dict.get fields "permissions" with
  | Some permissions =>
      py_ne permissions (Dict.get_default annotation "permissions" (VDict []))
  | None => false
  end.

(** The document a view answers a failed request with. *)
Definition failure (reason : string) : dict :=
  [("status", VStr "failure"); ("reason", VStr reason)].

Definition no_json_reason : string :=
  "No JSON payload sent. Annotation not created.".

(** The event a view publishes. *)
Definition event (annotation : dict) (action : string) : AnnotationEvent :=
  {| event_annotation := annotation; event_action := action |}.

(** The call did not end in a [RuntimeError]. *)
Definition not_RuntimeError_result {A} (r : result A) : Prop :=
  match r with
  | Ok _ => True
  | Raise e => forall reason code, e <> RuntimeError reason code
  end.

(** The exception is not a [RuntimeError], the one kind [update] handles. *)
Definition not_RuntimeError (e : exn) : Prop :=
  forall reason code, e <> RuntimeError reason code.

(** ** The clauses of a built query *)

(** [{"match": {key: value}}] *)
Definition match_clause (kv : string * string) : value :=
  VDict [("match", VDict [(fst kv, VStr (snd kv))])].

(** The [multi_match] clause made of the values sent for [any]. *)
Definition multi_match_clause (values : list string) : value :=
  VDict [("multi_match",
    VDict [("fields", VList [VStr "quote"; VStr "tags"; VStr "text";
                             VStr "uri.parts"; VStr "user"]);
           ("query", VList (map VStr values));
           ("type", VStr "cross_fields")])].

(** [{"bool": {"must": clauses}}] *)
Definition bool_must (clauses : list value) : value :=
  VDict [("bool", VDict [("must", VList clauses)])].

(** The sort specification for a field and an order. *)
Definition sort_by (field order : string) : value :=
  VList [VDict [(field,
    VDict [("ignore_unmapped", VBool true); ("order", VStr order)])]].

(** [key] is one of [offset], [limit], [sort], [order]. *)
Definition is_paging (key : string) : bool :=
  existsb (String.eqb key) PAGING_KEYS.

(** The parameters that are neither paging keys nor [any]. *)
Definition field_params (request_params : MultiDict.t) : MultiDict.t :=
  filter (fun kv => negb (is_paging (fst kv)) && negb (String.eqb (fst kv) "any"))
         request_params.

(** The document has the suppression flag set. *)
Definition suppressed (doc : dict) : Prop :=
  Dict.get doc "not_in_public_site_areas" = Some (VBool true).

(** The document's [user] is [uid]. *)
Definition authored_by (uid : string) (doc : dict) : Prop :=
  Dict.get doc "user" = Some (VStr uid).

(** The [must] list [build_query] makes of the parameters [rp] that are left
    once the paging keys have been popped. *)
Definition must_clauses (rp : MultiDict.t) : list value :=
  let matches :=
    if MultiDict.contains rp "any"
    then multi_match_clause (MultiDict.getall rp "any") ::
         map match_clause (fst (MultiDict.delitem rp "any"))
    else map match_clause rp in
  match matches with
  | [] => [VDict [("match_all", VDict [])]]
  | _ => matches
  end.

(** The filter part [nipsa_filter] builds for a viewer. *)
Definition viewer_filter (user_id : option string) : value :=
  VDict [("bool", VDict [("should", VList (should_clauses user_id))])].

(** No list of the annotation's permissions holds an identity equal to the
    empty string. *)
Definition no_empty_identity (annotation : dict) : Prop :=
  forall d action roles role,
    Dict.get annotation "permissions" = Some (VDict d) ->
    Dict.get d action = Some (VList roles) ->
    In role roles -> py_eq role (VStr "") = false.

(** ** h/api/store.py: the Store class *)

Module Store.

(** What a call can end in besides returning: a Python exception, or the
    HTTP exception [exception_response(status)]. *)
Inductive raised : Type :=
| PyError (e : exn)
| HTTPException (status : Z).

Inductive outcome (A : Type) : Type :=
| Returns (a : A)
| Raises (r : raised).
Arguments Returns {A} a.
Arguments Raises {A} r.

Definition of_result {A} (r : result A) : outcome A :=
  match r with
  | Ok a => Returns a
  | Raise e => Raises (PyError e)
  end.

Definition and_then {A B} (o : outcome A) (k : A -> outcome B) : outcome B :=
  match o with
  | Returns a => k a
  | Raises r => Raises r
  end.

Section WithRequest.

(** The session of the request the store was made for. *)
Variable Session : Type.
Variable session : Session.

(** A subrequest: the [subpath] and [_query] given to [route_url], the
    method, the JSON body and the session put on it. *)
Record Subrequest : Type :=
  { sub_path : string;
    sub_query : dict;
    sub_method : string;
    sub_json : option value;
    sub_session : option Session }.

(** A response: its status and its body read as JSON ([ValueError] when it
    is not JSON). *)
Record Response : Type :=
  { status_int : Z;
    body : result value }.

(** [request.invoke_subrequest] *)
Variable invoke_subrequest : Subrequest -> Response.

(** [Request.blank(url)] for the route [api_real]. *)
Definition blank (subpath : string) (query : dict) (method : string) : Subrequest :=
  {| sub_path := subpath; sub_query := query; sub_method := method;
     sub_json := None; sub_session := None |}.

Definition with_json (subreq : Subrequest) (json : value) : Subrequest :=
  {| sub_path := sub_path subreq; sub_query := sub_query subreq;
     sub_method := sub_method subreq; sub_json := Some json;
     sub_session := sub_session subreq |}.

Definition with_session (subreq : Subrequest) : Subrequest :=
  {| sub_path := sub_path subreq; sub_query := sub_query subreq;
     sub_method := sub_method subreq; sub_json := sub_json subreq;
     sub_session := Some session |}.

Definition _invoke_subrequest (subreq : Subrequest) : outcome Response :=
  let subreq := with_session subreq in
  let result := invoke_subrequest subreq in
  if status_int result >? 400
  then Raises (HTTPException (status_int result))
  else Returns result.

Definition read (key : string) : outcome value :=
  let subreq := blank (String.append "annotations/" key) [] "GET" in
  and_then (_invoke_subrequest subreq) (fun result => of_result (body result)).

Definition search (query : dict) : outcome value :=
  let subreq := blank "search" query "GET" in
  and_then (_invoke_subrequest subreq) (fun result =>
    of_result (json <- body result ;; py_subscript json "rows")).

(** [target[key] = item] *)
Definition py_setitem (target : value) (key : string) (item : value) : result value :=
  match target with
  | VDict d => Ok (VDict (Dict.set d key item))
  | _ => Raise TypeError
  end.

(** The loop of [search_raw] over [payload['hits']['hits']]. *)
Fixpoint sources (hits : list value) : result (list value) :=
  match hits with
  | [] => Ok []
  | res :: rest =>
      id <- py_subscript res "_id" ;;
      source <- py_subscript res "_source" ;;
      source <- py_setitem source "id" id ;;
      more <- sources rest ;;
      Ok (source :: more)
  end.

Definition search_raw (query : value) : outcome (list value) :=
  let subreq := with_json (blank "search_raw" [] "POST") query in
  and_then (_invoke_subrequest subreq) (fun result =>
    of_result
      (payload <- body result ;;
       hits <- py_subscript payload "hits" ;;
       hits <- py_subscript hits "hits" ;;
       hits <- py_iter hits ;;
       sources hits)).

End WithRequest.

End Store.

(** ** h/api/store.py: after_request *)

Module Text.

(** [s.split(sep)] for a separator of one character. *)
Fixpoint split (sep : ascii) (s : string) : list string :=
  match s with
  | EmptyString => [EmptyString]
  | String c s' =>
      if Ascii.eqb c sep then EmptyString :: split sep s'
      else match split sep s' with
           | piece :: pieces => String c piece :: pieces
           | [] => [String c EmptyString]
           end
  end.

(** [s.strip()] *)
Definition strip (s : string) : string :=
  string_of_list_ascii (PyInt.strip (list_ascii_of_string s)).

(** [sep.join(items)] *)
Definition join (sep : string) (items : list string) : string :=
  String.concat sep items.

(** [\w] *)
Definition is_word (c : ascii) : bool :=
  let n := nat_of_ascii c in
  ((Nat.leb 48 n && Nat.leb n 57) || (Nat.leb 65 n && Nat.leb n 90) ||
   (Nat.leb 97 n && Nat.leb n 122) || Nat.eqb n 95)%bool.

Fixpoint strip_prefix (prefix l : list ascii) : option (list ascii) :=
  match prefix, l with
  | [], _ => Some l
  | p :: prefix', c :: l' =>
      if Ascii.eqb p c then strip_prefix prefix' l' else None
  | _ :: _, [] => None
  end.

Definition strip_suffix (suffix l : list ascii) : option (list ascii) :=
  option_map (@rev ascii) (strip_prefix (rev suffix) (rev l)).

(** [$] matches at the end and before a newline that ends the string. *)
Definition before_final_newline (l : list ascii) : list ascii :=
  match rev l with
  | c :: before => if Ascii.eqb c "010"%char then rev before else l
  | [] => l
  end.

End Text.

(** [re.match(r'^store\.(\w+)_annotation$', endpoint)] and [group(1)]. *)
Definition endpoint_action (endpoint : string) : option string :=
  match Text.strip_prefix (list_ascii_of_string "store.")
                          (list_ascii_of_string endpoint) with
  | None => None
  | Some rest =>
      match Text.strip_suffix (list_ascii_of_string "_annotation")
                              (Text.before_final_newline rest) with
      | Some (c :: word) =>
          if forallb Text.is_word (c :: word)
          then Some (string_of_list_ascii (c :: word))
          else None
      | _ => None
      end
  end.

Module flask.

Record Request : Type :=
  { method : string;
    endpoint : option string;
    request_data : string }.

Record Response : Type :=
  { headers : list (string * string);
    status : Z;
    response_data : string }.

Definition set_header (response : Response) (name v : string) : Response :=
  {| headers := Dict.set (headers response) name v;
     status := status response;
     response_data := response_data response |}.

End flask.

Section AfterRequest.

(** [json.loads] *)
Variable loads : string -> result value.

(** [lib.wrap_annotation(request, data)] *)
Variable wrap_annotation : value -> dict.

(** The components are the events notified so far, extended by the one this
    call publishes, and the response returned. *)
Definition after_request
  (request : flask.Request) (response : flask.Response)
  (notified : list AnnotationEvent)
  : list AnnotationEvent * result flask.Response :=
  if String.eqb (flask.method request) "OPTIONS" then
    let in_value :=
      Dict.get_default (flask.headers response) "Access-Control-Allow-Headers" "" in
    let allowed := map Text.strip (Text.split ","%char in_value) in
    let allowed := allowed ++ ["X-Client-ID"] in
    let out_value := Text.join ", " allowed in
    (notified,
     Ok (flask.set_header response "Access-Control-Allow-Headers" out_value))
  else if ((200 <=? flask.status response) && (flask.status response <? 300))%bool then
    match flask.endpoint request with
    | None => (notified, Raise TypeError)
    | Some endpoint =>
        match endpoint_action endpoint with
        | Some action =>
            match loads (if String.eqb action "delete"
                         then flask.request_data request
                         else flask.response_data response) with
            | Ok data =>
                (notified ++ [event (wrap_annotation data) action], Ok response)
            | Raise e => (notified, Raise e)
            end
        | None => (notified, Ok response)
        end
    end
  else (notified, Ok response).

End AfterRequest.

(** [annotation] is what [search_raw] makes of [hit]: the hit's [_source]
    with its [id] set to the hit's [_id]. *)
Definition source_of (hit annotation : value) : Prop :=
  exists d id src a,
    hit = VDict d /\
    Dict.get d "_id" = Some id /\
    Dict.get d "_source" = Some (VDict src) /\
    annotation = VDict a /\
    Dict.get a "id" = Some id /\
    forall k, k <> "id" -> Dict.get a k = Dict.get src k.

(** A hit as the index returns it: an object with an [_id] and an object
    under [_source]. *)
Definition is_hit (hit : value) : Prop :=
  exists d id src,
    hit = VDict d /\
    Dict.get d "_id" = Some id /\
    Dict.get d "_source" = Some (VDict src).

(** The body of an index answer holding the given hits. *)
Definition hits_payload (hits : list value) : value :=
  VDict [("hits", VDict [("total", VInt (Z.of_nat (List.length hits)));
                          ("hits", VList hits)])].

(** An embedded store that has one annotation and answers any other path
    with status 400. *)
Definition one_annotation_store (subreq : Store.Subrequest unit) : Store.Response :=
  if String.eqb (Store.sub_path unit subreq) "search_raw" then
    {| Store.status_int := 200;
       Store.body :=
         Ok (hits_payload
               [VDict [("_id", VStr "AVGM5w");
                       ("_source", VDict [("id", VStr "stale"); ("text", VStr "hi")])]]) |}
  else
    {| Store.status_int := 400;
       Store.body := Ok (VDict [("status", VStr "failure")]) |}.

(** The characters of a string, and a string free of a character. *)
Definition chars (s : string) : list ascii := list_ascii_of_string s.








(** The endpoint of the store's view for [action]. *)
Definition store_endpoint (action : string) : string :=
  String.append "store." (String.append action "_annotation").

(** A successful answer to a delete, as flask hands it to [after_request]. *)
Definition delete_request : flask.Request :=
  {| flask.method := "DELETE"; flask.endpoint := Some "store.delete_annotation";
     flask.request_data := "{id: AVGM5w}" |}.

Definition no_content : flask.Response :=
  {| flask.headers := []; flask.status := 204; flask.response_data := "" |}.

(** A decoder that knows the one body above. *)
Definition loads_delete_body (data : string) : result value :=
  if String.eqb data "{id: AVGM5w}" then Ok (VDict [("id", VStr "AVGM5w")])
  else Raise ValueError.

(** [lib.wrap_annotation] taken as the decoded object itself. *)
Definition as_annotation (data : value) : dict :=
  match data with
  | VDict d => d
  | _ => []
  end.

(** ** h/api/store.py: store_from_settings *)

(** [s[3:]] *)
Definition from_third (s : string) : string :=
  string_of_list_ascii (skipn 3 (list_ascii_of_string s)).

(** The configuration of the annotator-store app when it is handed to
    [es.init_app]: [config] is the configuration of a fresh flask app,
    [environ] is [os.environ]. *)
Definition store_from_settings
  (config environ settings : list (string * string)) : list (string * string) :=
  let config :=
    match Dict.get environ "ELASTICSEARCH_PORT" with
    | Some port =>
        Dict.set config "ELASTICSEARCH_HOST" (String.append "http" (from_third port))
    | None =>
        match Dict.get settings "es.host" with
        | Some host => Dict.set config "ELASTICSEARCH_HOST" host
        | None => config
        end
    end in
  let config :=
    match Dict.get settings "es.index" with
    | Some index => Dict.set config "ELASTICSEARCH_INDEX" index
    | None => config
    end in
  match Dict.get settings "es.compatibility" with
  | Some compat => Dict.set config "ELASTICSEARCH_COMPATIBILITY_MODE" compat
  | None => config
  end.

(** The keys [store_from_settings] may write. *)
Definition ES_KEYS : list string :=
  ["ELASTICSEARCH_HOST"; "ELASTICSEARCH_INDEX"; "ELASTICSEARCH_COMPATIBILITY_MODE"].

(** * Properties *)

(** ** dict lemmas *)

Lemma get_set_same {A} (d : list (string * A)) k v :
  Dict.get (Dict.set d k v) k = Some v.
Proof.
  induction d as [|[k' v'] d IH]; simpl.
  - now rewrite String.eqb_refl.
  - destruct (String.eqb k' k) eqn:E; simpl.
    + now rewrite String.eqb_refl.
    + now rewrite E.
Qed.

Lemma get_set_other {A} (d : list (string * A)) k k' v :
  k' <> k -> Dict.get (Dict.set d k v) k' = Dict.get d k'.
Proof.
  intros Hne. induction d as [|[k0 v0] d IH]; simpl.
  - destruct (String.eqb k k') eqn:E; [apply String.eqb_eq in E; congruence|reflexivity].
  - destruct (String.eqb k0 k) eqn:E; simpl.
    + apply String.eqb_eq in E; subst k0.
      destruct (String.eqb k k') eqn:E'; [apply String.eqb_eq in E'; congruence|reflexivity].
    + now rewrite IH.
Qed.

Lemma get_remove_same {A} (d : list (string * A)) k :
  Dict.get (Dict.remove d k) k = None.
Proof.
  induction d as [|[k' v'] d IH]; simpl; [reflexivity|].
  destruct (String.eqb k' k) eqn:E; simpl; [assumption|now rewrite E].
Qed.

Lemma get_remove_other {A} (d : list (string * A)) k k' :
  k' <> k -> Dict.get (Dict.remove d k) k' = Dict.get d k'.
Proof.
  intros Hne. induction d as [|[k0 v0] d IH]; simpl; [reflexivity|].
  destruct (String.eqb k0 k) eqn:E; simpl.
  - apply String.eqb_eq in E; subst k0.
    destruct (String.eqb k k') eqn:E'; [apply String.eqb_eq in E'; congruence|assumption].
  - now rewrite IH.
Qed.

Lemma get_keys {A} (d : list (string * A)) k :
  In k (Dict.keys d) <-> Dict.get d k <> None.
Proof.
  induction d as [|[k' v'] d IH]; simpl.
  - split; [tauto|congruence].
  - destruct (String.eqb k' k) eqn:E.
    + apply String.eqb_eq in E. split; [congruence|auto].
    + apply String.eqb_neq in E. rewrite <- IH. tauto.
Qed.

(** Read a key through the writes made to other keys. *)
Ltac through_sets :=
  repeat (rewrite get_set_other by (discriminate || assumption)).

(** *** Stripping the protected fields *)

Lemma is_protected_In k : is_protected k = true <-> In k PROTECTED_FIELDS.
Proof.
  unfold is_protected. rewrite existsb_exists. split.
  - intros [x [Hin E]]. apply String.eqb_eq in E. now subst.
  - intros Hin. exists k. split; [assumption|apply String.eqb_refl].
Qed.

Lemma remove_filter {A} (d : list (string * A)) k :
  Dict.remove d k = filter (fun kv => negb (String.eqb (fst kv) k)) d.
Proof.
  induction d as [|[k' v'] d IH]; simpl; [reflexivity|].
  destruct (String.eqb k' k); simpl; now rewrite IH.
Qed.

Lemma filter_filter {A} (p q : A -> bool) (l : list A) :
  filter p (filter q l) = filter (fun x => q x && p x) l.
Proof.
  induction l as [|x l IH]; simpl; [reflexivity|].
  destruct (q x); simpl; [destruct (p x)|]; now rewrite IH.
Qed.

Lemma strip_protected_filter (fields : dict) :
  strip_protected fields = filter (fun kv => negb (is_protected (fst kv))) fields.
Proof.
  unfold strip_protected, PROTECTED_FIELDS. simpl.
  rewrite !remove_filter, !filter_filter.
  apply filter_ext. intros [k v]. unfold is_protected, PROTECTED_FIELDS. simpl.
  rewrite !(String.eqb_sym k).
  repeat match goal with |- context [String.eqb ?a k] => destruct (String.eqb a k) end;
    reflexivity.
Qed.

Lemma get_filter_key {A} (p : string -> bool) (d : list (string * A)) k :
  Dict.get (filter (fun kv => p (fst kv)) d) k =
  if p k then Dict.get d k else None.
Proof.
  induction d as [|[k' v'] d IH]; simpl.
  - now destruct (p k).
  - destruct (String.eqb k' k) eqn:E.
    + apply String.eqb_eq in E; subst k'.
      destruct (p k) eqn:Hp; simpl.
      * now rewrite String.eqb_refl.
      * exact IH.
    + destruct (p k'); simpl; [rewrite E|]; exact IH.
Qed.

Lemma get_strip_protected (fields : dict) k :
  Dict.get (strip_protected fields) k =
  if is_protected k then None else Dict.get fields k.
Proof.
  rewrite strip_protected_filter.
  rewrite (get_filter_key (fun k => negb (is_protected k))).
  now destruct (is_protected k).
Qed.

Lemma strip_protected_idempotent (fields : dict) :
  strip_protected (strip_protected fields) = strip_protected fields.
Proof.
  rewrite !strip_protected_filter, filter_filter.
  apply filter_ext. intros [k v]. simpl. now destruct (is_protected k).
Qed.

Lemma strip_protected_set (fields : dict) k v :
  In k PROTECTED_FIELDS ->
  strip_protected (Dict.set fields k v) = strip_protected fields.
Proof.
  intros Hk. apply is_protected_In in Hk. rewrite !strip_protected_filter.
  induction fields as [|[k' v'] d IH]; simpl.
  - now rewrite Hk.
  - destruct (String.eqb k' k) eqn:E; simpl.
    + apply String.eqb_eq in E; subst k'. now rewrite Hk.
    + rewrite IH. reflexivity.
Qed.

Lemma strip_protected_remove (fields : dict) k :
  In k PROTECTED_FIELDS ->
  strip_protected (Dict.remove fields k) = strip_protected fields.
Proof.
  intros Hk. apply is_protected_In in Hk.
  rewrite !strip_protected_filter, remove_filter, filter_filter.
  apply filter_ext. intros [k' v']. simpl.
  destruct (String.eqb k' k) eqn:E; simpl; [|reflexivity].
  apply String.eqb_eq in E; subst k'. now rewrite Hk.
Qed.

Lemma get_share_permissions (fields annotation : dict) k :
  k <> "permissions" ->
  Dict.get (share_permissions fields annotation) k = Dict.get fields k.
Proof.
  intros Hk. unfold share_permissions.
  destruct (Dict.contains fields "permissions"); [|reflexivity].
  destruct (Dict.get annotation "permissions"); [|reflexivity].
  now apply get_set_other.
Qed.

Lemma protected_not_permissions k : In k PROTECTED_FIELDS -> k <> "permissions".
Proof.
  unfold PROTECTED_FIELDS. simpl. intros H E. subst k.
  repeat (destruct H as [H|H]; [discriminate H|]). exact H.
Qed.

Lemma not_protected k : ~ In k PROTECTED_FIELDS -> is_protected k = false.
Proof.
  intros H. destruct (is_protected k) eqn:E; [|reflexivity].
  apply is_protected_In in E. contradiction.
Qed.

(** ** views.py: what reaches the stored record *)

Section Mutations.

Variable save : dict -> dict.
Variable session : nipsa_models.Session.

Lemma _nipsa_on_list (uid : string) :
  _nipsa session uid = true <->
  In uid (map nipsa_models.user_id session).
Proof.
  unfold _nipsa, nipsa_models.user_read, nipsa_models.get_by_id.
  induction session as [|row rows IH]; simpl.
  - split; [discriminate|tauto].
  - destruct (String.eqb (nipsa_models.user_id row) uid) eqn:E.
    + apply String.eqb_eq in E. split; auto.
    + apply String.eqb_neq in E. rewrite IH. tauto.
Qed.

Lemma _create_annotation_stripped (fields : dict) (user : auth.User) :
  _create_annotation save session fields user =
  _create_annotation save session (strip_protected fields) user.
Proof.
  unfold _create_annotation. now rewrite strip_protected_idempotent.
Qed.

Lemma _update_annotation_stripped (annotation fields : dict) (admin : bool) :
  _update_annotation save annotation fields admin =
  _update_annotation save annotation (strip_protected fields) admin.
Proof.
  unfold _update_annotation. now rewrite strip_protected_idempotent.
Qed.

(** The caller's mapping after [_update_annotation], whatever the outcome. *)
Lemma _update_annotation_fields (annotation fields : dict) (admin : bool) k :
  k <> "permissions" ->
  Dict.get (snd (fst (_update_annotation save annotation fields admin))) k =
  Dict.get (strip_protected fields) k.
Proof.
  intros Hk. unfold _update_annotation.
  destruct (_ && negb admin); [reflexivity|].
  destruct (truthy _); [|reflexivity].
  destruct (_anonymize_deletes _) as [a [[]|e]]; simpl;
    now apply get_share_permissions.
Qed.

Lemma _create_annotation_saves (fields : dict) (user : auth.User) :
  snd (_create_annotation save session fields user) =
  save (created_record session fields user).
Proof. reflexivity. Qed.

Lemma created_record_user (fields : dict) (user : auth.User) :
  Dict.get (created_record session fields user) "user" = Some (VStr (auth.id user)).
Proof.
  unfold created_record.
  destruct (_nipsa session (auth.id user));
    through_sets; apply get_set_same.
Qed.

Lemma created_record_consumer (fields : dict) (user : auth.User) :
  Dict.get (created_record session fields user) "consumer" =
  Some (VStr (auth.key (auth.consumer user))).
Proof.
  unfold created_record.
  destruct (_nipsa session (auth.id user));
    through_sets; apply get_set_same.
Qed.

Lemma created_record_flag (fields : dict) (user : auth.User) :
  Dict.get (created_record session fields user) "not_in_public_site_areas" =
  if _nipsa session (auth.id user) then Some (VBool true)
  else Dict.get fields "not_in_public_site_areas".
Proof.
  unfold created_record.
  destruct (_nipsa session (auth.id user)).
  - apply get_set_same.
  - through_sets.
    now rewrite get_strip_protected.
Qed.

Lemma created_record_unassigned (fields : dict) (user : auth.User) k :
  In k ["id"; "created"; "updated"] ->
  Dict.get (created_record session fields user) k = None.
Proof.
  intros Hk. unfold created_record.
  assert (Hp : is_protected k = true).
  { simpl in Hk. repeat (destruct Hk as [Hk|Hk]; [subst k; reflexivity|]).
    contradiction. }
  assert (k <> "user" /\ k <> "consumer" /\ k <> "not_in_public_site_areas")
    as (H1 & H2 & H3).
  { simpl in Hk.
    repeat (destruct Hk as [Hk|Hk];
            [subst k; repeat split; discriminate|]).
    contradiction. }
  destruct (_nipsa session (auth.id user));
    through_sets;
    now rewrite get_strip_protected, Hp.
Qed.

End Mutations.

Lemma stamping_save_keeps k :
  ~ In k ["id"; "created"; "updated"] -> save_keeps stamping_save k.
Proof.
  intros Hk annotation. unfold stamping_save. simpl in Hk.
  repeat (rewrite get_set_other by (intros ->; tauto)). reflexivity.
Qed.

(** C1 (as amended): when the author is on the NIPSA list the stored
    annotation has [not_in_public_site_areas] set to true whatever the
    payload says; when the author is not on the list the stored value is the
    one the client sent, or none if the client sent none. *)
Theorem C1_flag_from_list_else_from_payload :
  forall (save : dict -> dict) (session : nipsa_models.Session)
         (fields : dict) (user : auth.User),
    save_keeps save "not_in_public_site_areas" ->
    let stored := snd (_create_annotation save session fields user) in
    (In (auth.id user) (map nipsa_models.user_id session) ->
     Dict.get stored "not_in_public_site_areas" = Some (VBool true)) /\
    (~ In (auth.id user) (map nipsa_models.user_id session) ->
     Dict.get stored "not_in_public_site_areas" =
     Dict.get fields "not_in_public_site_areas").
Proof.
  intros save session fields user Hsave stored. subst stored.
  rewrite _create_annotation_saves, Hsave, created_record_flag.
  split; intros H.
  - apply _nipsa_on_list in H. now rewrite H.
  - destruct (_nipsa session (auth.id user)) eqn:E; [|reflexivity].
    apply _nipsa_on_list in E. contradiction.
Qed.

(** A listed author who sends the flag as false, and an unlisted one who
    sends none. *)
Lemma C1_flag_from_list_else_from_payload_witness :
  save_keeps stamping_save "not_in_public_site_areas" /\
  Dict.get
    (snd (_create_annotation stamping_save [ {| nipsa_models.user_id := "alice" |} ]
            [("text", VStr "hi"); ("not_in_public_site_areas", VBool false)] alice))
    "not_in_public_site_areas" = Some (VBool true) /\
  Dict.get
    (snd (_create_annotation stamping_save [ {| nipsa_models.user_id := "mallory" |} ]
            [("text", VStr "hi")] alice))
    "not_in_public_site_areas" = None.
Proof.
  assert (Hk : save_keeps stamping_save "not_in_public_site_areas").
  { apply stamping_save_keeps. simpl. intuition discriminate. }
  split; [exact Hk|]. split.
  - apply (C1_flag_from_list_else_from_payload stamping_save
             [ {| nipsa_models.user_id := "alice" |} ]
             [("text", VStr "hi"); ("not_in_public_site_areas", VBool false)]
             alice Hk).
    simpl. auto.
  - apply (C1_flag_from_list_else_from_payload stamping_save
             [ {| nipsa_models.user_id := "mallory" |} ]
             [("text", VStr "hi")] alice Hk).
    simpl. intuition discriminate.
Defined.

(** C1 (as stated) fails: an author who is not on the list sends
    [not_in_public_site_areas: true] and it is stored, so the stored flag is
    true without the author being listed, and it differs from what the same
    payload without the key stores. *)
Lemma C1_client_flag_is_stored :
  let session : nipsa_models.Session := [] in
  let payload := [("text", VStr "hi"); ("not_in_public_site_areas", VBool true)] in
  let stored := snd (_create_annotation stamping_save session payload alice) in
  let stored' :=
    snd (_create_annotation stamping_save session [("text", VStr "hi")] alice) in
  ~ (Dict.get stored "not_in_public_site_areas" = Some (VBool true) <->
     In (auth.id alice) (map nipsa_models.user_id session)) /\
  Dict.get stored "not_in_public_site_areas" <>
  Dict.get stored' "not_in_public_site_areas".
Proof.
  simpl. split.
  - intros [H _]. apply H. reflexivity.
  - discriminate.
Qed.

(** C5: a value the client sends under [id], [user], [consumer], [created]
    or [updated] is discarded.  Creating or updating with the payload that
    sets such a key gives the same stored record, and the same outcome, as
    with the payload that does not have the key; the record handed to [save]
    on create has no [id], [created] or [updated]; and the created record's
    [user] and [consumer] are the author's id and consumer key. *)
Theorem C5_protected_values_discarded :
  forall (save : dict -> dict) (session : nipsa_models.Session),
    save_keeps save "user" ->
    save_keeps save "consumer" ->
    (forall fields user k v,
        In k PROTECTED_FIELDS ->
        snd (_create_annotation save session (Dict.set fields k v) user) =
        snd (_create_annotation save session (Dict.remove fields k) user)) /\
    (forall annotation fields admin k v,
        In k PROTECTED_FIELDS ->
        let with_key := _update_annotation save annotation (Dict.set fields k v) admin in
        let without_key := _update_annotation save annotation (Dict.remove fields k) admin in
        fst (fst with_key) = fst (fst without_key) /\ snd with_key = snd without_key) /\
    (forall fields user,
        exists record,
          snd (_create_annotation save session fields user) = save record /\
          Dict.get record "id" = None /\
          Dict.get record "created" = None /\
          Dict.get record "updated" = None) /\
    (forall fields user,
        let stored := snd (_create_annotation save session fields user) in
        Dict.get stored "user" = Some (VStr (auth.id user)) /\
        Dict.get stored "consumer" = Some (VStr (auth.key (auth.consumer user)))).
Proof.
  intros save session Huser Hconsumer.
  assert (Hupd : forall annotation fields admin k v,
             In k PROTECTED_FIELDS ->
             _update_annotation save annotation (Dict.set fields k v) admin =
             _update_annotation save annotation (Dict.remove fields k) admin).
  { intros annotation fields admin k v Hk.
    rewrite (_update_annotation_stripped save annotation (Dict.set fields k v)).
    rewrite (_update_annotation_stripped save annotation (Dict.remove fields k)).
    now rewrite strip_protected_set, strip_protected_remove. }
  split; [|split; [|split]].
  - intros fields user k v Hk.
    rewrite (_create_annotation_stripped save session (Dict.set fields k v)).
    rewrite (_create_annotation_stripped save session (Dict.remove fields k)).
    now rewrite strip_protected_set, strip_protected_remove.
  - intros annotation fields admin k v Hk with_key without_key.
    subst with_key without_key.
    now rewrite (Hupd annotation fields admin k v Hk).
  - intros fields user. exists (created_record session fields user).
    split; [apply _create_annotation_saves|].
    repeat split; apply created_record_unassigned; simpl; auto.
  - intros fields user stored. subst stored. split.
    + rewrite _create_annotation_saves, Huser. apply created_record_user.
    + rewrite _create_annotation_saves, Hconsumer. apply created_record_consumer.
Qed.

(** Creating [{text: hi, user: evil, id: 123}] as alice. *)
Lemma C5_protected_values_discarded_witness :
  save_keeps stamping_save "user" /\
  save_keeps stamping_save "consumer" /\
  In "id" PROTECTED_FIELDS /\
  snd (_create_annotation stamping_save []
         (Dict.set [("text", VStr "hi"); ("user", VStr "evil")] "id" (VStr "123")) alice) =
  snd (_create_annotation stamping_save []
         (Dict.remove [("text", VStr "hi"); ("user", VStr "evil")] "id") alice) /\
  Dict.get
    (snd (_create_annotation stamping_save []
            [("text", VStr "hi"); ("user", VStr "evil"); ("id", VStr "123")] alice))
    "user" = Some (VStr "alice").
Proof.
  assert (Hu : save_keeps stamping_save "user").
  { apply stamping_save_keeps. simpl. intuition discriminate. }
  assert (Hc : save_keeps stamping_save "consumer").
  { apply stamping_save_keeps. simpl. intuition discriminate. }
  assert (Hid : In "id" PROTECTED_FIELDS) by (simpl; tauto).
  destruct (C5_protected_values_discarded stamping_save [] Hu Hc)
    as (Hcreate & _ & _ & Hstored).
  split; [exact Hu|]. split; [exact Hc|]. split; [exact Hid|]. split.
  - exact (Hcreate [("text", VStr "hi"); ("user", VStr "evil")] alice "id" (VStr "123") Hid).
  - exact (proj1 (Hstored
             [("text", VStr "hi"); ("user", VStr "evil"); ("id", VStr "123")] alice)).
Defined.

Lemma contains_share_permissions (fields annotation : dict) :
  Dict.contains (share_permissions fields annotation) "permissions" =
  Dict.contains fields "permissions".
Proof.
  unfold share_permissions.
  destruct (Dict.contains fields "permissions") eqn:E; [|exact E].
  destruct (Dict.get annotation "permissions"); [|exact E].
  unfold Dict.contains. now rewrite get_set_same.
Qed.

(** C9: [_create_annotation] and [_update_annotation] change the mapping the
    caller passed: when the call is over none of [created], [updated],
    [user], [consumer], [id] is left in it, every other key is as the caller
    sent it (after an update the value under [permissions] may have been
    rewritten by the anonymization, the key stays), and the record is built
    or merged from the mapping without those keys. *)
Theorem C9_caller_mapping_loses_protected_keys :
  forall (save : dict -> dict) (session : nipsa_models.Session),
    (forall fields user,
        let fields' := fst (_create_annotation save session fields user) in
        (forall k, In k PROTECTED_FIELDS -> Dict.get fields' k = None) /\
        (forall k, ~ In k PROTECTED_FIELDS -> Dict.get fields' k = Dict.get fields k) /\
        snd (_create_annotation save session fields user) =
        save (created_record session fields' user)) /\
    (forall annotation fields admin,
        let fields' := snd (fst (_update_annotation save annotation fields admin)) in
        (forall k, In k PROTECTED_FIELDS -> Dict.get fields' k = None) /\
        (forall k, ~ In k PROTECTED_FIELDS -> k <> "permissions" ->
                   Dict.get fields' k = Dict.get fields k) /\
        Dict.contains fields' "permissions" = Dict.contains fields "permissions" /\
        _update_annotation save annotation fields admin =
        _update_annotation save annotation (strip_protected fields) admin).
Proof.
  intros save session. split.
  - intros fields user fields'. subst fields'.
    change (fst (_create_annotation save session fields user))
      with (strip_protected fields).
    split; [|split].
    + intros k Hk. apply is_protected_In in Hk.
      now rewrite get_strip_protected, Hk.
    + intros k Hk. now rewrite get_strip_protected, (not_protected k Hk).
    + rewrite _create_annotation_saves. unfold created_record.
      now rewrite strip_protected_idempotent.
  - intros annotation fields admin fields'. subst fields'.
    split; [|split; [|split]].
    + intros k Hk.
      rewrite _update_annotation_fields by now apply protected_not_permissions.
      apply is_protected_In in Hk. now rewrite get_strip_protected, Hk.
    + intros k Hk Hperm.
      rewrite _update_annotation_fields by assumption.
      now rewrite get_strip_protected, (not_protected k Hk).
    + assert (Hstrip : Dict.contains (strip_protected fields) "permissions" =
                       Dict.contains fields "permissions").
      { unfold Dict.contains. now rewrite get_strip_protected. }
      unfold _update_annotation.
      destruct (_ && negb admin); [exact Hstrip|].
      destruct (truthy _); [|exact Hstrip].
      destruct (_anonymize_deletes _) as [a [[]|e]]; simpl;
        now rewrite contains_share_permissions.
    + apply _update_annotation_stripped.
Qed.

(** The caller's mapping after a create and after an update. *)
Lemma C9_caller_mapping_loses_protected_keys_witness :
  In "id" PROTECTED_FIELDS /\
  Dict.get
    (fst (_create_annotation stamping_save []
            [("text", VStr "hi"); ("user", VStr "evil"); ("id", VStr "123")] alice))
    "id" = None /\
  ~ In "text" PROTECTED_FIELDS /\
  "text" <> "permissions" /\
  Dict.get
    (snd (fst (_update_annotation stamping_save bob_annotation
                 [("text", VStr "hi"); ("user", VStr "evil")] false)))
    "text" = Some (VStr "hi").
Proof.
  assert (Hid : In "id" PROTECTED_FIELDS) by (simpl; tauto).
  assert (Htext : ~ In "text" PROTECTED_FIELDS) by (simpl; intuition discriminate).
  assert (Hperm : "text" <> "permissions") by discriminate.
  destruct (C9_caller_mapping_loses_protected_keys stamping_save [])
    as [Hcreate Hupdate].
  split; [exact Hid|]. split.
  - exact (proj1 (Hcreate
             [("text", VStr "hi"); ("user", VStr "evil"); ("id", VStr "123")] alice)
             "id" Hid).
  - split; [exact Htext|]. split; [exact Hperm|].
    exact (proj1 (proj2 (Hupdate bob_annotation
                           [("text", VStr "hi"); ("user", VStr "evil")] false))
             "text" Htext Hperm).
Defined.

(** ** views.py: the update view *)

(** C2: an update whose [permissions] differ from the annotation's (from
    the empty mapping when it has none), sent by a caller without the admin
    capability, is rejected with status 401: [_update_annotation] raises the
    [RuntimeError] and leaves the annotation as it was, the view answers
    with the failure document, and the events notified are those notified
    before the call. *)
Theorem C2_unauthorized_permissions_change_rejected :
  forall (save : dict -> dict) (context : dict) (request : Request)
         (fields : dict) (permissions : value),
    json_body request = Ok fields ->
    Dict.get fields "permissions" = Some permissions ->
    py_ne permissions (Dict.get_default context "permissions" (VDict [])) = true ->
    has_permission request "admin" context = false ->
    _update_annotation save context fields false =
      (context, strip_protected fields, Raise (RuntimeError unauthorized_reason 401)) /\
    exists request',
      update save context request =
        (context, request',
         Ok [("status", VStr "failure"); ("reason", VStr unauthorized_reason)]) /\
      status_code request' = 401 /\
      notified request' = notified request.
Proof.
  intros save context request fields permissions Hbody Hperm Hdiff Hadmin.
  assert (Hreject : _update_annotation save context fields false =
            (context, strip_protected fields,
             Raise (RuntimeError unauthorized_reason 401))).
  { unfold _update_annotation.
    rewrite get_strip_protected. change (is_protected "permissions") with false.
    cbv iota. now rewrite Hperm, Hdiff. }
  split; [exact Hreject|].
  exists (set_status_code request 401).
  unfold update. rewrite Hbody, Hadmin, Hreject. simpl. auto.
Qed.

(** A caller without the admin capability tries to take over bob's
    annotation. *)
Lemma C2_unauthorized_permissions_change_rejected_witness :
  let body := [("text", VStr "mine now");
               ("permissions", VDict [("read", VList [VStr "mallory"])])] in
  exists request',
    update stamping_save bob_annotation (plain_request body) =
      (bob_annotation, request',
       Ok [("status", VStr "failure"); ("reason", VStr unauthorized_reason)]) /\
    status_code request' = 401 /\
    notified request' = [].
Proof.
  intros body.
  exact (proj2 (C2_unauthorized_permissions_change_rejected
                  stamping_save bob_annotation (plain_request body) body
                  (VDict [("read", VList [VStr "mallory"])])
                  eq_refl eq_refl eq_refl eq_refl)).
Defined.

(** C10: when the permission check lets the update through and the merged
    record is flagged [deleted] but has no [user] key, the anonymization
    raises [KeyError] at [annotation.pop('user')]; the view's handler is for
    [RuntimeError] only, so the [KeyError] leaves the view: no failure
    document is returned, the status code is not set and no event is
    published.  The annotation has been merged by then and is not saved. *)
Theorem C10_deleted_without_user_raises_KeyError :
  forall (save : dict -> dict) (context : dict) (request : Request) (fields : dict),
    json_body request = Ok fields ->
    (has_permission request "admin" context = true \/
     forall p, Dict.get fields "permissions" = Some p ->
               py_ne p (Dict.get_default context "permissions" (VDict [])) = false) ->
    let merged := Dict.update context (strip_protected fields) in
    Dict.get merged "deleted" = Some (VBool true) ->
    Dict.get merged "user" = None ->
    _anonymize_deletes merged = (merged, Raise (KeyError "user")) /\
    update save context request = (merged, request, Raise (KeyError "user")).
Proof.
  intros save context request fields Hbody Hcheck merged Hdeleted Huser.
  assert (Hanon : _anonymize_deletes merged = (merged, Raise (KeyError "user"))).
  { unfold _anonymize_deletes, Dict.pop. now rewrite Huser. }
  split; [exact Hanon|].
  unfold update. rewrite Hbody. unfold _update_annotation.
  rewrite get_strip_protected. change (is_protected "permissions") with false.
  cbv iota.
  assert (Hpass :
    (match Dict.get fields "permissions" with
     | Some permissions =>
         py_ne permissions (Dict.get_default context "permissions" (VDict []))
     | None => false
     end && negb (has_permission request "admin" context))%bool = false).
  { destruct Hcheck as [Hadmin|Hsame].
    - rewrite Hadmin. apply andb_false_r.
    - destruct (Dict.get fields "permissions") as [p|]; [|reflexivity].
      now rewrite (Hsame p eq_refl). }
  rewrite Hpass. fold merged.
  unfold Dict.get_default at 1. rewrite Hdeleted. cbn [truthy].
  now rewrite Hanon.
Qed.

(** Editing a record that an earlier update has anonymized. *)
Lemma C10_deleted_without_user_raises_KeyError_witness :
  let body := [("text", VStr "edited")] in
  update stamping_save deleted_annotation (plain_request body) =
    (Dict.update deleted_annotation (strip_protected body),
     plain_request body, Raise (KeyError "user")).
Proof.
  intros body.
  refine (proj2 (C10_deleted_without_user_raises_KeyError
                   stamping_save deleted_annotation (plain_request body) body
                   eq_refl (or_intror _) eq_refl eq_refl)).
  intros p Hp. discriminate Hp.
Defined.

(** ** Anonymization *)

Lemma filter_idempotent {A} (p : A -> bool) (l : list A) :
  filter p (filter p l) = filter p l.
Proof.
  rewrite filter_filter. apply filter_ext. intros x. now destruct (p x).
Qed.

Lemma without_idempotent (user v : value) :
  without user (without user v) = without user v.
Proof.
  destruct v; simpl; try reflexivity. now rewrite filter_idempotent.
Qed.

(** The loop only ever writes under ["permissions"]. *)
Lemma remove_from_permissions_frame (user : value) (actions : list string) :
  forall annotation annotation' r,
    remove_from_permissions user actions annotation = (annotation', r) ->
    forall k, k <> "permissions" ->
              Dict.get annotation' k = Dict.get annotation k.
Proof.
  induction actions as [|action rest IH]; simpl; intros annotation annotation' r H k Hk.
  - now inversion H.
  - destruct (bind _ _) as [permissions'|e].
    + rewrite (IH _ _ _ H k Hk). now apply get_set_other.
    + now inversion H.
Qed.

Section Loop.

Variable user : value.

Lemma remove_from_permissions_filters (actions : list string) :
  forall (annotation d : dict),
    Dict.get annotation "permissions" = Some (VDict d) ->
    (forall action v, Dict.get d action = Some v -> exists roles, v = VList roles) ->
    (forall action, In action actions -> Dict.get d action <> None) ->
    exists annotation' d',
      remove_from_permissions user actions annotation = (annotation', Ok tt) /\
      Dict.get annotation' "permissions" = Some (VDict d') /\
      (forall action, In action actions ->
         Dict.get d' action = option_map (without user) (Dict.get d action)) /\
      (forall action, ~ In action actions ->
         Dict.get d' action = Dict.get d action).
Proof.
  induction actions as [|action rest IH]; intros annotation d Hperm Hlists Hkeys.
  - exists annotation, d. simpl. repeat split; tauto.
  - destruct (Dict.get d action) as [v|] eqn:Hv;
      [|exfalso; apply (Hkeys action); [now left|exact Hv]].
    destruct (Hlists action v Hv) as [roles ->].
    set (filtered := filter (fun role => py_ne role user) roles).
    set (d1 := Dict.set d action (VList filtered)).
    assert (Hd1 : forall b, Dict.get d1 b =
              if String.eqb action b then Some (VList filtered) else Dict.get d b).
    { intros b. unfold d1. destruct (String.eqb action b) eqn:E.
      - apply String.eqb_eq in E; subst b. apply get_set_same.
      - apply String.eqb_neq in E. apply get_set_other. congruence. }
    destruct (IH (Dict.set annotation "permissions" (VDict d1)) d1)
      as (annotation' & d' & Hrun & Hperm' & Hin & Hout).
    + apply get_set_same.
    + intros b v. rewrite Hd1. destruct (String.eqb action b).
      * intros [= <-]. now exists filtered.
      * apply Hlists.
    + intros b Hb. rewrite Hd1. destruct (String.eqb action b); [discriminate|].
      apply Hkeys. now right.
    + exists annotation', d'. split; [|split; [exact Hperm'|split]].
      * simpl. unfold Dict.getitem at 1. rewrite Hperm. simpl.
        unfold Dict.getitem. rewrite Hv. simpl. exact Hrun.
      * intros b Hb.
        destruct (in_dec string_dec b rest) as [Hrest|Hrest].
        -- rewrite (Hin b Hrest), Hd1.
           destruct (String.eqb action b) eqn:E; [|reflexivity].
           apply String.eqb_eq in E; subst b. rewrite Hv. simpl.
           fold filtered. unfold filtered. now rewrite filter_idempotent.
        -- destruct Hb as [<-|Hb]; [|contradiction].
           rewrite (Hout action Hrest), Hd1, String.eqb_refl, Hv. reflexivity.
      * intros b Hb. rewrite (Hout b (fun H => Hb (or_intror H))), Hd1.
        destruct (String.eqb action b) eqn:E; [|reflexivity].
        apply String.eqb_eq in E. exfalso. apply Hb. now left.
Qed.

(** [permissions = annotation.get('permissions', {})] and the loop over
    [permissions.keys()]. *)
Lemma permissions_loop_filters (annotation : dict) :
  well_formed_permissions annotation ->
  exists actions annotation',
    py_keys (Dict.get_default annotation "permissions" (VDict [])) = Ok actions /\
    remove_from_permissions user actions annotation = (annotation', Ok tt) /\
    (forall k, k <> "permissions" ->
               Dict.get annotation' k = Dict.get annotation k) /\
    permissions_without user annotation annotation'.
Proof.
  unfold well_formed_permissions, permissions_without, Dict.get_default.
  destruct (Dict.get annotation "permissions") as [p|] eqn:Hp.
  - intros (d & -> & Hlists).
    destruct (remove_from_permissions_filters (Dict.keys d) annotation d Hp Hlists)
      as (annotation' & d' & Hrun & Hperm' & Hin & Hout).
    { intros action. apply get_keys. }
    exists (Dict.keys d), annotation'. split; [reflexivity|]. split; [exact Hrun|].
    split; [exact (remove_from_permissions_frame _ _ _ _ _ Hrun)|].
    exists d'. split; [exact Hperm'|].
    intros action. destruct (in_dec string_dec action (Dict.keys d)) as [H|H].
    + now apply Hin.
    + rewrite (Hout action H).
      destruct (Dict.get d action) eqn:E; [|reflexivity].
      exfalso. apply H. apply get_keys. congruence.
  - intros _. exists [], annotation. simpl. repeat split; auto.
Qed.

End Loop.

Lemma permissions_without_from (user : value) (a0 a1 a' : dict) :
  Dict.get a1 "permissions" = Dict.get a0 "permissions" ->
  permissions_without user a1 a' -> permissions_without user a0 a'.
Proof. unfold permissions_without. now intros ->. Qed.

Lemma well_formed_permissions_from (a0 a1 : dict) :
  Dict.get a1 "permissions" = Dict.get a0 "permissions" ->
  well_formed_permissions a0 -> well_formed_permissions a1.
Proof. unfold well_formed_permissions. now intros ->. Qed.

(** C3 (as amended): on an annotation that has a [user] and whose
    permissions bind actions to lists, [_anonymize_deletes] removes the
    [user] key, leaving the record without one, and for every action rebuilds
    the list without the identities equal to the original author; the
    actions, the other identities and every other field stay as they were.
    [store.anonymize_deletes] filters the same way on a record flagged
    [deleted], and sets a non-empty [user] to the empty string.  The record
    [{user: bob, permissions: {read: [bob, carol]}}] becomes
    [{permissions: {read: [carol]}}]. *)
Theorem C3_anonymize_removes_author :
  forall (annotation : dict) (user : value),
    Dict.get annotation "user" = Some user ->
    well_formed_permissions annotation ->
    (exists annotation',
        _anonymize_deletes annotation = (annotation', Ok tt) /\
        Dict.get annotation' "user" = None /\
        (forall k, k <> "user" -> k <> "permissions" ->
                   Dict.get annotation' k = Dict.get annotation k) /\
        permissions_without user annotation annotation') /\
    (truthy (Dict.get_default annotation "deleted" (VBool false)) = true ->
     truthy user = true ->
     exists annotation',
        store.anonymize_deletes annotation = (annotation', Ok tt) /\
        Dict.get annotation' "user" = Some (VStr "") /\
        (forall k, k <> "user" -> k <> "permissions" ->
                   Dict.get annotation' k = Dict.get annotation k) /\
        permissions_without user annotation annotation') /\
    _anonymize_deletes bob_annotation =
      ([("permissions", VDict [("read", VList [VStr "carol"])])], Ok tt).
Proof.
  intros annotation user Huser Hwf. split; [|split; [|reflexivity]].
  - set (a1 := Dict.remove annotation "user").
    assert (H1 : Dict.get a1 "permissions" = Dict.get annotation "permissions")
      by (apply get_remove_other; discriminate).
    destruct (permissions_loop_filters user a1
                (well_formed_permissions_from _ _ H1 Hwf))
      as (actions & annotation' & Hkeys & Hrun & Hframe & Hperm).
    exists annotation'. split; [|split; [|split]].
    + unfold _anonymize_deletes, Dict.pop. rewrite Huser. fold a1.
      now rewrite Hkeys.
    + rewrite Hframe by discriminate. apply get_remove_same.
    + intros k Hk1 Hk2. rewrite (Hframe k Hk2). now apply get_remove_other.
    + exact (permissions_without_from _ _ _ _ H1 Hperm).
  - intros Hdeleted Htruthy.
    set (a1 := Dict.set annotation "user" (VStr "")).
    assert (H1 : Dict.get a1 "permissions" = Dict.get annotation "permissions")
      by (apply get_set_other; discriminate).
    destruct (permissions_loop_filters user a1
                (well_formed_permissions_from _ _ H1 Hwf))
      as (actions & annotation' & Hkeys & Hrun & Hframe & Hperm).
    exists annotation'. split; [|split; [|split]].
    + assert (Hu : Dict.get_default annotation "user" (VStr "") = user)
        by (unfold Dict.get_default; now rewrite Huser).
      unfold store.anonymize_deletes. rewrite Hdeleted, Hu. cbv zeta.
      rewrite Htruthy. fold a1. now rewrite Hkeys.
    + rewrite Hframe by discriminate. apply get_set_same.
    + intros k Hk1 Hk2. rewrite (Hframe k Hk2). now apply get_set_other.
    + exact (permissions_without_from _ _ _ _ H1 Hperm).
Qed.

(** A deleted annotation of bob's with two actions. *)
Lemma C3_anonymize_removes_author_witness :
  let annotation :=
    [("user", VStr "bob"); ("deleted", VBool true); ("text", VStr "note");
     ("permissions",
      VDict [("read", VList [VStr "bob"; VStr "carol"]);
             ("admin", VList [VStr "bob"])])] in
  Dict.get annotation "user" = Some (VStr "bob") /\
  well_formed_permissions annotation /\
  exists annotation',
    _anonymize_deletes annotation = (annotation', Ok tt) /\
    Dict.get annotation' "user" = None /\
    (forall k, k <> "user" -> k <> "permissions" ->
               Dict.get annotation' k = Dict.get annotation k) /\
    permissions_without (VStr "bob") annotation annotation'.
Proof.
  intros annotation.
  assert (Hwf : well_formed_permissions annotation).
  { exists [("read", VList [VStr "bob"; VStr "carol"]); ("admin", VList [VStr "bob"])].
    split; [reflexivity|]. intros action v. cbn [Dict.get].
    destruct (String.eqb "read" action); [intros [= <-]; eauto|].
    destruct (String.eqb "admin" action); [intros [= <-]; eauto|discriminate]. }
  split; [reflexivity|]. split; [exact Hwf|].
  exact (proj1 (C3_anonymize_removes_author annotation (VStr "bob") eq_refl Hwf)).
Defined.

(** C3 (as stated) fails on its own example: [_anonymize_deletes] leaves
    the record without a [user] key, which is not the record with the empty
    [user], and [store.anonymize_deletes] does nothing to a record that is
    not flagged [deleted]. *)
Lemma C3_user_key_removed_not_emptied :
  py_eq (VDict (fst (_anonymize_deletes bob_annotation))) (VDict bob_emptied) = false /\
  Dict.get (fst (_anonymize_deletes bob_annotation)) "user" = None /\
  py_eq (VDict (fst (store.anonymize_deletes bob_annotation))) (VDict bob_emptied) = false.
Proof. repeat split. Qed.

(** Once [_anonymize_deletes] has succeeded there is no [user] left to pop. *)
Lemma _anonymize_deletes_again (annotation annotation' : dict) :
  _anonymize_deletes annotation = (annotation', Ok tt) ->
  _anonymize_deletes annotation' = (annotation', Raise (KeyError "user")).
Proof.
  unfold _anonymize_deletes at 1. unfold Dict.pop.
  destruct (Dict.get annotation "user") as [user|] eqn:Huser; [|discriminate].
  destruct (py_keys _) as [actions|e]; [|discriminate].
  intros Hrun.
  assert (Hnone : Dict.get annotation' "user" = None).
  { rewrite (remove_from_permissions_frame _ _ _ _ _ Hrun) by discriminate.
    apply get_remove_same. }
  unfold _anonymize_deletes, Dict.pop. now rewrite Hnone.
Qed.

(** C4, the failing input: anonymizing [bob_annotation] succeeds, and
    anonymizing the result again raises [KeyError] instead of leaving it
    alone; [store.anonymize_deletes], which reads the user with a default,
    leaves an anonymized record as it is. *)
Lemma C4_second_anonymize_raises_KeyError :
  let once := _anonymize_deletes bob_annotation in
  snd once = Ok tt /\
  _anonymize_deletes (fst once) = (fst once, Raise (KeyError "user")) /\
  store.anonymize_deletes deleted_annotation = (deleted_annotation, Ok tt).
Proof. repeat split. Qed.

(** ** search.py *)

Lemma pop_get (d : MultiDict.t) (key : string) :
  snd (MultiDict.pop d key) =
  match Dict.get d key with
  | Some v => Ok v
  | None => Raise (KeyError key)
  end.
Proof.
  induction d as [|[k v] d IH]; simpl; [reflexivity|].
  destruct (String.eqb k key); [reflexivity|].
  destruct (MultiDict.pop d key) as [d' r]. exact IH.
Qed.

Lemma pop_get_other (d : MultiDict.t) (key k' : string) :
  k' <> key -> Dict.get (fst (MultiDict.pop d key)) k' = Dict.get d k'.
Proof.
  intros Hne. induction d as [|[k v] d IH]; simpl; [reflexivity|].
  destruct (String.eqb k key) eqn:E.
  - apply String.eqb_eq in E; subst k. simpl.
    destruct (String.eqb key k') eqn:E'; [|reflexivity].
    apply String.eqb_eq in E'. congruence.
  - destruct (MultiDict.pop d key) as [d' r]. simpl in *. now rewrite IH.
Qed.

(** The [try] block around [int(request_params.pop(key))]. *)
Lemma page_value_attempt (d : MultiDict.t) (key : string) (default : Z) :
  except_ValueError_KeyError
    (s <- snd (MultiDict.pop d key) ;;
     n <- PyInt.int s ;;
     if n <? 0 then Raise ValueError else Ok n) default =
  Ok (page_value (Dict.get d key) default).
Proof.
  rewrite pop_get. unfold page_value, PyInt.int.
  destruct (Dict.get d key) as [s|]; simpl; [|reflexivity].
  destruct (PyInt.parse s) as [n|]; simpl; [|reflexivity].
  now destruct (n <? 0).
Qed.

Lemma nipsa_filter_shape (query : dict) (user_id : option string) (inner : value) :
  Dict.get query "query" = Some inner ->
  nipsa_filter query user_id =
  Ok (Dict.set query "query"
        (VDict [("filtered",
           VDict [("filter",
                   VDict [("bool", VDict [("should", VList (should_clauses user_id))])]);
                  ("query", inner)])])).
Proof.
  intros Hq. unfold nipsa_filter, Dict.getitem. rewrite Hq. simpl.
  unfold should_clauses, not_suppressed_clause.
  destruct user_id as [uid|]; [|reflexivity].
  unfold truthy. now destruct (negb (String.eqb uid "")).
Qed.

(** [build_query] always returns a query, of this shape. *)
Lemma build_query_shape (request_params : MultiDict.t) (user_id : option string) :
  exists sort matches,
    build_query request_params user_id =
    Ok [("from", VInt (page_value (Dict.get request_params "offset") 0));
        ("size", VInt (page_value (Dict.get request_params "limit") 20));
        ("sort", sort);
        ("query",
         VDict [("filtered",
            VDict [("filter",
                    VDict [("bool", VDict [("should", VList (should_clauses user_id))])]);
                   ("query", VDict [("bool", VDict [("must", VList matches)])])])])] /\
    (remaining request_params = [] -> matches = [VDict [("match_all", VDict [])]]).
Proof.
  unfold build_query, remaining. cbv zeta.
  pose proof (page_value_attempt request_params "offset" 0) as Hfrom.
  pose proof (pop_get_other request_params "offset" "limit") as Hget.
  destruct (MultiDict.pop request_params "offset") as [rp1 offset].
  simpl in Hfrom, Hget. rewrite Hfrom. simpl.
  pose proof (page_value_attempt rp1 "limit" 20) as Hsize.
  destruct (MultiDict.pop rp1 "limit") as [rp2 limit].
  simpl in Hsize. rewrite Hsize. simpl.
  rewrite Hget by discriminate.
  destruct (MultiDict.pop_default rp2 "sort" "updated") as [rp3 sort].
  cbn [fst].
  destruct (MultiDict.pop_default rp3 "order" "desc") as [rp4 order].
  simpl.
  destruct (MultiDict.contains rp4 "any") eqn:Hany.
  - eexists. eexists. split.
    + erewrite nipsa_filter_shape by reflexivity. reflexivity.
    + intros ->. discriminate Hany.
  - eexists. eexists. split.
    + erewrite nipsa_filter_shape by reflexivity. reflexivity.
    + intros ->. reflexivity.
Qed.

Lemma page_value_default (request_params : MultiDict.t) (key : string) (default : Z) :
  absent_or_invalid request_params key ->
  page_value (Dict.get request_params key) default = default.
Proof.
  unfold absent_or_invalid, page_value.
  destruct (Dict.get request_params key) as [s|]; [|reflexivity].
  destruct (PyInt.parse s) as [n|]; [|reflexivity].
  intros Hneg. apply Z.ltb_lt in Hneg. now rewrite Hneg.
Qed.

(** C7: [build_query] never fails, and when the first [offset] sent is
    missing, is not a number or is negative the query has [from] 0; in the
    same way a bad [limit] gives [size] 20.  With [offset=-1] the query has
    [from] 0 and with [limit=oops] it has [size] 20. *)
Theorem C7_pagination_defaults :
  forall (request_params : MultiDict.t) (user_id : option string),
    exists q,
      build_query request_params user_id = Ok q /\
      (absent_or_invalid request_params "offset" ->
       Dict.get q "from" = Some (VInt 0)) /\
      (absent_or_invalid request_params "limit" ->
       Dict.get q "size" = Some (VInt 20)) /\
      (exists q1, build_query [("offset", "-1")] user_id = Ok q1 /\
                  Dict.get q1 "from" = Some (VInt 0)) /\
      (exists q2, build_query [("limit", "oops")] user_id = Ok q2 /\
                  Dict.get q2 "size" = Some (VInt 20)).
Proof.
  intros request_params user_id.
  destruct (build_query_shape request_params user_id) as (sort & matches & Hq & _).
  eexists. split; [exact Hq|]. split; [|split; [|split]].
  - intros Hbad. simpl. now rewrite page_value_default.
  - intros Hbad. simpl. now rewrite page_value_default.
  - destruct (build_query_shape [("offset", "-1")] user_id) as (s1 & m1 & H1 & _).
    eexists. split; [exact H1|reflexivity].
  - destruct (build_query_shape [("limit", "oops")] user_id) as (s2 & m2 & H2 & _).
    eexists. split; [exact H2|reflexivity].
Qed.

(** A negative offset and a limit that is not a number, in one request. *)
Lemma C7_pagination_defaults_witness :
  let request_params :=
    [("offset", "-1"); ("uri", "http://example.com/"); ("limit", "oops")] in
  absent_or_invalid request_params "offset" /\
  absent_or_invalid request_params "limit" /\
  exists q,
    build_query request_params (Some "acct:alice@example.com") = Ok q /\
    Dict.get q "from" = Some (VInt 0) /\
    Dict.get q "size" = Some (VInt 20).
Proof.
  intros request_params.
  assert (Hoffset : absent_or_invalid request_params "offset") by (vm_compute; reflexivity).
  assert (Hlimit : absent_or_invalid request_params "limit") by (vm_compute; exact I).
  split; [exact Hoffset|]. split; [exact Hlimit|].
  destruct (C7_pagination_defaults request_params (Some "acct:alice@example.com"))
    as (q & Hq & Hfrom & Hsize & _).
  exists q. split; [exact Hq|]. split; [exact (Hfrom Hoffset)|exact (Hsize Hlimit)].
Defined.

(** A valid page value is used as it is. *)
Lemma build_query_valid_offset (request_params : MultiDict.t) (user_id : option string)
      (s : string) (n : Z) :
  Dict.get request_params "offset" = Some s ->
  PyInt.parse s = Some n -> 0 <= n ->
  exists q, build_query request_params user_id = Ok q /\
            Dict.get q "from" = Some (VInt n).
Proof.
  intros Hget Hparse Hn.
  destruct (build_query_shape request_params user_id) as (sort & matches & Hq & _).
  eexists. split; [exact Hq|]. simpl.
  unfold page_value. rewrite Hget, Hparse.
  destruct (n <? 0) eqn:E; [apply Z.ltb_lt in E; lia|reflexivity].
Qed.

(** *** What is left of the parameters *)

Lemma pop_keys_subset (d : MultiDict.t) (key x : string) :
  In x (Dict.keys (fst (MultiDict.pop d key))) -> In x (Dict.keys d).
Proof.
  induction d as [|[k v] d IH]; simpl; [tauto|].
  destruct (String.eqb k key).
  - simpl. auto.
  - destruct (MultiDict.pop d key) as [d' r]. simpl in *. tauto.
Qed.

Lemma pop_keys_removed (d : MultiDict.t) (key : string) :
  NoDup (Dict.keys d) -> ~ In key (Dict.keys (fst (MultiDict.pop d key))).
Proof.
  induction d as [|[k v] d IH]; simpl; [tauto|].
  intros Hnd. inversion Hnd as [|? ? Hk Hnd']; subst.
  destruct (String.eqb k key) eqn:E.
  - apply String.eqb_eq in E; subst k. exact Hk.
  - apply String.eqb_neq in E. specialize (IH Hnd').
    destruct (MultiDict.pop d key) as [d' r]. simpl in *. tauto.
Qed.

Lemma pop_default_fst (d : MultiDict.t) (key default : string) :
  fst (MultiDict.pop_default d key default) = fst (MultiDict.pop d key).
Proof.
  unfold MultiDict.pop_default.
  now destruct (MultiDict.pop d key) as [d' [v|e]].
Qed.

Lemma pop_keys_NoDup (d : MultiDict.t) (key : string) :
  NoDup (Dict.keys d) -> NoDup (Dict.keys (fst (MultiDict.pop d key))).
Proof.
  induction d as [|[k v] d IH]; simpl; [auto|].
  intros Hnd. inversion Hnd as [|? ? Hk Hnd']; subst.
  destruct (String.eqb k key); [exact Hnd'|].
  pose proof (pop_keys_subset d key k) as Hsub. specialize (IH Hnd').
  destruct (MultiDict.pop d key) as [d' r]. simpl in *.
  constructor; tauto.
Qed.

Lemma remaining_paging_only (request_params : MultiDict.t) :
  (forall k, In k (Dict.keys request_params) -> In k PAGING_KEYS) ->
  NoDup (Dict.keys request_params) ->
  remaining request_params = [].
Proof.
  intros Hkeys Hnd. unfold remaining. cbv zeta. rewrite !pop_default_fst.
  set (rp1 := fst (MultiDict.pop request_params "offset")).
  set (rp2 := fst (MultiDict.pop rp1 "limit")).
  set (rp3 := fst (MultiDict.pop rp2 "sort")).
  set (rp4 := fst (MultiDict.pop rp3 "order")).
  assert (Hnd1 : NoDup (Dict.keys rp1)) by now apply pop_keys_NoDup.
  assert (Hnd2 : NoDup (Dict.keys rp2)) by now apply pop_keys_NoDup.
  assert (Hnd3 : NoDup (Dict.keys rp3)) by now apply pop_keys_NoDup.
  assert (H1 : ~ In "offset" (Dict.keys rp1)) by now apply pop_keys_removed.
  assert (H2 : ~ In "limit" (Dict.keys rp2)) by now apply pop_keys_removed.
  assert (H3 : ~ In "sort" (Dict.keys rp3)) by now apply pop_keys_removed.
  assert (H4 : ~ In "order" (Dict.keys rp4)) by now apply pop_keys_removed.
  assert (S4 : forall x, In x (Dict.keys rp4) -> In x (Dict.keys rp3))
    by (intros x; apply pop_keys_subset).
  assert (S3 : forall x, In x (Dict.keys rp3) -> In x (Dict.keys rp2))
    by (intros x; apply pop_keys_subset).
  assert (S2 : forall x, In x (Dict.keys rp2) -> In x (Dict.keys rp1))
    by (intros x; apply pop_keys_subset).
  assert (S1 : forall x, In x (Dict.keys rp1) -> In x (Dict.keys request_params))
    by (intros x; apply pop_keys_subset).
  assert (Hnone : forall k, ~ In k (Dict.keys rp4)).
  { intros k Hk.
    pose proof (Hkeys k (S1 k (S2 k (S3 k (S4 k Hk))))) as Hpaging.
    unfold PAGING_KEYS in Hpaging. simpl in Hpaging.
    destruct Hpaging as [<-|[<-|[<-|[<-|[]]]]]; auto. }
  clearbody rp4. destruct rp4 as [|[k v] rest]; [reflexivity|].
  exfalso. apply (Hnone k). now left.
Qed.

(** C8: when nothing is left of the parameters once [offset], [limit],
    [sort] and [order] have been popped, so that no match clause results,
    the [must] list of the inner boolean query is the single [match_all]
    clause, and that query selects every document.  Parameters that carry
    only those four keys, each once, or no key at all, are in this case. *)
Theorem C8_match_all_when_no_clauses :
  forall (request_params : MultiDict.t) (user_id : option string),
    (remaining request_params = [] ->
     exists q,
       build_query request_params user_id = Ok q /\
       filtered_query q = Some match_all_query /\
       forall text_match doc,
         Index.query_matches text_match doc match_all_query = true) /\
    ((forall k, In k (Dict.keys request_params) -> In k PAGING_KEYS) ->
     NoDup (Dict.keys request_params) ->
     remaining request_params = []).
Proof.
  intros request_params user_id. split.
  - intros Hrest.
    destruct (build_query_shape request_params user_id)
      as (sort & matches & Hq & Hmatches).
    rewrite (Hmatches Hrest) in Hq.
    eexists. split; [exact Hq|]. split; reflexivity.
  - apply remaining_paging_only.
Qed.

(** Only a page size and a sort order are sent. *)
Lemma C8_match_all_when_no_clauses_witness :
  let request_params := [("limit", "5"); ("sort", "created"); ("order", "asc")] in
  (forall k, In k (Dict.keys request_params) -> In k PAGING_KEYS) /\
  NoDup (Dict.keys request_params) /\
  exists q,
    build_query request_params None = Ok q /\
    filtered_query q = Some match_all_query /\
    forall text_match doc,
      Index.query_matches text_match doc match_all_query = true.
Proof.
  intros request_params.
  assert (Hkeys : forall k, In k (Dict.keys request_params) -> In k PAGING_KEYS).
  { intros k. simpl. tauto. }
  assert (Hnd : NoDup (Dict.keys request_params)).
  { simpl. repeat constructor; simpl; intuition discriminate. }
  split; [exact Hkeys|]. split; [exact Hnd|].
  destruct (C8_match_all_when_no_clauses request_params None) as [Hall Hrest].
  exact (Hall (Hrest Hkeys Hnd)).
Defined.

(** *** The visibility filter *)

Lemma term_eqb_bool (w : value) (b : bool) :
  Index.term_eqb w (VBool b) = true <-> w = VBool b.
Proof.
  destruct w; simpl; try (split; [discriminate|intros [=]]).
  split.
  - intros H. apply Bool.eqb_prop in H. now subst.
  - intros [= ->]. apply Bool.eqb_reflx.
Qed.

Lemma term_eqb_str (w : value) (s : string) :
  Index.term_eqb w (VStr s) = true <-> w = VStr s.
Proof.
  destruct w; simpl; try (split; [discriminate|intros [=]]).
  rewrite String.eqb_eq. split; [now intros ->|now intros [=]].
Qed.

Lemma admits_not_suppressed (doc : dict) :
  Index.filter_admits doc not_suppressed_clause = true <->
  Dict.get doc "not_in_public_site_areas" <> Some (VBool true).
Proof.
  change (Index.filter_admits doc not_suppressed_clause)
    with (negb match Dict.get doc "not_in_public_site_areas" with
               | Some w => Index.term_eqb w (VBool true)
               | None => false
               end).
  destruct (Dict.get doc "not_in_public_site_areas") as [w|].
  - rewrite negb_true_iff, <- not_true_iff_false, term_eqb_bool.
    split; congruence.
  - split; [discriminate|reflexivity].
Qed.

Lemma admits_own (doc : dict) (uid : string) :
  Index.filter_admits doc (VDict [("term", VDict [("user", VStr uid)])]) = true <->
  Dict.get doc "user" = Some (VStr uid).
Proof.
  change (Index.filter_admits doc (VDict [("term", VDict [("user", VStr uid)])]))
    with (match Dict.get doc "user" with
          | Some w => Index.term_eqb w (VStr uid)
          | None => false
          end).
  destruct (Dict.get doc "user") as [w|].
  - rewrite term_eqb_str. split; congruence.
  - split; discriminate.
Qed.

Lemma admits_should (doc : dict) (clauses : list value) :
  Index.filter_admits doc (VDict [("bool", VDict [("should", VList clauses)])]) =
  existsb (Index.filter_admits doc) clauses.
Proof.
  change (Index.filter_admits doc (VDict [("bool", VDict [("should", VList clauses)])]))
    with (existsb (Index.filter_admits doc) clauses && true)%bool.
  apply andb_true_r.
Qed.

(** The filter [nipsa_filter] builds lets a document through exactly when it
    is not suppressed or is the viewer's own. *)
Lemma visibility_filter_admits (doc : dict) (user_id : option string) :
  Index.filter_admits doc
    (VDict [("bool", VDict [("should", VList (should_clauses user_id))])]) = true <->
  Dict.get doc "not_in_public_site_areas" <> Some (VBool true) \/
  exists uid, user_id = Some uid /\ uid <> "" /\
              Dict.get doc "user" = Some (VStr uid).
Proof.
  rewrite admits_should. unfold should_clauses.
  cbn [existsb]. rewrite orb_true_iff, admits_not_suppressed.
  destruct user_id as [uid|].
  - cbn [truthy]. destruct (String.eqb uid "") eqn:E; cbn [negb existsb].
    + apply String.eqb_eq in E. split.
      * intros [H|H]; [now left|discriminate].
      * intros [H|(uid' & [= <-] & Hne & _)]; [now left|contradiction].
    + apply String.eqb_neq in E. rewrite orb_false_r, admits_own. split.
      * intros [H|H]; [now left|right; now exists uid].
      * intros [H|(uid' & [= <-] & _ & H)]; [now left|now right].
  - cbn [existsb]. split.
    + intros [H|H]; [now left|discriminate].
    + intros [H|(uid & [=] & _)]. now left.
Qed.

Lemma should_clauses_policy (user_id : option string) :
  visibility_policy user_id
    (VDict [("bool", VDict [("should", VList (should_clauses user_id))])]).
Proof.
  split; [|split; [|split]].
  - intros doc H. apply visibility_filter_admits. now left.
  - intros doc uid Hid Hne Huser. apply visibility_filter_admits.
    right. now exists uid.
  - intros doc Hflag Hother. apply not_true_iff_false. intros Hadmit.
    apply visibility_filter_admits in Hadmit.
    destruct Hadmit as [H|(uid & Hid & _ & Huser)]; [contradiction|].
    apply Hother. now exists uid.
  - intros [->| ->]; reflexivity.
Qed.

(** C6: the filter that [nipsa_filter] wraps around a query, and so the
    filter of every query [build_query] returns, lets through every document
    whose [not_in_public_site_areas] is not true and, for a viewer with a
    non-empty id, every document whose [user] is that id; it keeps out every
    suppressed document whose [user] is not the viewer's id; and for a viewer
    id that is absent or empty it is the non-suppressed clause alone. *)
Theorem C6_visibility_filter :
  (forall (query : dict) (inner : value) (user_id : option string),
      Dict.get query "query" = Some inner ->
      exists q f,
        nipsa_filter query user_id = Ok q /\
        visibility_filter q = Some f /\
        filtered_query q = Some inner /\
        visibility_policy user_id f) /\
  (forall (request_params : MultiDict.t) (user_id : option string),
      exists q f,
        build_query request_params user_id = Ok q /\
        visibility_filter q = Some f /\
        visibility_policy user_id f).
Proof.
  split.
  - intros query inner user_id Hq.
    eexists. eexists. split; [exact (nipsa_filter_shape query user_id inner Hq)|].
    unfold visibility_filter, filtered_query. rewrite get_set_same.
    split; [reflexivity|]. split; [reflexivity|]. apply should_clauses_policy.
  - intros request_params user_id.
    destruct (build_query_shape request_params user_id) as (sort & matches & Hq & _).
    eexists. eexists. split; [exact Hq|]. split; [reflexivity|].
    apply should_clauses_policy.
Qed.

(** Alice, though suppressed, sees her own annotation. *)
Lemma C6_visibility_filter_witness :
  let query := [("query", match_all_query)] in
  Dict.get query "query" = Some match_all_query /\
  exists q f,
    nipsa_filter query (Some "alice") = Ok q /\
    visibility_filter q = Some f /\
    Index.filter_admits suppressed_by_alice f = true.
Proof.
  intros query. split; [reflexivity|].
  destruct (proj1 C6_visibility_filter query match_all_query (Some "alice") eq_refl)
    as (q & f & Hq & Hf & _ & _ & Hown & _).
  exists q, f. split; [exact Hq|]. split; [exact Hf|].
  apply (Hown suppressed_by_alice "alice"); [reflexivity|discriminate|reflexivity].
Defined.

(** * Further properties *)

(** ** Python equality on well-formed documents *)

Lemma get_In_NoDup {A} (d : list (string * A)) k v :
  NoDup (Dict.keys d) -> In (k, v) d -> Dict.get d k = Some v.
Proof.
  induction d as [|[k' v'] d IH]; simpl; [tauto|].
  intros Hnd [H|H].
  - inversion H; subst. now rewrite String.eqb_refl.
  - inversion Hnd as [|? ? Hk Hnd']; subst.
    destruct (String.eqb k' k) eqn:E; [|now apply IH].
    apply String.eqb_eq in E; subst k'. exfalso. apply Hk.
    unfold Dict.keys. change k with (fst (k, v)). now apply in_map.
Qed.

Lemma py_eq_list_refl (l : list value) :
  Forall (fun x => py_eq x x = true) l ->
  py_eq (VList l) (VList l) = true.
Proof.
  simpl. induction 1 as [|x l Hx _ IH]; [reflexivity|].
  now rewrite Hx, IH.
Qed.

Lemma py_eq_dict_entries (d2 d : list (string * value)) :
  (forall k v, In (k, v) d -> Dict.get d2 k = Some v /\ py_eq v v = true) ->
  (fix all (d : list (string * value)) : bool :=
     match d with
     | [] => true
     | (k, v) :: d' =>
         match Dict.get d2 k with
         | Some w => py_eq v w
         | None => false
         end && all d'
     end) d = true.
Proof.
  induction d as [|[k v] d IH]; intros H; [reflexivity|].
  destruct (H k v (or_introl eq_refl)) as [Hget Hv]. rewrite Hget, Hv. simpl.
  apply IH. intros k' v' Hin. apply H. now right.
Qed.

(** On a document without repeated keys, [==] is reflexive. *)
Lemma py_eq_refl (v : value) : wf_value v -> py_eq v v = true.
Proof.
  induction v using value_nested_ind; intros Hwf; try reflexivity.
  - simpl. apply Bool.eqb_reflx.
  - simpl. apply Z.eqb_refl.
  - simpl. apply String.eqb_refl.
  - apply py_eq_list_refl. inversion Hwf as [| | | |l' Hl|]; subst.
    rewrite Forall_forall in *. auto.
  - inversion Hwf as [| | | | |d' Hnd Hd]; subst.
    cbn [py_eq]. rewrite Nat.eqb_refl. cbn [andb].
    apply py_eq_dict_entries. intros k v Hin. split.
    + now apply get_In_NoDup.
    + rewrite Forall_forall in *. apply (H (k, v) Hin). apply (Hd (k, v) Hin).
Qed.

(** ** The views *)

Lemma remove_from_permissions_raises (user : value) (actions : list string) :
  forall annotation annotation' e,
    remove_from_permissions user actions annotation = (annotation', Raise e) ->
    not_RuntimeError e.
Proof.
  induction actions as [|action rest IH]; simpl; intros annotation annotation' e H.
  - discriminate H.
  - unfold Dict.getitem in H.
    destruct (Dict.get annotation "permissions") as [p|]; simpl in H;
      [|inversion H; intros ? ?; discriminate].
    destruct p as [| | | | |d]; simpl in H;
      try (inversion H; intros ? ?; discriminate).
    unfold Dict.getitem in H.
    destruct (Dict.get d action) as [roles|]; simpl in H;
      [|inversion H; intros ? ?; discriminate].
    destruct (py_iter roles) as [items|e'] eqn:Hiter; simpl in H.
    + exact (IH _ _ _ H).
    + inversion H; subst.
      destruct roles; simpl in Hiter; inversion Hiter; intros ? ?; discriminate.
Qed.

Lemma _anonymize_deletes_raises (annotation annotation' : dict) (e : exn) :
  _anonymize_deletes annotation = (annotation', Raise e) -> not_RuntimeError e.
Proof.
  unfold _anonymize_deletes, Dict.pop.
  destruct (Dict.get annotation "user") as [user|];
    [|intros H; inversion H; intros ? ?; discriminate].
  destruct (py_keys _) as [actions|e'] eqn:Hkeys.
  - apply remove_from_permissions_raises.
  - intros H; inversion H; subst.
    destruct (Dict.get_default _ _ _); simpl in Hkeys; inversion Hkeys;
      intros ? ?; discriminate.
Qed.

Lemma _update_annotation_cases (save : dict -> dict) (annotation fields : dict)
      (admin : bool) :
  _update_annotation save annotation fields admin =
  if (changing_permissions annotation fields && negb admin)%bool then
    (annotation, strip_protected fields, Raise (RuntimeError unauthorized_reason 401))
  else
    let merged := Dict.update annotation (strip_protected fields) in
    if truthy (Dict.get_default merged "deleted" (VBool false)) then
      match _anonymize_deletes merged with
      | (anonymized, Raise e) =>
          (anonymized, share_permissions (strip_protected fields) anonymized, Raise e)
      | (anonymized, Ok _) =>
          (save anonymized, share_permissions (strip_protected fields) anonymized, Ok tt)
      end
    else (save merged, strip_protected fields, Ok tt).
Proof.
  unfold _update_annotation, changing_permissions.
  rewrite get_strip_protected. reflexivity.
Qed.

(** X1: however [update] ends, it ends in one of four ways.  The body is
    not JSON: failure document, status 400.  The permissions are being
    changed without the admin capability: failure document, status 401.  In
    both the annotation is the one passed in and no event is published.  The
    update goes through: the stored annotation is returned, one [update]
    event carrying it is published and the status code is not touched.  Or
    an exception leaves the view, with the request as it was. *)
Theorem X1_update_outcomes :
  forall (save : dict -> dict) (context : dict) (request : Request),
  exists annotation' request' r,
    update save context request = (annotation', request', r) /\
    ((json_body request = Raise ValueError /\
      annotation' = context /\
      request' = set_status_code request 400 /\
      r = Ok (failure no_json_reason)) \/
     (exists fields,
        json_body request = Ok fields /\
        changing_permissions context fields = true /\
        has_permission request "admin" context = false /\
        annotation' = context /\
        request' = set_status_code request 401 /\
        r = Ok (failure unauthorized_reason)) \/
     (exists fields,
        json_body request = Ok fields /\
        (changing_permissions context fields = false \/
         has_permission request "admin" context = true) /\
        request' = notify request (event annotation' "update") /\
        r = Ok annotation') \/
     (exists e,
        r = Raise e /\ request' = request /\
        (json_body request = Raise e \/
         exists fields, json_body request = Ok fields /\ not_RuntimeError e))).
Proof.
  intros save context request. unfold update.
  destruct (json_body request) as [fields|e] eqn:Hbody.
  - rewrite _update_annotation_cases.
    destruct (changing_permissions context fields) eqn:Hch;
      destruct (has_permission request "admin" context) eqn:Hadm; cbn [andb negb].
    2:{ do 3 eexists. split; [reflexivity|]. right. left.
        exists fields. repeat split; auto. }
    all: cbv zeta;
      destruct (truthy _);
      [destruct (_anonymize_deletes _) as [anonymized [[]|e]] eqn:Hanon|];
      try (do 3 eexists; split; [reflexivity|]; right; right; left;
           exists fields; repeat split; auto; fail).
    all: pose proof (_anonymize_deletes_raises _ _ _ Hanon) as Hnr;
      destruct e; try (exfalso; eapply Hnr; reflexivity);
      do 3 eexists; (split; [reflexivity|]); right; right; right;
      eexists; (split; [reflexivity|]); (split; [reflexivity|]);
      right; exists fields; split; auto.
  - destruct e; do 3 eexists; (split; [reflexivity|]);
      try (left; repeat split; reflexivity);
      right; right; right; eexists; (split; [reflexivity|]);
      (split; [reflexivity|]); left; reflexivity.
Qed.

(** *** Merging the payload *)

Lemma get_not_in_keys {A} (d : list (string * A)) k :
  ~ In k (Dict.keys d) -> Dict.get d k = None.
Proof.
  intros H. destruct (Dict.get d k) eqn:E; [|reflexivity].
  exfalso. apply H. apply get_keys. congruence.
Qed.

(** [d.update(other)]: the keys of [other] take its values, the rest stay. *)
Lemma get_update (other : dict) :
  forall (d : dict) k,
    NoDup (Dict.keys other) ->
    Dict.get (Dict.update d other) k =
    match Dict.get other k with
    | Some v => Some v
    | None => Dict.get d k
    end.
Proof.
  unfold Dict.update.
  induction other as [|[k0 v0] rest IH]; intros d k Hnd; [reflexivity|].
  inversion Hnd as [|? ? Hk Hnd']; subst. cbn [fold_left fst snd Dict.get].
  rewrite (IH _ _ Hnd').
  destruct (String.eqb k0 k) eqn:E.
  - apply String.eqb_eq in E; subst k0.
    now rewrite (get_not_in_keys rest k Hk), get_set_same.
  - apply String.eqb_neq in E.
    destruct (Dict.get rest k); [reflexivity|].
    apply get_set_other. congruence.
Qed.

Lemma keys_filter_NoDup {A} (p : string * A -> bool) (d : list (string * A)) :
  NoDup (Dict.keys d) -> NoDup (Dict.keys (filter p d)).
Proof.
  unfold Dict.keys. induction d as [|kv d IH]; simpl; intros Hnd; [constructor|].
  inversion Hnd as [|? ? Hk Hnd']; subst.
  destruct (p kv); simpl; [|now apply IH].
  constructor; [|now apply IH].
  intros Hin. apply Hk. apply in_map_iff in Hin.
  destruct Hin as [x [Hx Hin]]. apply filter_In in Hin.
  apply in_map_iff. exists x. tauto.
Qed.

Lemma strip_protected_NoDup (fields : dict) :
  NoDup (Dict.keys fields) -> NoDup (Dict.keys (strip_protected fields)).
Proof. rewrite strip_protected_filter. apply keys_filter_NoDup. Qed.

(** X2: an update that passes the permission test and does not leave the
    record flagged [deleted] stores the shallow merge: a protected key
    ([created], [updated], [user], [consumer], [id]) keeps the value the
    annotation had, any other key takes the payload's value when the payload
    has the key and keeps its own otherwise.  No key is lost. *)
Theorem X2_update_merges_payload :
  forall (save : dict -> dict) (annotation fields : dict) (admin : bool),
    NoDup (Dict.keys fields) ->
    (changing_permissions annotation fields = false \/ admin = true) ->
    let merged := Dict.update annotation (strip_protected fields) in
    truthy (Dict.get_default merged "deleted" (VBool false)) = false ->
    _update_annotation save annotation fields admin =
      (save merged, strip_protected fields, Ok tt) /\
    (forall k, In k PROTECTED_FIELDS -> Dict.get merged k = Dict.get annotation k) /\
    (forall k v, ~ In k PROTECTED_FIELDS -> Dict.get fields k = Some v ->
                 Dict.get merged k = Some v) /\
    (forall k, Dict.get fields k = None -> Dict.get merged k = Dict.get annotation k).
Proof.
  intros save annotation fields admin Hnd Hpass merged Hlive.
  assert (Hget : forall k, Dict.get merged k =
            match Dict.get (strip_protected fields) k with
            | Some v => Some v
            | None => Dict.get annotation k
            end).
  { intros k. apply get_update. now apply strip_protected_NoDup. }
  split; [|split; [|split]].
  - rewrite _update_annotation_cases.
    assert (Hc : (changing_permissions annotation fields && negb admin)%bool = false).
    { destruct Hpass as [-> | ->]; [reflexivity|apply andb_false_r]. }
    rewrite Hc. cbv zeta. fold merged. now rewrite Hlive.
  - intros k Hk. apply is_protected_In in Hk.
    now rewrite Hget, get_strip_protected, Hk.
  - intros k v Hk Hv.
    now rewrite Hget, get_strip_protected, (not_protected k Hk), Hv.
  - intros k Hk. rewrite Hget, get_strip_protected, Hk.
    now destruct (is_protected k).
Qed.

(** Carol, who may not administer bob's annotation, edits its text and
    tries to set its [user]. *)
Lemma X2_update_merges_payload_witness :
  let fields := [("text", VStr "edited"); ("user", VStr "carol")] in
  let merged := Dict.update bob_annotation (strip_protected fields) in
  _update_annotation stamping_save bob_annotation fields false =
    (stamping_save merged, strip_protected fields, Ok tt) /\
  Dict.get merged "user" = Some (VStr "bob") /\
  Dict.get merged "text" = Some (VStr "edited").
Proof.
  intros fields merged.
  assert (Hnd : NoDup (Dict.keys fields)).
  { simpl. repeat constructor; simpl; intuition discriminate. }
  destruct (X2_update_merges_payload stamping_save bob_annotation fields false
              Hnd (or_introl eq_refl) eq_refl) as (Hrun & Hprot & Hnew & _).
  split; [exact Hrun|]. split.
  - exact (Hprot "user" (or_intror (or_intror (or_introl eq_refl)))).
  - apply (Hnew "text" (VStr "edited")); [|reflexivity].
    simpl. intuition discriminate.
Defined.

(** X3: a payload that carries no [permissions], or carries the very
    permissions the annotation has, is never turned down as unauthorized,
    admin or not; after [update] the status code is the one the request had. *)
Theorem X3_unchanged_permissions_need_no_admin :
  forall (save : dict -> dict) (context : dict) (request : Request) (fields : dict),
    json_body request = Ok fields ->
    (Dict.get fields "permissions" = None \/
     exists p, Dict.get fields "permissions" = Some p /\
               Dict.get context "permissions" = Some p /\ wf_value p) ->
    not_RuntimeError_result
      (snd (_update_annotation save context fields
              (has_permission request "admin" context))) /\
    status_code (snd (fst (update save context request))) = status_code request.
Proof.
  intros save context request fields Hbody Hsame.
  assert (Hch : changing_permissions context fields = false).
  { unfold changing_permissions.
    destruct Hsame as [-> | (p & -> & Hp & Hwf)]; [reflexivity|].
    unfold Dict.get_default, py_ne. now rewrite Hp, py_eq_refl. }
  assert (Hrun : forall admin,
             not_RuntimeError_result (snd (_update_annotation save context fields admin))).
  { intros admin. rewrite _update_annotation_cases, Hch. cbn [andb]. cbv zeta.
    destruct (truthy _); [|exact I].
    destruct (_anonymize_deletes _) as [anonymized [[]|e]] eqn:Hanon; [exact I|].
    exact (_anonymize_deletes_raises _ _ _ Hanon). }
  split; [apply Hrun|].
  unfold update. rewrite Hbody.
  specialize (Hrun (has_permission request "admin" context)).
  destruct (_update_annotation _ _ _ _) as [[a f] [[]|e]]; simpl in *; [reflexivity|].
  destruct e; try reflexivity. exfalso. eapply Hrun. reflexivity.
Qed.

(** Carol sends bob's annotation back with his permissions as they are. *)
Lemma X3_unchanged_permissions_need_no_admin_witness :
  let permissions := VDict [("read", VList [VStr "bob"; VStr "carol"])] in
  let fields := [("text", VStr "edited"); ("permissions", permissions)] in
  wf_value permissions /\
  status_code (snd (fst (update stamping_save bob_annotation (plain_request fields))))
  = 200.
Proof.
  intros permissions fields.
  assert (Hwf : wf_value permissions).
  { constructor.
    - simpl. repeat constructor. simpl. tauto.
    - repeat constructor. }
  split; [exact Hwf|].
  refine (proj2 (X3_unchanged_permissions_need_no_admin
                   stamping_save bob_annotation (plain_request fields) fields
                   eq_refl (or_intror (ex_intro _ permissions _)))).
  split; [reflexivity|split; [reflexivity|exact Hwf]].
Defined.

(** [_anonymize_deletes] on a record that has a user and well-formed
    permissions. *)
Lemma _anonymize_deletes_succeeds (annotation : dict) (user : value) :
  Dict.get annotation "user" = Some user ->
  well_formed_permissions annotation ->
  exists annotation',
    _anonymize_deletes annotation = (annotation', Ok tt) /\
    Dict.get annotation' "user" = None /\
    (forall k, k <> "user" -> k <> "permissions" ->
               Dict.get annotation' k = Dict.get annotation k) /\
    permissions_without user annotation annotation'.
Proof.
  intros Huser Hwf.
  set (a1 := Dict.remove annotation "user").
  assert (H1 : Dict.get a1 "permissions" = Dict.get annotation "permissions")
    by (apply get_remove_other; discriminate).
  destruct (permissions_loop_filters user a1
              (well_formed_permissions_from _ _ H1 Hwf))
    as (actions & annotation' & Hkeys & Hrun & Hframe & Hperm).
  exists annotation'. split; [|split; [|split]].
  - unfold _anonymize_deletes, Dict.pop. rewrite Huser. fold a1.
    now rewrite Hkeys.
  - rewrite Hframe by discriminate. apply get_remove_same.
  - intros k Hk1 Hk2. rewrite (Hframe k Hk2). now apply get_remove_other.
  - exact (permissions_without_from _ _ _ _ H1 Hperm).
Qed.

(** No identity equal to [user] is left in permissions that are
    [permissions_without user]. *)
Lemma permissions_without_author (user : value) (annotation annotation' : dict) :
  well_formed_permissions annotation ->
  permissions_without user annotation annotation' ->
  forall d action roles role,
    Dict.get annotation' "permissions" = Some (VDict d) ->
    Dict.get d action = Some (VList roles) ->
    In role roles -> py_eq role user = false.
Proof.
  unfold well_formed_permissions, permissions_without.
  destruct (Dict.get annotation "permissions") as [p|].
  - intros (d0 & -> & Hlists) (d' & Hd' & Hactions) d action roles role Hd Hroles Hin.
    rewrite Hd' in Hd. inversion Hd; subst d'.
    rewrite Hactions in Hroles.
    destruct (Dict.get d0 action) as [v|] eqn:Hv; [|discriminate].
    destruct (Hlists action v Hv) as [roles0 ->]. simpl in Hroles.
    inversion Hroles; subst roles. apply filter_In in Hin.
    destruct Hin as [_ Hne]. unfold py_ne in Hne. now apply negb_true_iff in Hne.
  - intros _ Hnone d action roles role Hd. congruence.
Qed.

(** X4: an update that passes the permission test and leaves the record
    flagged [deleted], on a record that has a [user] and permissions binding
    actions to lists, goes through: what is stored has no [user], no list of
    its permissions holds an identity equal to the author, every other field
    is as merged, and one [update] event carries the stored record. *)
Theorem X4_update_to_deleted_is_anonymized :
  forall (save : dict -> dict) (context : dict) (request : Request)
         (fields : dict) (author : value),
    save_keeps save "user" ->
    save_keeps save "permissions" ->
    json_body request = Ok fields ->
    (changing_permissions context fields = false \/
     has_permission request "admin" context = true) ->
    let merged := Dict.update context (strip_protected fields) in
    truthy (Dict.get_default merged "deleted" (VBool false)) = true ->
    Dict.get merged "user" = Some author ->
    well_formed_permissions merged ->
    exists anonymized,
      update save context request =
        (save anonymized, notify request (event (save anonymized) "update"),
         Ok (save anonymized)) /\
      Dict.get (save anonymized) "user" = None /\
      (forall d action roles role,
          Dict.get (save anonymized) "permissions" = Some (VDict d) ->
          Dict.get d action = Some (VList roles) ->
          In role roles -> py_eq role author = false) /\
      (forall k, k <> "user" -> k <> "permissions" ->
                 Dict.get anonymized k = Dict.get merged k).
Proof.
  intros save context request fields author Hsu Hsp Hbody Hpass merged
         Hdeleted Huser Hwf.
  destruct (_anonymize_deletes_succeeds merged author Huser Hwf)
    as (anonymized & Hrun & Hnone & Hframe & Hperm).
  exists anonymized. split; [|split; [|split]].
  - unfold update. rewrite Hbody, _update_annotation_cases.
    assert (Hc : (changing_permissions context fields &&
                  negb (has_permission request "admin" context))%bool = false).
    { destruct Hpass as [-> | ->]; [reflexivity|apply andb_false_r]. }
    rewrite Hc. cbv zeta. fold merged. now rewrite Hdeleted, Hrun.
  - now rewrite Hsu.
  - intros d action roles role. rewrite Hsp.
    exact (permissions_without_author author merged anonymized Hwf Hperm
             d action roles role).
  - exact Hframe.
Qed.

(** Bob marks his annotation deleted. *)
Lemma X4_update_to_deleted_is_anonymized_witness :
  let fields := [("deleted", VBool true)] in
  exists anonymized,
    update stamping_save bob_annotation (plain_request fields) =
      (stamping_save anonymized,
       notify (plain_request fields) (event (stamping_save anonymized) "update"),
       Ok (stamping_save anonymized)) /\
    Dict.get (stamping_save anonymized) "user" = None.
Proof.
  intros fields.
  assert (Hu : save_keeps stamping_save "user").
  { apply stamping_save_keeps. simpl. intuition discriminate. }
  assert (Hp : save_keeps stamping_save "permissions").
  { apply stamping_save_keeps. simpl. intuition discriminate. }
  assert (Hwf : well_formed_permissions
                  (Dict.update bob_annotation (strip_protected fields))).
  { exists [("read", VList [VStr "bob"; VStr "carol"])].
    split; [reflexivity|]. intros action v. cbn [Dict.get].
    destruct (String.eqb "read" action); [intros [= <-]; eauto|discriminate]. }
  destruct (X4_update_to_deleted_is_anonymized stamping_save bob_annotation
              (plain_request fields) fields (VStr "bob") Hu Hp eq_refl
              (or_introl eq_refl) eq_refl eq_refl Hwf)
    as (anonymized & Hrun & Hnone & _).
  exists anonymized. split; [exact Hrun|exact Hnone].
Defined.

Lemma created_record_other (session : nipsa_models.Session) (fields : dict)
      (user : auth.User) k :
  ~ In k PROTECTED_FIELDS -> k <> "not_in_public_site_areas" ->
  Dict.get (created_record session fields user) k = Dict.get fields k.
Proof.
  intros Hk Hflag. unfold created_record.
  assert (k <> "user" /\ k <> "consumer") as [H1 H2].
  { split; intros ->; apply Hk; simpl; tauto. }
  destruct (_nipsa session (auth.id user)); through_sets;
    now rewrite get_strip_protected, (not_protected k Hk).
Qed.

(** X5: [create] answers a body that is not JSON with the failure document
    and status 400, publishing nothing.  Otherwise it returns what [save]
    made of the record, publishes one [create] event carrying it and leaves
    the status code alone; in the record handed to [save] every field of the
    payload other than the protected ones and the suppression flag is as the
    client sent it. *)
Theorem X5_create_view :
  forall (save : dict -> dict) (session : nipsa_models.Session)
         (get_user : Request -> auth.User) (request : Request),
    (json_body request = Raise ValueError ->
     create save session get_user request =
       (set_status_code request 400, Ok (failure no_json_reason))) /\
    (forall fields,
        json_body request = Ok fields ->
        let record := created_record session fields (get_user request) in
        create save session get_user request =
          (notify request (event (save record) "create"), Ok (save record)) /\
        (forall k, ~ In k PROTECTED_FIELDS -> k <> "not_in_public_site_areas" ->
                   Dict.get record k = Dict.get fields k)).
Proof.
  intros save session get_user request. split.
  - intros Hbody. unfold create. now rewrite Hbody.
  - intros fields Hbody record. split.
    + unfold create. now rewrite Hbody.
    + intros k. apply created_record_other.
Qed.

(** Alice posts a note with a tag. *)
Lemma X5_create_view_witness :
  let fields := [("text", VStr "hi"); ("tags", VList [VStr "rocq"]); ("id", VStr "123")] in
  let request := plain_request fields in
  let record := created_record [] fields alice in
  create stamping_save [] (fun _ => alice) request =
    (notify request (event (stamping_save record) "create"),
     Ok (stamping_save record)) /\
  Dict.get record "tags" = Some (VList [VStr "rocq"]).
Proof.
  intros fields request record.
  destruct (proj2 (X5_create_view stamping_save [] (fun _ => alice) request)
              fields eq_refl) as [Hrun Hkeep].
  split; [exact Hrun|].
  apply (Hkeep "tags"); [simpl; intuition discriminate|discriminate].
Defined.

(** X6: [delete] reads the annotation's [id] first: without one it raises
    [KeyError] with nothing deleted and nothing published.  With one, the
    record is deleted from the store, one [delete] event carries the
    annotation as it was, and the answer is the confirmation
    [{id, deleted: True}], not the record.  [read] returns the annotation as
    it is and publishes one [read] event.  Neither touches the status code. *)
Theorem X6_delete_and_read_views :
  forall (Storage : Type) (annotation_delete : dict -> Storage -> Storage)
         (context : dict) (request : Request) (storage : Storage),
    (Dict.get context "id" = None ->
     delete Storage annotation_delete context request storage =
       (storage, request, Raise (KeyError "id"))) /\
    (forall id,
        Dict.get context "id" = Some id ->
        delete Storage annotation_delete context request storage =
          (annotation_delete context storage,
           notify request (event context "delete"),
           Ok [("id", id); ("deleted", VBool true)])) /\
    read context request = (notify request (event context "read"), context) /\
    status_code (notify request (event context "read")) = status_code request.
Proof.
  intros Storage annotation_delete context request storage.
  unfold delete, Dict.getitem. split; [|split; [|split]].
  - now intros ->.
  - now intros id ->.
  - reflexivity.
  - reflexivity.
Qed.

(** Deleting a stored annotation from a store that is a list of records. *)
Lemma X6_delete_and_read_views_witness :
  let forget (annotation : dict) (records : list dict) : list dict :=
    filter (fun r => negb (py_eq (VDict r) (VDict annotation))) records in
  delete (list dict) forget deleted_annotation (plain_request [])
    [bob_annotation; deleted_annotation] =
  ([bob_annotation],
   notify (plain_request []) (event deleted_annotation "delete"),
   Ok [("id", VStr "AVGM5w"); ("deleted", VBool true)]).
Proof.
  intros forget.
  exact (proj1 (proj2 (X6_delete_and_read_views (list dict) forget deleted_annotation
                         (plain_request []) [bob_annotation; deleted_annotation]))
           (VStr "AVGM5w") eq_refl).
Defined.

(** ** The queries over one user's annotations *)

Lemma admits_must (doc : dict) (clauses : list value) :
  Index.filter_admits doc (VDict [("bool", VDict [("must", VList clauses)])]) =
  forallb (Index.filter_admits doc) clauses.
Proof.
  change (Index.filter_admits doc (VDict [("bool", VDict [("must", VList clauses)])]))
    with (forallb (Index.filter_admits doc) clauses && true)%bool.
  apply andb_true_r.
Qed.

Lemma admits_suppressed (doc : dict) :
  Index.filter_admits doc
    (VDict [("term", VDict [("not_in_public_site_areas", VBool true)])]) = true <->
  suppressed doc.
Proof.
  unfold suppressed.
  change (Index.filter_admits doc
            (VDict [("term", VDict [("not_in_public_site_areas", VBool true)])]))
    with (match Dict.get doc "not_in_public_site_areas" with
          | Some w => Index.term_eqb w (VBool true)
          | None => false
          end).
  destruct (Dict.get doc "not_in_public_site_areas") as [w|].
  - rewrite term_eqb_bool. split; congruence.
  - split; discriminate.
Qed.

(** X7: the three queries over a user's annotations are built without
    failing, and their filters split that user's annotations in two:
    [query_for_users_annotations] lets through exactly the documents whose
    [user] is the given id, [nipsad_annotations] exactly those of them that
    are suppressed, [not_nipsad_annotations] exactly those that are not; no
    document passes both. *)
Theorem X7_user_queries_partition :
  forall (user_id : string),
  exists all_ nipsad not_nipsad f_all f_nipsad f_not,
    query_for_users_annotations user_id = all_ /\
    nipsad_annotations user_id = Ok nipsad /\
    not_nipsad_annotations user_id = Ok not_nipsad /\
    visibility_filter all_ = Some f_all /\
    visibility_filter nipsad = Some f_nipsad /\
    visibility_filter not_nipsad = Some f_not /\
    forall doc,
      (Index.filter_admits doc f_all = true <-> authored_by user_id doc) /\
      (Index.filter_admits doc f_nipsad = true <->
       authored_by user_id doc /\ suppressed doc) /\
      (Index.filter_admits doc f_not = true <->
       authored_by user_id doc /\ ~ suppressed doc) /\
      Index.filter_admits doc f_all =
      xorb (Index.filter_admits doc f_nipsad) (Index.filter_admits doc f_not).
Proof.
  intros user_id.
  set (own := VDict [("term", VDict [("user", VStr user_id)])]).
  set (flagged := VDict [("term", VDict [("not_in_public_site_areas", VBool true)])]).
  set (wrap := fun clauses : list value =>
         [("query", VDict [("filtered", VDict [("filter", bool_must clauses)])])]).
  exists (wrap [own]), (wrap [own; flagged]), (wrap [own; not_suppressed_clause]),
         (bool_must [own]), (bool_must [own; flagged]),
         (bool_must [own; not_suppressed_clause]).
  split; [reflexivity|]. split; [reflexivity|]. split; [reflexivity|].
  split; [reflexivity|]. split; [reflexivity|]. split; [reflexivity|].
  intros doc. unfold bool_must. rewrite !admits_must. cbn [forallb].
  pose proof (admits_own doc user_id) as Hown.
  pose proof (admits_suppressed doc) as Hsup.
  fold own flagged in Hown, Hsup.
  change (Index.filter_admits doc not_suppressed_clause)
    with (negb (Index.filter_admits doc flagged)).
  unfold authored_by, suppressed in *.
  destruct (Index.filter_admits doc own);
    destruct (Index.filter_admits doc flagged);
    cbn [andb negb xorb].
  - assert (Ha := proj1 Hown eq_refl). assert (Hs := proj1 Hsup eq_refl).
    repeat split; auto; try discriminate. intros [_ H]. contradiction.
  - assert (Ha := proj1 Hown eq_refl).
    assert (Hs : Dict.get doc "not_in_public_site_areas" <> Some (VBool true))
      by (intros H; apply Hsup in H; discriminate).
    repeat split; auto; try discriminate. intros [_ H]. contradiction.
  - assert (Ha : Dict.get doc "user" <> Some (VStr user_id))
      by (intros H; apply Hown in H; discriminate).
    repeat split; auto; try discriminate; try tauto.
  - assert (Ha : Dict.get doc "user" <> Some (VStr user_id))
      by (intros H; apply Hown in H; discriminate).
    repeat split; auto; try discriminate; try tauto.
Qed.

(** ** The whole of a built query *)

Lemma pop_default_value (d : MultiDict.t) (key default : string) :
  snd (MultiDict.pop_default d key default) = Dict.get_default d key default.
Proof.
  unfold MultiDict.pop_default, Dict.get_default.
  pose proof (pop_get d key) as H.
  destruct (MultiDict.pop d key) as [d' [v|e]]; simpl in *;
    destruct (Dict.get d key); now inversion H.
Qed.

Lemma build_query_full (request_params : MultiDict.t) (user_id : option string) :
  build_query request_params user_id =
  Ok [("from", VInt (page_value (Dict.get request_params "offset") 0));
      ("size", VInt (page_value (Dict.get request_params "limit") 20));
      ("sort", sort_by (Dict.get_default request_params "sort" "updated")
                       (Dict.get_default request_params "order" "desc"));
      ("query",
       VDict [("filtered",
          VDict [("filter", viewer_filter user_id);
                 ("query", bool_must (must_clauses (remaining request_params)))])])].
Proof.
  unfold build_query, remaining. cbv zeta.
  pose proof (page_value_attempt request_params "offset" 0) as Hfrom.
  pose proof (pop_get_other request_params "offset") as Hget1.
  destruct (MultiDict.pop request_params "offset") as [rp1 offset].
  simpl in Hfrom, Hget1. rewrite Hfrom. cbn [bind fst].
  pose proof (page_value_attempt rp1 "limit" 20) as Hsize.
  pose proof (pop_get_other rp1 "limit") as Hget2.
  destruct (MultiDict.pop rp1 "limit") as [rp2 limit].
  simpl in Hsize, Hget2. rewrite Hsize. cbn [bind fst].
  pose proof (pop_default_value rp2 "sort" "updated") as Hsort.
  pose proof (pop_default_fst rp2 "sort" "updated") as Hfst.
  pose proof (pop_get_other rp2 "sort") as Hget3.
  destruct (MultiDict.pop_default rp2 "sort" "updated") as [rp3 sort].
  cbn [fst snd] in *. rewrite <- Hfst in Hget3.
  pose proof (pop_default_value rp3 "order" "desc") as Horder.
  destruct (MultiDict.pop_default rp3 "order" "desc") as [rp4 order].
  cbn [fst snd] in *.
  assert (Es : sort = Dict.get_default request_params "sort" "updated").
  { rewrite Hsort. unfold Dict.get_default.
    now rewrite Hget2, Hget1 by discriminate. }
  assert (Eo : order = Dict.get_default request_params "order" "desc").
  { rewrite Horder. unfold Dict.get_default.
    now rewrite Hget3, Hget2, Hget1 by discriminate. }
  rewrite (Hget1 "limit") by discriminate. subst sort order. rewrite Es, Eo.
  unfold must_clauses.
  destruct (MultiDict.contains rp4 "any") eqn:Hany.
  - erewrite nipsa_filter_shape by reflexivity. reflexivity.
  - cbn [app]. unfold MultiDict.items.
    destruct rp4 as [|kv rest];
      (erewrite nipsa_filter_shape by reflexivity); reflexivity.
Qed.

Lemma page_value_valid (request_params : MultiDict.t) (key s : string) (n default : Z) :
  Dict.get request_params key = Some s ->
  PyInt.parse s = Some n -> 0 <= n ->
  page_value (Dict.get request_params key) default = n.
Proof.
  intros Hget Hparse Hn. unfold page_value. rewrite Hget, Hparse.
  destruct (n <? 0) eqn:E; [apply Z.ltb_lt in E; lia|reflexivity].
Qed.

(** X8: the query has exactly the keys [from], [size], [sort] and [query].
    It is sorted on the first [sort] value sent, on [updated] when none is,
    in the first [order] sent, [desc] when none is, unmapped fields always
    ignored.  An [offset] or [limit] whose first value reads as an integer
    that is not negative is used as it is: no upper bound is put on the page
    size. *)
Theorem X8_paging_and_sorting :
  forall (request_params : MultiDict.t) (user_id : option string),
  exists q,
    build_query request_params user_id = Ok q /\
    Dict.keys q = ["from"; "size"; "sort"; "query"] /\
    Dict.get q "sort" =
      Some (sort_by (Dict.get_default request_params "sort" "updated")
                    (Dict.get_default request_params "order" "desc")) /\
    (forall s n,
        Dict.get request_params "offset" = Some s ->
        PyInt.parse s = Some n -> 0 <= n ->
        Dict.get q "from" = Some (VInt n)) /\
    (forall s n,
        Dict.get request_params "limit" = Some s ->
        PyInt.parse s = Some n -> 0 <= n ->
        Dict.get q "size" = Some (VInt n)).
Proof.
  intros request_params user_id. eexists.
  split; [apply build_query_full|]. split; [reflexivity|]. split; [reflexivity|].
  split; intros s n Hget Hparse Hn; cbn [Dict.get String.eqb Ascii.eqb Bool.eqb];
    simpl; now rewrite (page_value_valid _ _ s n _ Hget Hparse Hn).
Qed.

(** The third page of five, oldest first. *)
Lemma X8_paging_and_sorting_witness :
  let request_params :=
    [("offset", " 10 "); ("limit", "+5"); ("sort", "created"); ("order", "asc")] in
  exists q,
    build_query request_params None = Ok q /\
    Dict.get q "sort" = Some (sort_by "created" "asc") /\
    Dict.get q "from" = Some (VInt 10) /\
    Dict.get q "size" = Some (VInt 5).
Proof.
  intros request_params.
  destruct (X8_paging_and_sorting request_params None)
    as (q & Hq & _ & Hsort & Hfrom & Hsize).
  exists q. split; [exact Hq|]. split; [exact Hsort|]. split.
  - apply (Hfrom " 10 " 10); [reflexivity|reflexivity|lia].
  - apply (Hsize "+5" 5); [reflexivity|reflexivity|lia].
Defined.

(** *** What the pops leave *)

Lemma getall_pop_same (d : MultiDict.t) (key : string) :
  MultiDict.getall (fst (MultiDict.pop d key)) key = tl (MultiDict.getall d key).
Proof.
  unfold MultiDict.getall.
  induction d as [|[k v] d IH]; simpl; [reflexivity|].
  destruct (String.eqb k key) eqn:E; simpl; [reflexivity|].
  destruct (MultiDict.pop d key) as [d' r]. simpl in *. now rewrite E.
Qed.

Lemma getall_pop_other (d : MultiDict.t) (key k' : string) :
  k' <> key ->
  MultiDict.getall (fst (MultiDict.pop d key)) k' = MultiDict.getall d k'.
Proof.
  intros Hne. unfold MultiDict.getall.
  induction d as [|[k v] d IH]; simpl; [reflexivity|].
  destruct (String.eqb k key) eqn:E.
  - apply String.eqb_eq in E; subst k. simpl.
    destruct (String.eqb key k') eqn:E'; [|reflexivity].
    apply String.eqb_eq in E'. congruence.
  - destruct (MultiDict.pop d key) as [d' r]. simpl in *.
    destruct (String.eqb k k'); simpl; now rewrite IH.
Qed.

Lemma is_paging_In k : is_paging k = true <-> In k PAGING_KEYS.
Proof.
  unfold is_paging. rewrite existsb_exists. split.
  - intros [x [Hin E]]. apply String.eqb_eq in E. now subst.
  - intros Hin. exists k. split; [assumption|apply String.eqb_refl].
Qed.

(** The values left for a key: all of them, except that a paging key has
    lost its first. *)
Lemma getall_remaining (request_params : MultiDict.t) (k : string) :
  MultiDict.getall (remaining request_params) k =
  if is_paging k then tl (MultiDict.getall request_params k)
  else MultiDict.getall request_params k.
Proof.
  unfold remaining. cbv zeta. rewrite !pop_default_fst.
  unfold is_paging, PAGING_KEYS. cbn [existsb].
  destruct (String.eqb k "order") eqn:E4.
  { apply String.eqb_eq in E4; subst k. cbn.
    rewrite getall_pop_same.
    now rewrite !getall_pop_other by discriminate. }
  apply String.eqb_neq in E4. rewrite getall_pop_other by assumption.
  destruct (String.eqb k "sort") eqn:E3.
  { apply String.eqb_eq in E3; subst k. cbn.
    rewrite getall_pop_same.
    now rewrite !getall_pop_other by discriminate. }
  apply String.eqb_neq in E3. rewrite getall_pop_other by assumption.
  destruct (String.eqb k "limit") eqn:E2.
  { apply String.eqb_eq in E2; subst k. cbn.
    rewrite getall_pop_same.
    now rewrite !getall_pop_other by discriminate. }
  apply String.eqb_neq in E2. rewrite getall_pop_other by assumption.
  destruct (String.eqb k "offset") eqn:E1.
  { apply String.eqb_eq in E1; subst k. cbn. apply getall_pop_same. }
  apply String.eqb_neq in E1. cbn. now apply getall_pop_other.
Qed.

Lemma getall_In (d : MultiDict.t) (k v : string) :
  In v (MultiDict.getall d k) <-> In (k, v) d.
Proof.
  unfold MultiDict.getall. rewrite in_map_iff. split.
  - intros ([k' v'] & Hv & Hin). apply filter_In in Hin. simpl in *.
    destruct Hin as [Hin E]. apply String.eqb_eq in E. now subst.
  - intros Hin. exists (k, v). split; [reflexivity|].
    apply filter_In. split; [assumption|apply String.eqb_refl].
Qed.

Lemma contains_getall (d : MultiDict.t) (k : string) :
  MultiDict.contains d k = match MultiDict.getall d k with [] => false | _ => true end.
Proof.
  unfold MultiDict.contains, MultiDict.getall.
  induction d as [|[k' v'] d IH]; simpl; [reflexivity|].
  destruct (String.eqb k' k); simpl; [reflexivity|exact IH].
Qed.

Lemma match_clause_In (rp : MultiDict.t) (k v : string) :
  In (match_clause (k, v)) (map match_clause rp) <-> In (k, v) rp.
Proof.
  rewrite in_map_iff. split.
  - intros ([k' v'] & E & Hin). unfold match_clause in E. simpl in E.
    now inversion E; subst.
  - intros Hin. now exists (k, v).
Qed.

(** The [match] clauses of the [must] list are the parameters left, [any]
    apart. *)
Lemma must_clauses_match (rp : MultiDict.t) (k v : string) :
  k <> "any" ->
  (In (match_clause (k, v)) (must_clauses rp) <-> In (k, v) rp).
Proof.
  intros Hk. unfold must_clauses, MultiDict.delitem.
  destruct (MultiDict.contains rp "any") eqn:Hany.
  - cbn [fst In]. rewrite match_clause_In, filter_In. cbn [fst].
    split.
    + intros [H|[H _]]; [discriminate H|exact H].
    + intros H. right. split; [exact H|].
      apply negb_true_iff. now apply String.eqb_neq.
  - destruct rp as [|kv rest] eqn:E.
    + simpl. split; [intros [H|[]]; discriminate H|tauto].
    + change (map match_clause (kv :: rest))
        with (match_clause kv :: map match_clause rest).
      cbv iota.
      change (match_clause kv :: map match_clause rest)
        with (map match_clause (kv :: rest)).
      apply match_clause_In.
Qed.

Lemma must_clauses_any (rp : MultiDict.t) :
  (MultiDict.contains rp "any" = true ->
   exists rest, must_clauses rp =
                multi_match_clause (MultiDict.getall rp "any") :: rest) /\
  (MultiDict.contains rp "any" = false ->
   forall values, ~ In (multi_match_clause values) (must_clauses rp)) /\
  (forall v, ~ In (match_clause ("any", v)) (must_clauses rp)) /\
  must_clauses rp <> [].
Proof.
  unfold must_clauses, MultiDict.delitem.
  destruct (MultiDict.contains rp "any") eqn:Hany.
  - split; [intros _; eexists; reflexivity|].
    split; [discriminate|]. split; [|discriminate].
    intros v [H|H]; [discriminate H|].
    cbn [fst] in H. apply match_clause_In, filter_In in H.
    destruct H as [_ H]. discriminate H.
  - split; [discriminate|].
    assert (Hno : forall v, ~ In ("any", v) rp).
    { intros v Hin. apply getall_In in Hin. rewrite contains_getall in Hany.
      destruct (MultiDict.getall rp "any"); [exact Hin|discriminate]. }
    destruct rp as [|kv rest].
    + simpl. split; [|split; [|discriminate]].
      * intros _ values [H|[]]. discriminate H.
      * intros v [H|[]]. discriminate H.
    + change (map match_clause (kv :: rest))
        with (match_clause kv :: map match_clause rest).
      cbv iota.
      change (match_clause kv :: map match_clause rest)
        with (map match_clause (kv :: rest)).
      split; [|split; [|discriminate]].
      * intros _ values Hin. apply in_map_iff in Hin.
        destruct Hin as (x & Hx & _). discriminate Hx.
      * intros v Hin. apply match_clause_In in Hin. exact (Hno v Hin).
Qed.

(** X9: the [must] list of the inner query is never empty.  For a key other
    than [any], it holds a [match] clause on that key for exactly these
    values: every value sent for the key, except that [offset], [limit],
    [sort] and [order] lose their first value, so a paging key sent twice
    ends up matched as a field.  When [any] is sent the list starts with one
    [multi_match] over all its values, in order, and no [match] clause is
    made for [any]; when it is not sent there is no [multi_match]. *)
Theorem X9_must_clauses :
  forall (request_params : MultiDict.t) (user_id : option string),
  exists q must,
    build_query request_params user_id = Ok q /\
    filtered_query q = Some (bool_must must) /\
    must <> [] /\
    (forall k v,
        k <> "any" ->
        (In (match_clause (k, v)) must <->
         In v (if is_paging k then tl (MultiDict.getall request_params k)
               else MultiDict.getall request_params k))) /\
    (forall v, ~ In (match_clause ("any", v)) must) /\
    (MultiDict.contains request_params "any" = true ->
     exists rest,
       must = multi_match_clause (MultiDict.getall request_params "any") :: rest) /\
    (MultiDict.contains request_params "any" = false ->
     forall values, ~ In (multi_match_clause values) must).
Proof.
  intros request_params user_id.
  eexists. exists (must_clauses (remaining request_params)).
  split; [apply build_query_full|]. split; [reflexivity|].
  destruct (must_clauses_any (remaining request_params)) as (Hyes & Hno & Hany & Hne).
  assert (Hc : MultiDict.contains (remaining request_params) "any" =
               MultiDict.contains request_params "any").
  { now rewrite !contains_getall, getall_remaining. }
  assert (Hg : MultiDict.getall (remaining request_params) "any" =
               MultiDict.getall request_params "any")
    by now rewrite getall_remaining.
  split; [exact Hne|]. split; [|split; [exact Hany|split]].
  - intros k v Hk. rewrite (must_clauses_match _ k v Hk), <- getall_In.
    now rewrite getall_remaining.
  - rewrite <- Hc, <- Hg. exact Hyes.
  - rewrite <- Hc. exact Hno.
Qed.

(** A page offset sent twice and two [any] values. *)
Lemma X9_must_clauses_witness :
  let request_params :=
    [("offset", "1"); ("uri", "u"); ("offset", "2"); ("any", "x"); ("any", "y")] in
  exists q must,
    build_query request_params None = Ok q /\
    filtered_query q = Some (bool_must must) /\
    In (match_clause ("offset", "2")) must /\
    exists rest, must = multi_match_clause ["x"; "y"] :: rest.
Proof.
  intros request_params.
  destruct (X9_must_clauses request_params None)
    as (q & must & Hq & Hf & _ & Hmatch & _ & Hany & _).
  exists q, must. split; [exact Hq|]. split; [exact Hf|]. split.
  - apply (Hmatch "offset" "2"); [discriminate|]. simpl. now left.
  - exact (Hany eq_refl).
Defined.

(** *** Paging keys sent at most once *)

Lemma filter_key_absent (d : MultiDict.t) (k : string) :
  MultiDict.getall d k = [] ->
  filter (fun kv => negb (String.eqb (fst kv) k)) d = d.
Proof.
  unfold MultiDict.getall.
  induction d as [|[k' v'] d IH]; simpl; [reflexivity|].
  destruct (String.eqb k' k); simpl; [discriminate|].
  intros H. now rewrite IH.
Qed.

Lemma pop_once (d : MultiDict.t) (k : string) :
  (List.length (MultiDict.getall d k) <= 1)%nat ->
  fst (MultiDict.pop d k) = filter (fun kv => negb (String.eqb (fst kv) k)) d.
Proof.
  induction d as [|[k' v'] d IH]; [reflexivity|].
  unfold MultiDict.getall in *. simpl.
  destruct (String.eqb k' k) eqn:E; simpl.
  - intros Hlen. symmetry. apply filter_key_absent. unfold MultiDict.getall.
    destruct (map snd _); [reflexivity|simpl in Hlen; lia].
  - intros Hlen. specialize (IH Hlen).
    destruct (MultiDict.pop d k) as [d' r]. simpl in *. now rewrite IH.
Qed.

Lemma getall_filter_other (d : MultiDict.t) (k k' : string) :
  k' <> k ->
  MultiDict.getall (filter (fun kv => negb (String.eqb (fst kv) k)) d) k' =
  MultiDict.getall d k'.
Proof.
  intros Hne. unfold MultiDict.getall. rewrite filter_filter. f_equal.
  apply filter_ext. intros [k0 v0]. simpl.
  destruct (String.eqb k0 k) eqn:E; [|reflexivity].
  apply String.eqb_eq in E; subst k0. simpl. symmetry.
  apply String.eqb_neq. congruence.
Qed.

Lemma remaining_once (request_params : MultiDict.t) :
  (forall k, In k PAGING_KEYS ->
             (List.length (MultiDict.getall request_params k) <= 1)%nat) ->
  remaining request_params =
  filter (fun kv => negb (is_paging (fst kv))) request_params.
Proof.
  intros Honce. unfold remaining. cbv zeta. rewrite !pop_default_fst.
  rewrite (pop_once request_params "offset") by (apply Honce; simpl; tauto).
  rewrite (pop_once _ "limit")
    by (rewrite getall_filter_other by discriminate; apply Honce; simpl; tauto).
  rewrite (pop_once _ "sort")
    by (rewrite !getall_filter_other by discriminate; apply Honce; simpl; tauto).
  rewrite (pop_once _ "order")
    by (rewrite !getall_filter_other by discriminate; apply Honce; simpl; tauto).
  rewrite !filter_filter. apply filter_ext. intros [k v].
  unfold is_paging, PAGING_KEYS. cbn [fst existsb].
  destruct (String.eqb k "offset"), (String.eqb k "limit"),
           (String.eqb k "sort"), (String.eqb k "order"); reflexivity.
Qed.

(** X10: when none of [offset], [limit], [sort], [order] is sent more than
    once, the [must] list is exactly: the [multi_match] over the [any]
    values if [any] was sent, then one [match] clause for each other
    parameter that is not a paging key, in the order of the request; and the
    single [match_all] when that leaves nothing. *)
Theorem X10_must_clauses_in_request_order :
  forall (request_params : MultiDict.t) (user_id : option string),
    (forall k, In k PAGING_KEYS ->
               (List.length (MultiDict.getall request_params k) <= 1)%nat) ->
    exists q,
      build_query request_params user_id = Ok q /\
      filtered_query q =
        Some (bool_must
                match (if MultiDict.contains request_params "any"
                       then [multi_match_clause (MultiDict.getall request_params "any")]
                       else []) ++
                      map match_clause (field_params request_params)
                with
                | [] => [VDict [("match_all", VDict [])]]
                | clauses => clauses
                end).
Proof.
  intros request_params user_id Honce. eexists.
  split; [apply build_query_full|].
  unfold filtered_query. cbn [Dict.get String.eqb Ascii.eqb Bool.eqb].
  simpl Dict.get. do 2 f_equal.
  pose proof (getall_remaining request_params "any") as Hg.
  change (is_paging "any") with false in Hg. cbv iota in Hg.
  assert (Hc : MultiDict.contains (remaining request_params) "any" =
               MultiDict.contains request_params "any")
    by now rewrite !contains_getall, Hg.
  unfold must_clauses. rewrite Hc, Hg.
  rewrite (remaining_once request_params Honce).
  destruct (MultiDict.contains request_params "any") eqn:Hany.
  - unfold MultiDict.delitem.
    assert (Hrc : MultiDict.contains
                    (filter (fun kv => negb (is_paging (fst kv))) request_params)
                    "any" = true)
      by now rewrite <- (remaining_once request_params Honce), Hc.
    rewrite Hrc. cbn [fst app]. unfold field_params.
    now rewrite filter_filter.
  - cbn [app].
    assert (Hf : filter (fun kv => negb (is_paging (fst kv))) request_params =
                 field_params request_params).
    { unfold field_params. apply filter_ext_in. intros [k v] Hin. cbn [fst].
      destruct (String.eqb k "any") eqn:E; [|now rewrite andb_true_r].
      apply String.eqb_eq in E; subst k. exfalso.
      apply getall_In in Hin. rewrite contains_getall in Hany.
      destruct (MultiDict.getall request_params "any"); [exact Hin|discriminate]. }
    rewrite Hf. now destruct (map match_clause (field_params request_params)).
Qed.

(** A search on two fields, five results a page. *)
Lemma X10_must_clauses_in_request_order_witness :
  let request_params := [("uri", "http://example.com/"); ("limit", "5"); ("tags", "rocq")] in
  exists q,
    build_query request_params None = Ok q /\
    filtered_query q =
      Some (bool_must [match_clause ("uri", "http://example.com/");
                       match_clause ("tags", "rocq")]).
Proof.
  intros request_params.
  apply (X10_must_clauses_in_request_order request_params None).
  intros k Hk. simpl in Hk.
  destruct Hk as [<-|[<-|[<-|[<-|[]]]]]; simpl; lia.
Defined.

(** ** search *)

(** X11: [search] runs the hits query and the count query with one and the
    same query, the one [build_query] makes for the user's id, or for no id
    when there is no user.  Its filter lets a document through exactly when
    the document is not suppressed or is the user's own.  When both calls
    answer and the count has [hits.total], the result is the rows and that
    total; an exception of either call leaves [search]. *)
Theorem X11_search_uses_one_filtered_query :
  forall (search_raw : dict -> option dict -> option auth.User -> bool -> result value)
         (request_params : MultiDict.t) (user : option auth.User),
  exists q,
    build_query request_params (option_map auth.id user) = Ok q /\
    visibility_filter q = Some (viewer_filter (option_map auth.id user)) /\
    (forall doc,
        Index.filter_admits doc (viewer_filter (option_map auth.id user)) = true <->
        ~ suppressed doc \/
        exists u, user = Some u /\ auth.id u <> "" /\ authored_by (auth.id u) doc) /\
    (forall rows count hits total,
        search_raw q None user false = Ok rows ->
        search_raw q (Some [("search_type", VStr "count")]) None true = Ok count ->
        py_subscript count "hits" = Ok hits ->
        py_subscript hits "total" = Ok total ->
        search search_raw request_params user =
          Ok [("rows", rows); ("total", total)]) /\
    (forall e,
        search_raw q None user false = Raise e ->
        search search_raw request_params user = Raise e) /\
    (forall rows e,
        search_raw q None user false = Ok rows ->
        search_raw q (Some [("search_type", VStr "count")]) None true = Raise e ->
        search search_raw request_params user = Raise e).
Proof.
  intros search_raw request_params user. eexists.
  split; [apply build_query_full|]. split; [reflexivity|].
  split; [|split; [|split]].
  - intros doc. unfold viewer_filter, suppressed, authored_by.
    rewrite visibility_filter_admits. split.
    + intros [H|(uid & Hid & Hne & Hdoc)]; [now left|right].
      destruct user as [u|]; [|discriminate]. simpl in Hid.
      inversion Hid; subst uid. now exists u.
    + intros [H|(u & -> & Hne & Hdoc)]; [now left|right].
      now exists (auth.id u).
  - intros rows count hits total Hrows Hcount Hhits Htotal.
    unfold search. rewrite build_query_full. cbn [bind].
    rewrite Hrows. cbn [bind]. rewrite Hcount. cbn [bind].
    rewrite Hhits. cbn [bind]. now rewrite Htotal.
  - intros e He. unfold search. rewrite build_query_full. cbn [bind].
    now rewrite He.
  - intros rows e Hrows He. unfold search. rewrite build_query_full. cbn [bind].
    rewrite Hrows. cbn [bind]. now rewrite He.
Qed.

(** An anonymous search against an index that holds one public annotation. *)
Lemma X11_search_uses_one_filtered_query_witness :
  let search_raw :=
    fun (q : dict) (params : option dict) (user : option auth.User) (raw : bool) =>
      if raw then Ok (VDict [("hits", VDict [("total", VInt 1)])])
      else Ok (VList [VDict bob_annotation]) in
  search search_raw [("uri", "http://example.com/")] None =
    Ok [("rows", VList [VDict bob_annotation]); ("total", VInt 1)].
Proof.
  intros search_raw.
  destruct (X11_search_uses_one_filtered_query search_raw
              [("uri", "http://example.com/")] None)
    as (q & _ & _ & _ & Hok & _).
  exact (Hok (VList [VDict bob_annotation])
             (VDict [("hits", VDict [("total", VInt 1)])])
             (VDict [("total", VInt 1)]) (VInt 1)
             eq_refl eq_refl eq_refl eq_refl).
Defined.

(** ** store.py: anonymization *)

Lemma set_same {A} (d : list (string * A)) k v :
  Dict.get d k = Some v -> Dict.set d k v = d.
Proof.
  induction d as [|[k' v'] d IH]; simpl; [discriminate|].
  destruct (String.eqb k' k) eqn:E.
  - apply String.eqb_eq in E; subst k'. now intros [= ->].
  - intros H. now rewrite IH.
Qed.

Lemma filter_all {A} (p : A -> bool) (l : list A) :
  (forall x, In x l -> p x = true) -> filter p l = l.
Proof.
  induction l as [|x l IH]; simpl; intros H; [reflexivity|].
  rewrite (H x (or_introl eq_refl)). f_equal. apply IH. auto.
Qed.

(** The loop changes nothing when no list holds the user. *)
Lemma remove_from_permissions_noop (user : value) (actions : list string)
      (annotation d : dict) :
  Dict.get annotation "permissions" = Some (VDict d) ->
  (forall action, In action actions ->
     exists roles, Dict.get d action = Some (VList roles) /\
                   forall role, In role roles -> py_ne role user = true) ->
  remove_from_permissions user actions annotation = (annotation, Ok tt).
Proof.
  intros Hperm. induction actions as [|action rest IH]; intros Hclean;
    [reflexivity|].
  destruct (Hclean action (or_introl eq_refl)) as (roles & Hroles & Hne).
  simpl. unfold Dict.getitem at 1. rewrite Hperm. simpl.
  unfold Dict.getitem. rewrite Hroles. simpl.
  rewrite (filter_all _ roles Hne), (set_same d action _ Hroles),
          (set_same annotation "permissions" _ Hperm).
  apply IH. intros a Ha. apply Hclean. now right.
Qed.

(** X12: on a record whose permissions bind actions to lists,
    [store.anonymize_deletes] never fails, with or without a [user] key, and
    when no list holds the empty string as an identity, anonymizing what it
    has anonymized changes nothing more. *)
Theorem X12_store_anonymize_idempotent :
  forall (annotation : dict),
    well_formed_permissions annotation ->
    no_empty_identity annotation ->
    exists once,
      store.anonymize_deletes annotation = (once, Ok tt) /\
      store.anonymize_deletes once = (once, Ok tt).
Proof.
  intros annotation Hwf Hclean. unfold store.anonymize_deletes at 1.
  destruct (truthy (Dict.get_default annotation "deleted" (VBool false))) eqn:Hdel.
  2:{ exists annotation. split; [reflexivity|].
      unfold store.anonymize_deletes. now rewrite Hdel. }
  set (user := Dict.get_default annotation "user" (VStr "")).
  cbv zeta.
  set (a1 := if truthy user then Dict.set annotation "user" (VStr "") else annotation).
  assert (H1 : forall k, k <> "user" -> Dict.get a1 k = Dict.get annotation k).
  { intros k Hk. unfold a1. destruct (truthy user); [|reflexivity].
    now apply get_set_other. }
  assert (Hwf1 : well_formed_permissions a1)
    by (apply (well_formed_permissions_from annotation); [apply H1; discriminate|exact Hwf]).
  destruct (permissions_loop_filters user a1 Hwf1)
    as (actions & once & Hkeys & Hrun & Hframe & Hperm).
  exists once. rewrite Hkeys. split; [exact Hrun|].
  (* the second pass *)
  set (user2 := Dict.get_default once "user" (VStr "")).
  assert (Hu2 : truthy user2 = false /\ (user2 = user \/ user2 = VStr "")).
  { unfold user2, Dict.get_default. rewrite Hframe by discriminate.
    unfold a1. destruct (truthy user) eqn:Ht.
    - rewrite get_set_same. split; [reflexivity|now right].
    - fold (Dict.get_default annotation "user" (VStr "")). fold user.
      split; [exact Ht|now left]. }
  destruct Hu2 as [Ht2 Hu2].
  unfold store.anonymize_deletes.
  assert (Hdel2 : Dict.get_default once "deleted" (VBool false) =
                  Dict.get_default annotation "deleted" (VBool false)).
  { unfold Dict.get_default. now rewrite Hframe, H1 by discriminate. }
  rewrite Hdel2, Hdel. fold user2. cbv zeta. rewrite Ht2.
  unfold permissions_without in Hperm. unfold well_formed_permissions in Hwf1.
  unfold Dict.get_default at 1.
  destruct (Dict.get a1 "permissions") as [p|] eqn:Hp1.
  - destruct Hwf1 as (d1 & -> & Hlists).
    destruct Hperm as (d' & Hd' & Hactions). rewrite Hd'. cbn [py_keys].
    apply (remove_from_permissions_noop user2 (Dict.keys d') once d' Hd').
    intros action Hin. apply get_keys in Hin. rewrite Hactions in *.
    destruct (Dict.get d1 action) as [v|] eqn:Hv; [|contradiction].
    destruct (Hlists action v Hv) as [roles ->]. cbn [option_map without].
    eexists. split; [reflexivity|].
    intros role Hrole. apply filter_In in Hrole. destruct Hrole as [Hrole Hne].
    destruct Hu2 as [-> | ->]; [exact Hne|].
    unfold py_ne. apply negb_true_iff.
    apply (Hclean d1 action roles role); [|exact Hv|exact Hrole].
    now rewrite <- H1 by discriminate.
  - rewrite Hperm. reflexivity.
Qed.

(** Bob's annotation, flagged deleted. *)
Lemma X12_store_anonymize_idempotent_witness :
  let annotation := Dict.set bob_annotation "deleted" (VBool true) in
  exists once,
    store.anonymize_deletes annotation = (once, Ok tt) /\
    store.anonymize_deletes once = (once, Ok tt).
Proof.
  intros annotation.
  apply (X12_store_anonymize_idempotent annotation).
  - exists [("read", VList [VStr "bob"; VStr "carol"])].
    split; [reflexivity|]. intros action v. cbn [Dict.get].
    destruct (String.eqb "read" action); [intros [= <-]; eauto|discriminate].
  - intros d action roles role Hd. inversion Hd; subst d. cbn [Dict.get].
    destruct (String.eqb "read" action); [|discriminate].
    intros [= <-] [<-|[<-|[]]]; reflexivity.
Defined.

(** ** store.py: the Store class *)

Section StoreProperties.

Variable Session : Type.
Variable session : Session.
Variable invoke_subrequest : Store.Subrequest Session -> Store.Response.

(** X13: [Store.read] and [Store.search] put the session on the
    subrequest and raise the HTTP exception of the status only for a status
    above 400: a response with status 400 itself, like any lower one, is
    taken as an answer.  [read] then returns its body decoded from JSON, and
    [search] the [rows] of the decoded body, failing with [ValueError] on a
    body that is not JSON and with [KeyError] on one without [rows]. *)
Theorem X13_store_read_and_search :
  forall (key : string) (query : dict),
    let read_response :=
      invoke_subrequest
        (Store.with_session Session session
           (Store.blank Session (String.append "annotations/" key) [] "GET")) in
    let search_response :=
      invoke_subrequest
        (Store.with_session Session session (Store.blank Session "search" query "GET")) in
    (Store.status_int read_response <= 400 ->
     Store.read Session session invoke_subrequest key =
       Store.of_result (Store.body read_response)) /\
    (400 < Store.status_int read_response ->
     Store.read Session session invoke_subrequest key =
       Store.Raises (Store.HTTPException (Store.status_int read_response))) /\
    (400 < Store.status_int search_response ->
     Store.search Session session invoke_subrequest query =
       Store.Raises (Store.HTTPException (Store.status_int search_response))) /\
    (Store.status_int search_response <= 400 ->
     (forall json rows,
         Store.body search_response = Ok (VDict json) ->
         Dict.get json "rows" = Some rows ->
         Store.search Session session invoke_subrequest query = Store.Returns rows) /\
     (forall json,
         Store.body search_response = Ok (VDict json) ->
         Dict.get json "rows" = None ->
         Store.search Session session invoke_subrequest query =
           Store.Raises (Store.PyError (KeyError "rows"))) /\
     (Store.body search_response = Raise ValueError ->
      Store.search Session session invoke_subrequest query =
        Store.Raises (Store.PyError ValueError))).
Proof.
  intros key query read_response search_response.
  unfold Store.read, Store.search, Store._invoke_subrequest. cbv zeta.
  fold read_response search_response.
  split; [|split; [|split]].
  - intros H. destruct (Store.status_int read_response >? 400) eqn:E; [|reflexivity].
    apply Z.gtb_lt in E. lia.
  - intros H. destruct (Store.status_int read_response >? 400) eqn:E; [reflexivity|].
    rewrite Z.gtb_ltb in E. apply Z.ltb_ge in E. lia.
  - intros H. destruct (Store.status_int search_response >? 400) eqn:E; [reflexivity|].
    rewrite Z.gtb_ltb in E. apply Z.ltb_ge in E. lia.
  - intros H.
    assert (E : (Store.status_int search_response >? 400) = false).
    { rewrite Z.gtb_ltb. apply Z.ltb_ge. lia. }
    rewrite E. cbn [Store.and_then].
    split; [|split].
    + intros json rows Hbody Hrows. rewrite Hbody. cbn [bind py_subscript].
      unfold Dict.getitem. now rewrite Hrows.
    + intros json Hbody Hrows. rewrite Hbody. cbn [bind py_subscript].
      unfold Dict.getitem. now rewrite Hrows.
    + intros Hbody. now rewrite Hbody.
Qed.

Lemma sources_of_hits (hits : list value) :
  Forall is_hit hits ->
  exists annotations,
    Store.sources hits = Ok annotations /\
    Forall2 source_of hits annotations.
Proof.
  induction 1 as [|hit hits (d & id & src & -> & Hid & Hsrc) _ (anns & Hanns & Hall)].
  - exists []. split; [reflexivity|constructor].
  - exists (VDict (Dict.set src "id" id) :: anns). split.
    + cbn [Store.sources py_subscript]. unfold Dict.getitem.
      rewrite Hid, Hsrc. cbn [bind Store.py_setitem]. now rewrite Hanns.
    + constructor; [|exact Hall].
      exists d, id, src, (Dict.set src "id" id).
      repeat split; try assumption; try reflexivity.
      * apply get_set_same.
      * intros k Hk. now apply get_set_other.
Qed.

Lemma sources_without_id (hits : list value) (d : dict) :
  In (VDict d) hits -> Dict.get d "_id" = None ->
  forall annotations, Store.sources hits <> Ok annotations.
Proof.
  induction hits as [|hit hits IH]; intros Hin Hnone annotations; [destruct Hin|].
  cbn [Store.sources]. destruct Hin as [->|Hin].
  - cbn [py_subscript]. unfold Dict.getitem. rewrite Hnone. discriminate.
  - destruct (py_subscript hit "_id") as [id|]; [|discriminate].
    cbn [bind]. destruct (py_subscript hit "_source") as [src|]; [|discriminate].
    cbn [bind]. destruct (Store.py_setitem src "id" id) as [src'|]; [|discriminate].
    cbn [bind]. destruct (Store.sources hits) as [more|] eqn:E; [|discriminate].
    exfalso. exact (IH Hin Hnone more eq_refl).
Qed.

(** X14: when the answer to [search_raw] has a status of at most 400 and a
    body whose [hits.hits] is a list of hits, each an object with an [_id]
    and an object under [_source], the call returns one annotation for each
    hit, in order: the hit's [_source] with [id] set to the hit's [_id] (an
    [id] inside [_source] is overwritten) and every other field as it was.
    If instead some hit is an object without [_id], the call returns no
    list at all. *)
Theorem X14_search_raw_sources :
  forall (query : value) (payload hits_ : dict) (hits : list value),
    let response :=
      invoke_subrequest
        (Store.with_session Session session
           (Store.with_json Session (Store.blank Session "search_raw" [] "POST") query)) in
    Store.status_int response <= 400 ->
    Store.body response = Ok (VDict payload) ->
    Dict.get payload "hits" = Some (VDict hits_) ->
    Dict.get hits_ "hits" = Some (VList hits) ->
    (Forall is_hit hits ->
     exists annotations,
       Store.search_raw Session session invoke_subrequest query =
         Store.Returns annotations /\
       Forall2 source_of hits annotations) /\
    (forall d, In (VDict d) hits -> Dict.get d "_id" = None ->
               forall annotations,
                 Store.search_raw Session session invoke_subrequest query <>
                 Store.Returns annotations).
Proof.
  intros query payload hits_ hits response Hstatus Hbody Hhits Hlist.
  assert (Hrun : Store.search_raw Session session invoke_subrequest query =
                 Store.of_result (Store.sources hits)).
  { unfold Store.search_raw, Store._invoke_subrequest. cbv zeta. fold response.
    assert (E : (Store.status_int response >? 400) = false).
    { rewrite Z.gtb_ltb. apply Z.ltb_ge. lia. }
    rewrite E. cbn [Store.and_then]. rewrite Hbody. cbn [bind py_subscript].
    unfold Dict.getitem at 1. rewrite Hhits. cbn [bind py_subscript].
    unfold Dict.getitem. rewrite Hlist. reflexivity. }
  rewrite Hrun. split.
  - intros Hall. destruct (sources_of_hits hits Hall) as (anns & Hanns & Hrel).
    exists anns. rewrite Hanns. split; [reflexivity|exact Hrel].
  - intros d Hin Hnone annotations H.
    destruct (Store.sources hits) as [anns|e] eqn:E; [|discriminate H].
    exact (sources_without_id hits d Hin Hnone anns E).
Qed.

End StoreProperties.

(** A status of 400 is read as an answer. *)
Lemma X13_store_read_and_search_witness :
  Store.read unit tt one_annotation_store "missing" =
  Store.Returns (VDict [("status", VStr "failure")]).
Proof.
  refine (proj1 (X13_store_read_and_search unit tt one_annotation_store "missing" []) _).
  simpl. lia.
Defined.

(** The one hit comes back with the index's id in place of the stale one. *)
Lemma X14_search_raw_sources_witness :
  let hit := VDict [("_id", VStr "AVGM5w");
                    ("_source", VDict [("id", VStr "stale"); ("text", VStr "hi")])] in
  Forall is_hit [hit] /\
  exists annotations,
    Store.search_raw unit tt one_annotation_store (VDict []) =
      Store.Returns annotations /\
    Forall2 source_of [hit] annotations.
Proof.
  intros hit.
  assert (Hhits : Forall is_hit [hit]).
  { repeat constructor.
    exists [("_id", VStr "AVGM5w");
            ("_source", VDict [("id", VStr "stale"); ("text", VStr "hi")])],
           (VStr "AVGM5w"), [("id", VStr "stale"); ("text", VStr "hi")].
    repeat split. }
  split; [exact Hhits|].
  refine (proj1 (X14_search_raw_sources unit tt one_annotation_store (VDict [])
                   [("hits", VDict [("total", VInt 1); ("hits", VList [hit])])]
                   [("total", VInt 1); ("hits", VList [hit])] [hit]
                   _ eq_refl eq_refl eq_refl) Hhits).
  simpl. lia.
Defined.

(** ** store.py: after_request *)

(** *** split, strip and join *)
















(** *** The endpoint pattern *)

Lemma chars_append (a b : string) :
  chars (String.append a b) = chars a ++ chars b.
Proof.
  unfold chars. induction a as [|c a IH]; simpl; [reflexivity|]. now rewrite IH.
Qed.

Lemma string_of_chars_app (a b : list ascii) :
  string_of_list_ascii (a ++ b) =
  String.append (string_of_list_ascii a) (string_of_list_ascii b).
Proof. induction a as [|c a IH]; simpl; [reflexivity|]. now rewrite IH. Qed.

Lemma strip_prefix_app (p rest : list ascii) :
  Text.strip_prefix p (p ++ rest) = Some rest.
Proof.
  induction p as [|c p IH]; simpl; [now destruct rest|].
  now rewrite Ascii.eqb_refl.
Qed.

Lemma strip_prefix_sound (p l rest : list ascii) :
  Text.strip_prefix p l = Some rest -> l = p ++ rest.
Proof.
  revert l. induction p as [|c p IH]; intros l; simpl.
  - destruct l; now intros [= ->].
  - destruct l as [|c' l]; [discriminate|].
    destruct (Ascii.eqb c c') eqn:E; [|discriminate].
    apply Ascii.eqb_eq in E; subst c'. intros H. now rewrite (IH l H).
Qed.

Lemma strip_suffix_app (s m : list ascii) :
  Text.strip_suffix s (m ++ s) = Some m.
Proof.
  unfold Text.strip_suffix. rewrite rev_app_distr, strip_prefix_app. simpl.
  now rewrite rev_involutive.
Qed.

Lemma strip_suffix_sound (s l m : list ascii) :
  Text.strip_suffix s l = Some m -> l = m ++ s.
Proof.
  unfold Text.strip_suffix.
  destruct (Text.strip_prefix (rev s) (rev l)) as [r|] eqn:E; [|discriminate].
  intros [= <-]. apply strip_prefix_sound in E.
  apply (f_equal (@rev ascii)) in E.
  now rewrite rev_involutive, rev_app_distr, rev_involutive in E.
Qed.

Lemma before_final_newline_cases (l : list ascii) :
  l = Text.before_final_newline l \/
  l = Text.before_final_newline l ++ ["010"%char].
Proof.
  unfold Text.before_final_newline.
  destruct (rev l) as [|c before] eqn:E; [now left|].
  destruct (Ascii.eqb c "010"%char) eqn:Ec; [|now left].
  apply Ascii.eqb_eq in Ec; subst c. right.
  apply (f_equal (@rev ascii)) in E. now rewrite rev_involutive in E.
Qed.

(** The pattern matches the endpoint of every store view, and captures the
    action. *)
Lemma endpoint_action_of_store_endpoint (action : string) :
  action <> "" ->
  forallb Text.is_word (chars action) = true ->
  endpoint_action (store_endpoint action) = Some action.
Proof.
  intros Hne Hword. unfold endpoint_action, store_endpoint.
  fold (chars "store."). fold (chars "_annotation").
  fold (chars (String.append "store." (String.append action "_annotation"))).
  rewrite !chars_append, strip_prefix_app.
  assert (Hkeep : Text.before_final_newline (chars action ++ chars "_annotation") =
                  chars action ++ chars "_annotation").
  { unfold Text.before_final_newline. rewrite rev_app_distr. reflexivity. }
  rewrite Hkeep, strip_suffix_app.
  destruct (chars action) as [|c word] eqn:E.
  - exfalso. apply Hne. unfold chars in E.
    rewrite <- (string_of_list_ascii_of_string action). now rewrite E.
  - rewrite Hword. rewrite <- E. unfold chars.
    now rewrite string_of_list_ascii_of_string.
Qed.

(** The pattern matches nothing else, a final newline apart. *)
Lemma endpoint_action_sound (endpoint action : string) :
  endpoint_action endpoint = Some action ->
  (endpoint = store_endpoint action \/
   endpoint = String.append (store_endpoint action) (String "010"%char "")) /\
  action <> "" /\
  forallb Text.is_word (chars action) = true.
Proof.
  unfold endpoint_action. fold (chars "store."). fold (chars "_annotation").
  fold (chars endpoint).
  destruct (Text.strip_prefix (chars "store.") (chars endpoint)) as [rest|] eqn:Hp;
    [|discriminate].
  apply strip_prefix_sound in Hp.
  destruct (Text.strip_suffix (chars "_annotation") (Text.before_final_newline rest))
    as [[|c word]|] eqn:Hs; try discriminate.
  apply strip_suffix_sound in Hs.
  destruct (forallb Text.is_word (c :: word)) eqn:Hw; [|discriminate].
  intros Hsome.
  assert (Hact : string_of_list_ascii (c :: word) = action) by now inversion Hsome.
  clear Hsome.
  assert (Hchars : chars action = c :: word).
  { rewrite <- Hact. apply (list_ascii_of_string_of_list_ascii (c :: word)). }
  split; [|split; [intros ->; discriminate Hchars|now rewrite Hchars]].
  assert (He : endpoint = string_of_list_ascii (chars endpoint))
    by (symmetry; apply string_of_list_ascii_of_string).
  assert (Hassoc : forall a b t : string,
             String.append (String.append a b) t = String.append a (String.append b t)).
  { intros a b t. induction a as [|x a IH]; simpl; [reflexivity|]. now rewrite IH. }
  assert (Hstore : forall tail,
             string_of_list_ascii (chars "store." ++ ((c :: word) ++ chars "_annotation") ++ tail) =
             String.append (store_endpoint action) (string_of_list_ascii tail)).
  { intros tail. unfold store_endpoint.
    rewrite !string_of_chars_app, Hact. unfold chars.
    rewrite !string_of_list_ascii_of_string.
    now rewrite !Hassoc. }
  destruct (before_final_newline_cases rest) as [Hr|Hr];
    rewrite Hs in Hr; rewrite Hr in Hp; rewrite He, Hp.
  - left. rewrite <- (app_nil_r ((c :: word) ++ chars "_annotation")).
    rewrite Hstore. simpl string_of_list_ascii.
    generalize (store_endpoint action).
    intros s. induction s as [|x s IH]; simpl; [reflexivity|]. now rewrite IH.
  - right. now rewrite Hstore.
Qed.

(** X16: for a request that is not [OPTIONS], [after_request] never alters
    the response.  It publishes nothing when the status is outside 200..299.
    For a status inside and the endpoint [store.<action>_annotation] of a
    store view it decodes the request body when the action is [delete] and
    the response body otherwise, and publishes one event carrying that
    annotation and the action; a body that does not decode raises instead.
    And whenever an event is published, the status was inside 200..299 and
    the endpoint was such an endpoint, a final newline apart. *)
Theorem X16_after_request_events :
  forall (loads : string -> result value) (wrap_annotation : value -> dict)
         (request : flask.Request) (response : flask.Response)
         (notified : list AnnotationEvent),
    flask.method request <> "OPTIONS" ->
    let body_of (action : string) :=
      if String.eqb action "delete" then flask.request_data request
      else flask.response_data response in
    (flask.status response < 200 \/ 300 <= flask.status response ->
     after_request loads wrap_annotation request response notified =
       (notified, Ok response)) /\
    (forall action,
        200 <= flask.status response < 300 ->
        flask.endpoint request = Some (store_endpoint action) ->
        action <> "" ->
        forallb Text.is_word (chars action) = true ->
        after_request loads wrap_annotation request response notified =
          match loads (body_of action) with
          | Ok data =>
              (notified ++ [event (wrap_annotation data) action], Ok response)
          | Raise e => (notified, Raise e)
          end) /\
    (forall events r,
        after_request loads wrap_annotation request response notified = (events, r) ->
        (r = Ok response \/ exists e, r = Raise e) /\
        (events = notified \/
         exists action data endpoint,
           events = notified ++ [event (wrap_annotation data) action] /\
           r = Ok response /\
           200 <= flask.status response < 300 /\
           flask.endpoint request = Some endpoint /\
           (endpoint = store_endpoint action \/
            endpoint = String.append (store_endpoint action) (String "010"%char "")) /\
           loads (body_of action) = Ok data)).
Proof.
  intros loads wrap_annotation request response notified Hmethod body_of.
  apply String.eqb_neq in Hmethod. unfold after_request. rewrite Hmethod.
  split; [|split].
  - intros Hout.
    destruct ((200 <=? flask.status response) && (flask.status response <? 300))%bool
      eqn:E; [|reflexivity].
    apply andb_true_iff in E. destruct E as [E1 E2].
    apply Z.leb_le in E1. apply Z.ltb_lt in E2. lia.
  - intros action [H1 H2] Hep Hne Hword.
    apply Z.leb_le in H1. apply Z.ltb_lt in H2. rewrite H1, H2. cbn [andb].
    rewrite Hep, (endpoint_action_of_store_endpoint action Hne Hword).
    reflexivity.
  - intros events r.
    destruct ((200 <=? flask.status response) && (flask.status response <? 300))%bool
      eqn:E.
    2:{ intros [= <- <-]. split; [now left|now left]. }
    apply andb_true_iff in E. destruct E as [E1 E2].
    apply Z.leb_le in E1. apply Z.ltb_lt in E2.
    destruct (flask.endpoint request) as [endpoint|] eqn:Hep.
    2:{ intros [= <- <-]. split; [right; eauto|now left]. }
    destruct (endpoint_action endpoint) as [action|] eqn:Hact.
    2:{ intros [= <- <-]. split; [now left|now left]. }
    destruct (endpoint_action_sound endpoint action Hact) as (Hshape & _ & _).
    destruct (loads _) as [data|e] eqn:Hloads; intros [= <- <-].
    + split; [now left|]. right. exists action, data, endpoint.
      repeat split; auto.
    + split; [right; eauto|now left].
Qed.

(** A delete answered 204: the event carries what the request body named. *)
Lemma X16_after_request_events_witness :
  after_request loads_delete_body as_annotation delete_request no_content [] =
    ([event [("id", VStr "AVGM5w")] "delete"], Ok no_content).
Proof.
  refine (proj1 (proj2 (X16_after_request_events loads_delete_body as_annotation
                          delete_request no_content [] _))
            "delete" _ eq_refl _ eq_refl).
  - discriminate.
  - simpl. lia.
  - discriminate.
Defined.

(** ** Anonymizing a record with malformed permissions *)

Lemma remove_from_permissions_not_iterable (user : value) (bad : string) (v : value) :
  py_iter v = Raise TypeError ->
  forall (actions : list string) (annotation d : dict),
    Dict.get annotation "permissions" = Some (VDict d) ->
    Dict.get d bad = Some v ->
    (forall action, In action actions -> Dict.get d action <> None) ->
    In bad actions ->
    snd (remove_from_permissions user actions annotation) = Raise TypeError.
Proof.
  intros Hiter. induction actions as [|action rest IH];
    intros annotation d Hperm Hbad Hkeys Hin; [destruct Hin|].
  simpl. unfold Dict.getitem at 1. rewrite Hperm. simpl. unfold Dict.getitem.
  destruct (String.eqb action bad) eqn:E.
  - apply String.eqb_eq in E; subst action. rewrite Hbad. simpl.
    now rewrite Hiter.
  - apply String.eqb_neq in E.
    destruct (Dict.get d action) as [roles|] eqn:Hroles;
      [|exfalso; apply (Hkeys action); [now left|exact Hroles]].
    simpl. destruct (py_iter roles) as [items|e] eqn:Hit; simpl.
    + apply (IH _ (Dict.set d action
                     (VList (filter (fun role => py_ne role user) items)))).
      * apply get_set_same.
      * rewrite get_set_other by congruence. exact Hbad.
      * intros a Ha. destruct (String.eqb action a) eqn:Ea.
        -- apply String.eqb_eq in Ea; subst a. rewrite get_set_same. discriminate.
        -- apply String.eqb_neq in Ea. rewrite get_set_other by congruence.
           apply Hkeys. now right.
      * destruct Hin as [->|Hin]; [congruence|exact Hin].
    + destruct roles; simpl in Hit; inversion Hit; reflexivity.
Qed.

(** X17: [_anonymize_deletes] takes the [user] out before it looks at the
    permissions.  When the permissions are not a mapping it raises
    [AttributeError], and when some action is bound to a value that cannot
    be iterated ([None], a boolean, a number) it raises [TypeError]; in both
    cases the annotation it leaves behind has already lost its [user]. *)
Theorem X17_anonymize_malformed_permissions :
  forall (annotation : dict) (user permissions : value),
    Dict.get annotation "user" = Some user ->
    Dict.get annotation "permissions" = Some permissions ->
    ((forall d, permissions <> VDict d) ->
     _anonymize_deletes annotation =
       (Dict.remove annotation "user", Raise (AttributeError "keys"))) /\
    (forall d action v,
        permissions = VDict d ->
        Dict.get d action = Some v ->
        py_iter v = Raise TypeError ->
        snd (_anonymize_deletes annotation) = Raise TypeError /\
        Dict.get (fst (_anonymize_deletes annotation)) "user" = None).
Proof.
  intros annotation user permissions Huser Hperm.
  assert (Hperm' : Dict.get (Dict.remove annotation "user") "permissions" =
                   Some permissions)
    by (rewrite get_remove_other by discriminate; exact Hperm).
  unfold _anonymize_deletes, Dict.pop. rewrite Huser.
  unfold Dict.get_default. rewrite Hperm'. split.
  - intros Hnot. destruct permissions; try reflexivity.
    exfalso. now apply (Hnot d).
  - intros d action v -> Hv Hiter. cbn [py_keys]. split.
    + apply (remove_from_permissions_not_iterable user action v Hiter
               (Dict.keys d) _ d Hperm' Hv).
      * intros a Ha. now apply get_keys.
      * apply get_keys. congruence.
    + destruct (remove_from_permissions user (Dict.keys d)
                  (Dict.remove annotation "user")) as [a' r] eqn:Hrun.
      cbn [fst]. rewrite (remove_from_permissions_frame _ _ _ _ _ Hrun) by discriminate.
      apply get_remove_same.
Qed.

(** Permissions sent as a list, and an action bound to null. *)
Lemma X17_anonymize_malformed_permissions_witness :
  _anonymize_deletes [("user", VStr "bob"); ("permissions", VList [VStr "bob"])] =
    ([("permissions", VList [VStr "bob"])], Raise (AttributeError "keys")) /\
  snd (_anonymize_deletes
         [("user", VStr "bob");
          ("permissions", VDict [("read", VList [VStr "bob"]); ("admin", VNone)])]) =
    Raise TypeError.
Proof.
  split.
  - refine (proj1 (X17_anonymize_malformed_permissions
                     [("user", VStr "bob"); ("permissions", VList [VStr "bob"])]
                     (VStr "bob") (VList [VStr "bob"]) eq_refl eq_refl) _).
    intros d. discriminate.
  - exact (proj1 (proj2 (X17_anonymize_malformed_permissions
                     [("user", VStr "bob");
                      ("permissions", VDict [("read", VList [VStr "bob"]); ("admin", VNone)])]
                     (VStr "bob")
                     (VDict [("read", VList [VStr "bob"]); ("admin", VNone)])
                     eq_refl eq_refl)
                   [("read", VList [VStr "bob"]); ("admin", VNone)] "admin" VNone
                   eq_refl eq_refl eq_refl)).
Defined.

(** ** store.py: store_from_settings *)

(** X18: the host of the index comes from the environment before the
    settings: when [ELASTICSEARCH_PORT] is set, as a docker link sets it to
    [tcp://host:port], the host is [http] followed by that value without its
    first three characters, whatever [es.host] says; otherwise it is
    [es.host] when the settings have it, and the app's own default when they
    do not.  [es.index] and [es.compatibility] are copied when present, and
    no other key of the configuration is touched. *)
Theorem X18_store_settings_precedence :
  forall (config environ settings : list (string * string)),
    let app := store_from_settings config environ settings in
    (forall rest,
        Dict.get environ "ELASTICSEARCH_PORT" = Some (String.append "tcp" rest) ->
        Dict.get app "ELASTICSEARCH_HOST" = Some (String.append "http" rest)) /\
    (forall host,
        Dict.get environ "ELASTICSEARCH_PORT" = None ->
        Dict.get settings "es.host" = Some host ->
        Dict.get app "ELASTICSEARCH_HOST" = Some host) /\
    (Dict.get environ "ELASTICSEARCH_PORT" = None ->
     Dict.get settings "es.host" = None ->
     Dict.get app "ELASTICSEARCH_HOST" = Dict.get config "ELASTICSEARCH_HOST") /\
    Dict.get app "ELASTICSEARCH_INDEX" =
      match Dict.get settings "es.index" with
      | Some index => Some index
      | None => Dict.get config "ELASTICSEARCH_INDEX"
      end /\
    Dict.get app "ELASTICSEARCH_COMPATIBILITY_MODE" =
      match Dict.get settings "es.compatibility" with
      | Some compat => Some compat
      | None => Dict.get config "ELASTICSEARCH_COMPATIBILITY_MODE"
      end /\
    (forall k, ~ In k ES_KEYS -> Dict.get app k = Dict.get config k).
Proof.
  intros config environ settings app. subst app. unfold store_from_settings.
  split; [|split; [|split; [|split; [|split]]]].
  - intros rest ->.
    assert (Hrest : from_third (String.append "tcp" rest) = rest).
    { unfold from_third. simpl. apply string_of_list_ascii_of_string. }
    rewrite Hrest.
    destruct (Dict.get settings "es.index"), (Dict.get settings "es.compatibility");
      through_sets; apply get_set_same.
  - intros host -> ->.
    destruct (Dict.get settings "es.index"), (Dict.get settings "es.compatibility");
      through_sets; apply get_set_same.
  - intros -> ->.
    destruct (Dict.get settings "es.index"), (Dict.get settings "es.compatibility");
      through_sets; reflexivity.
  - destruct (Dict.get environ "ELASTICSEARCH_PORT"), (Dict.get settings "es.host"),
             (Dict.get settings "es.index"), (Dict.get settings "es.compatibility");
      through_sets; try apply get_set_same; reflexivity.
  - destruct (Dict.get environ "ELASTICSEARCH_PORT"), (Dict.get settings "es.host"),
             (Dict.get settings "es.index"), (Dict.get settings "es.compatibility");
      through_sets; try apply get_set_same; reflexivity.
  - intros k Hk.
    assert (k <> "ELASTICSEARCH_HOST" /\ k <> "ELASTICSEARCH_INDEX" /\
            k <> "ELASTICSEARCH_COMPATIBILITY_MODE") as (H1 & H2 & H3).
    { repeat split; intros ->; apply Hk; simpl; tauto. }
    destruct (Dict.get environ "ELASTICSEARCH_PORT"), (Dict.get settings "es.host"),
             (Dict.get settings "es.index"), (Dict.get settings "es.compatibility");
      through_sets; reflexivity.
Qed.

(** A linked container wins over the configured host. *)
Lemma X18_store_settings_precedence_witness :
  Dict.get
    (store_from_settings [("DEBUG", "False")]
       [("ELASTICSEARCH_PORT", "tcp://172.17.0.2:9200")]
       [("es.host", "http://localhost:9200"); ("es.index", "annotator")])
    "ELASTICSEARCH_HOST" = Some "http://172.17.0.2:9200".
Proof.
  exact (proj1 (X18_store_settings_precedence [("DEBUG", "False")]
                  [("ELASTICSEARCH_PORT", "tcp://172.17.0.2:9200")]
                  [("es.host", "http://localhost:9200"); ("es.index", "annotator")])
           "://172.17.0.2:9200" eq_refl).
Defined.

(** ** nipsa_filter on any query *)

(** X19: [nipsa_filter] raises [KeyError] on a dict without a [query];
    otherwise it returns the dict with only [query] replaced: the original
    query sits unchanged under [filtered.query], next to the filter, and
    every other key is as it was. *)
Theorem X19_nipsa_filter_wraps_query :
  forall (query : dict) (user_id : option string),
    (Dict.get query "query" = None ->
     nipsa_filter query user_id = Raise (KeyError "query")) /\
    (forall inner,
        Dict.get query "query" = Some inner ->
        exists q,
          nipsa_filter query user_id = Ok q /\
          Dict.get q "query" =
            Some (VDict [("filtered",
                    VDict [("filter", viewer_filter user_id); ("query", inner)])]) /\
          (forall k, k <> "query" -> Dict.get q k = Dict.get query k) /\
          Dict.keys q = Dict.keys query).
Proof.
  intros query user_id. split.
  - intros Hnone. unfold nipsa_filter, Dict.getitem. now rewrite Hnone.
  - intros inner Hq. eexists.
    split; [exact (nipsa_filter_shape query user_id inner Hq)|].
    split; [apply get_set_same|]. split.
    + intros k Hk. now apply get_set_other.
    + clear -Hq. unfold Dict.keys.
      induction query as [|[k v] d IH]; [discriminate Hq|].
      simpl in *. destruct (String.eqb k "query") eqn:E.
      * apply String.eqb_eq in E. now subst k.
      * simpl. f_equal. now apply IH.
Qed.

(** A count query for everything, seen by nobody in particular. *)
Lemma X19_nipsa_filter_wraps_query_witness :
  exists q,
    nipsa_filter [("size", VInt 0); ("query", match_all_query)] None = Ok q /\
    Dict.get q "size" = Some (VInt 0).
Proof.
  destruct (proj2 (X19_nipsa_filter_wraps_query
                     [("size", VInt 0); ("query", match_all_query)] None)
              match_all_query eq_refl) as (q & Hq & _ & Hframe & _).
  exists q. split; [exact Hq|].
  rewrite (Hframe "size"); [reflexivity|discriminate].
Defined.
